(** * The ISY event stream reader (pyisy/events.py)

    A shallow embedding of [EventStream]: the frame assembler
    ([_read_one_response_or_timeout], [_parse_headers]), the event router
    ([_route_message]), the heartbeat check and the session operations
    ([connect], [disconnect], [subscribe], [unsubscribe], the [running]
    setter, [watch]).

    Python values are modelled as follows.
    - [bytes] is [list byte].
    - [str] is [string], holding the UTF-8 encoding of the text.  Substring
      tests and comparisons with ASCII literals agree on the text and on its
      encoding, because UTF-8 is self-synchronising.
    - [int] is [Z]; a [datetime] is the number of microseconds since a fixed
      origin, as a [Z].
    - an exception is a constructor of [exn]; a method is a function from the
      configuration (the object's attributes and the outside world) to an
      outcome and a new configuration. *)

From Stdlib Require Import List ZArith NArith Lia Bool String Ascii.
From Stdlib.Strings Require Import Byte.
From stdpp Require Import gmap strings.
Import ListNotations.

Local Open Scope Z_scope.

(** ** Python bytes *)

Definition bytes := list byte.

(** The bytes of an ASCII literal. *)
Definition B (s : string) : bytes := list_byte_of_string s.

Definition CR : byte := x0d.
Definition LF : byte := x0a.

Definition HTTP_HEADER_SEPERATOR : bytes := [CR; LF].
Definition HTTP_HEADER_BODY_SEPERATOR : bytes := [CR; LF; CR; LF].
Definition HTTP_HEADER_BODY_SEPERATOR_LEN : Z := 4.

Definition code (b : byte) : N := Byte.to_N b.

(** [len(b)] *)
Definition len {A} (l : list A) : Z := Z.of_nat (length l).

(** A slice bound as Python normalises it: a negative bound counts from the
    end, and the result is clamped to [0, len]. *)
Definition clamp_index (n i : Z) : Z :=
  if i <? 0 then Z.max 0 (i + n) else Z.min i n.

(** [l[lo:hi]] *)
Definition slice {A} (l : list A) (lo hi : Z) : list A :=
  let lo' := clamp_index (len l) lo in
  let hi' := clamp_index (len l) hi in
  firstn (Z.to_nat (hi' - lo')) (skipn (Z.to_nat lo') l).

(** [l[lo:]] *)
Definition slice_from {A} (l : list A) (lo : Z) : list A :=
  skipn (Z.to_nat (clamp_index (len l) lo)) l.

(** [s.startswith(sub)] *)
Fixpoint starts_with (sub s : bytes) : bool :=
  match sub, s with
  | [], _ => true
  | _ :: _, [] => false
  | a :: sub', b :: s' => Byte.eqb a b && starts_with sub' s'
  end.

Fixpoint find_at (sub s : bytes) {struct s} : option nat :=
  if starts_with sub s then Some 0%nat
  else match s with
       | [] => None
       | _ :: s' => option_map S (find_at sub s')
       end.

(** [s.find(sub)]: the lowest index where [sub] occurs, or -1. *)
Definition bytes_find (s sub : bytes) : Z :=
  match find_at sub s with
  | Some n => Z.of_nat n
  | None => -1
  end.

(** [s.split(sep)] for a non-empty [sep]: [skip] counts the bytes of a
    separator just matched that are still to be passed over, [cur] is the
    current piece, reversed. *)
Fixpoint split_go (sep : bytes) (skip : nat) (cur s : bytes) : list bytes :=
  match s with
  | [] => [rev cur]
  | c :: s' =>
      match skip with
      | S k => split_go sep k cur s'
      | O =>
          if starts_with sep s
          then rev cur :: split_go sep (length sep - 1) [] s'
          else split_go sep 0 (c :: cur) s'
      end
  end.

Definition bytes_split (s sep : bytes) : list bytes := split_go sep 0 [] s.

(** [s.split(c, 1)] for a one-byte separator: one piece, or two. *)
Fixpoint split_once (c : byte) (s : bytes) : list bytes :=
  match s with
  | [] => [[]]
  | b :: s' =>
      if Byte.eqb b c then [[]; s']
      else match split_once c s' with
           | p :: ps => (b :: p) :: ps
           | [] => [[b]]
           end
  end.

(** ASCII whitespace, as [bytes.strip] and [int] see it. *)
Definition is_space (b : byte) : bool :=
  let n := code b in ((9 <=? n) && (n <=? 13) || (n =? 32))%N.

Fixpoint lstrip (s : bytes) : bytes :=
  match s with
  | b :: s' => if is_space b then lstrip s' else s
  | [] => []
  end.

(** [s.strip()] *)
Definition bytes_strip (s : bytes) : bytes := rev (lstrip (rev (lstrip s))).

Definition lower_byte (b : byte) : byte :=
  let n := code b in
  if ((65 <=? n) && (n <=? 90))%N
  then match Byte.of_N (n + 32) with Some b' => b' | None => b end
  else b.

(** [s.lower()] *)
Definition bytes_lower (s : bytes) : bytes := map lower_byte s.

(** [a == b] *)
Fixpoint bytes_eqb (a b : bytes) : bool :=
  match a, b with
  | [], [] => true
  | x :: a', y :: b' => Byte.eqb x y && bytes_eqb a' b'
  | _, _ => false
  end.

Definition is_digit (b : byte) : bool :=
  let n := code b in ((48 <=? n) && (n <=? 57))%N.

Definition digit_val (b : byte) : Z := Z.of_N (code b) - 48.

(** The digits of a decimal literal: single underscores are allowed between
    digits only.  [prev] tells whether the previous byte was a digit. *)
Fixpoint int_digits (s : bytes) (acc : Z) (prev : bool) : option Z :=
  match s with
  | [] => if prev then Some acc else None
  | b :: s' =>
      if is_digit b then int_digits s' (10 * acc + digit_val b) true
      else if (code b =? 95)%N
           then (if prev then int_digits s' acc false else None)
      else None
  end.

(** [int(s)] on bytes, [None] standing for [ValueError]: surrounding
    whitespace, an optional sign, decimal digits.  (The limit that recent
    interpreters put on the number of digits is not modelled.) *)
Definition int_bytes (s : bytes) : option Z :=
  match bytes_strip s with
  | b :: r =>
      if (code b =? 43)%N then int_digits r 0 false
      else if (code b =? 45)%N then option_map Z.opp (int_digits r 0 false)
      else int_digits (b :: r) 0 false
  | [] => None
  end.

(** Strict UTF-8, as [bytes.decode("utf-8")] accepts it.  The state is the
    number of continuation bytes still expected and the range allowed for
    the next one. *)
Fixpoint utf8_go (s : bytes) (need : nat) (lo hi : N) : bool :=
  match s with
  | [] => match need with O => true | _ => false end
  | b :: s' =>
      let n := code b in
      match need with
      | S k => ((lo <=? n) && (n <=? hi))%N && utf8_go s' k 128%N 191%N
      | O =>
          if (n <? 128)%N then utf8_go s' 0 128%N 191%N
          else if ((194 <=? n) && (n <=? 223))%N then utf8_go s' 1 128%N 191%N
          else if (n =? 224)%N then utf8_go s' 2 160%N 191%N
          else if (n =? 237)%N then utf8_go s' 2 128%N 159%N
          else if ((225 <=? n) && (n <=? 239))%N then utf8_go s' 2 128%N 191%N
          else if (n =? 240)%N then utf8_go s' 3 144%N 191%N
          else if ((241 <=? n) && (n <=? 243))%N then utf8_go s' 3 128%N 191%N
          else if (n =? 244)%N then utf8_go s' 3 128%N 143%N
          else false
      end
  end.

Definition utf8_valid (s : bytes) : bool := utf8_go s 0 128%N 191%N.

(** ** Python str *)

(** [sub in s] *)
Fixpoint str_contains (sub s : string) : bool :=
  String.prefix sub s
  || match s with
     | EmptyString => false
     | String _ s' => str_contains sub s'
     end.

(** [len(s)]: the number of code points, that is of bytes that are not
    continuation bytes. *)
Fixpoint str_len (s : string) : Z :=
  match s with
  | EmptyString => 0
  | String c s' =>
      let n := N_of_ascii c in
      (if ((128 <=? n) && (n <=? 191))%N then 0 else 1) + str_len s'
  end.

(** ** Exceptions and outcomes *)

Inductive exn :=
| ValueError | TypeError | KeyError | NotImplementedError
| UnicodeDecodeError | OSError.

Inductive outcome (A : Type) :=
| Ret (a : A)
| Raise (e : exn).
Arguments Ret {A} a.
Arguments Raise {A} e.

(** The values kept in the connection dictionary [self.data]. *)
Inductive pyval :=
| PyNone
| PyStr (s : string)
| PyInt (z : Z)
| PyFloat (repr : string).

(** A message of [strings.py]: [msg["head"]] and [msg["body"]]. *)
Record template := { head : string; body : string }.

(** A document of [xml.dom.minidom], kept as the text it was parsed from. *)
Inductive xmldoc := Document (text : string).

(** What [events.py] imports and the sources at hand do not contain
    ([constants.py], [strings.py], [helpers.py]), and the library calls that
    are taken as given: the XML parser, [str.format], and [int] on a [str].
    They are parameters of the development. *)
Class Platform := {
  (** [minidom.parseString]; [None] is [ExpatError]. *)
  parseString : string -> option xmldoc;
  (** [helpers.value_from_xml(xml, tag)], [None] being Python's [None]. *)
  value_from_xml : xmldoc -> string -> option string;
  (** [helpers.attr_from_xml(xml, tag, attr)]. *)
  attr_from_xml : xmldoc -> string -> string -> option string;
  (** [text.format] applied to the keyword arguments given. *)
  str_format : string -> gmap string pyval -> outcome string;
  (** [int(s)] for a [str]; [None] is [ValueError]. *)
  int_str : string -> option Z;
  ATTR_ACTION : string;
  ATTR_CONTROL : string;
  ATTR_ID : string;
  ATTR_STREAM_ID : string;
  ATTR_VAR : string;
  PROP_STATUS : string;
  TAG_NODE : string;
  SUB_MSG : template;
  RESUB_MSG : template;
  UNSUB_MSG : template
}.

(** ** The object and the world around it *)

Inductive writer := SocketFile.
Inductive thread := WatchThread.

(** The attributes of an [EventStream] that its methods read or write after
    construction.  [_on_lost_function] records whether a callback was
    given; [self.socket] and [self.isy] are part of the world, and [cert],
    which no method reads, is left out. *)
Record EventStream := {
  _running : bool;
  _writer : option writer;
  _thread : option thread;
  _subscribed : bool;
  _connected : bool;
  _lasthb : option Z;
  _hbwait : Z;
  _on_lost_function : bool;
  data : gmap string pyval;
  _event_buffer : bytes;
  _event_content_length : option Z
}.

Definition set_running (v : bool) (o : EventStream) : EventStream :=
  {| _running := v; _writer := _writer o; _thread := _thread o;
     _subscribed := _subscribed o; _connected := _connected o;
     _lasthb := _lasthb o; _hbwait := _hbwait o;
     _on_lost_function := _on_lost_function o; data := data o;
     _event_buffer := _event_buffer o;
     _event_content_length := _event_content_length o |}.

Definition set_writer (v : option writer) (o : EventStream) : EventStream :=
  {| _running := _running o; _writer := v; _thread := _thread o;
     _subscribed := _subscribed o; _connected := _connected o;
     _lasthb := _lasthb o; _hbwait := _hbwait o;
     _on_lost_function := _on_lost_function o; data := data o;
     _event_buffer := _event_buffer o;
     _event_content_length := _event_content_length o |}.

Definition set_thread (v : option thread) (o : EventStream) : EventStream :=
  {| _running := _running o; _writer := _writer o; _thread := v;
     _subscribed := _subscribed o; _connected := _connected o;
     _lasthb := _lasthb o; _hbwait := _hbwait o;
     _on_lost_function := _on_lost_function o; data := data o;
     _event_buffer := _event_buffer o;
     _event_content_length := _event_content_length o |}.

Definition set_subscribed (v : bool) (o : EventStream) : EventStream :=
  {| _running := _running o; _writer := _writer o; _thread := _thread o;
     _subscribed := v; _connected := _connected o;
     _lasthb := _lasthb o; _hbwait := _hbwait o;
     _on_lost_function := _on_lost_function o; data := data o;
     _event_buffer := _event_buffer o;
     _event_content_length := _event_content_length o |}.

Definition set_connected (v : bool) (o : EventStream) : EventStream :=
  {| _running := _running o; _writer := _writer o; _thread := _thread o;
     _subscribed := _subscribed o; _connected := v;
     _lasthb := _lasthb o; _hbwait := _hbwait o;
     _on_lost_function := _on_lost_function o; data := data o;
     _event_buffer := _event_buffer o;
     _event_content_length := _event_content_length o |}.

Definition set_lasthb (v : option Z) (o : EventStream) : EventStream :=
  {| _running := _running o; _writer := _writer o; _thread := _thread o;
     _subscribed := _subscribed o; _connected := _connected o;
     _lasthb := v; _hbwait := _hbwait o;
     _on_lost_function := _on_lost_function o; data := data o;
     _event_buffer := _event_buffer o;
     _event_content_length := _event_content_length o |}.

Definition set_hbwait (v : Z) (o : EventStream) : EventStream :=
  {| _running := _running o; _writer := _writer o; _thread := _thread o;
     _subscribed := _subscribed o; _connected := _connected o;
     _lasthb := _lasthb o; _hbwait := v;
     _on_lost_function := _on_lost_function o; data := data o;
     _event_buffer := _event_buffer o;
     _event_content_length := _event_content_length o |}.

Definition set_data (v : gmap string pyval) (o : EventStream) : EventStream :=
  {| _running := _running o; _writer := _writer o; _thread := _thread o;
     _subscribed := _subscribed o; _connected := _connected o;
     _lasthb := _lasthb o; _hbwait := _hbwait o;
     _on_lost_function := _on_lost_function o; data := v;
     _event_buffer := _event_buffer o;
     _event_content_length := _event_content_length o |}.

Definition set_event_buffer (v : bytes) (o : EventStream) : EventStream :=
  {| _running := _running o; _writer := _writer o; _thread := _thread o;
     _subscribed := _subscribed o; _connected := _connected o;
     _lasthb := _lasthb o; _hbwait := _hbwait o;
     _on_lost_function := _on_lost_function o; data := data o;
     _event_buffer := v;
     _event_content_length := _event_content_length o |}.

Definition set_event_content_length (v : option Z) (o : EventStream)
  : EventStream :=
  {| _running := _running o; _writer := _writer o; _thread := _thread o;
     _subscribed := _subscribed o; _connected := _connected o;
     _lasthb := _lasthb o; _hbwait := _hbwait o;
     _on_lost_function := _on_lost_function o; data := data o;
     _event_buffer := _event_buffer o;
     _event_content_length := v |}.

(** [EventStream.__init__(isy, connection_info, on_lost_func)] *)
Definition init (connection_info : gmap string pyval) (on_lost_func : bool)
  : EventStream :=
  {| _running := false; _writer := None; _thread := None;
     _subscribed := false; _connected := false;
     _lasthb := None; _hbwait := 0;
     _on_lost_function := on_lost_func; data := connection_info;
     _event_buffer := []; _event_content_length := None |}.

(** How one drain of the socket ends: [recv] returns no bytes, or raises
    [ssl.SSLWantReadError], or raises another error. *)
Inductive drain_end := RecvEmpty | RecvWantRead | RecvError.

(** One call of [select.select] on the socket with what the calls of
    [recv] that follow it give. *)
Inductive round :=
| Timeout
| SelectError
| Ready (chunks : list bytes) (fin : drain_end).

Inductive log_record :=
| MalformedXML (msg : string)
| LostConnection
| ReadError (e : exn)
| CouldNotConnect
| StartingUpdates
| StoppingUpdates.

Section Session.
Context `{P : Platform}.

(** What the object does to the world, in order.  The collaborators and
    the callback are taken to return when called; records logged at debug
    level or below are not kept. *)
Inductive event :=
| SocketConnect
| SocketClose
| Sent (payload : string)
| ThreadStart
| OnLost
| NodesUpdateReceived (x : xmldoc)
| NodesControlMessageReceived (x : xmldoc)
| VariablesUpdateReceived (x : xmldoc)
| ProgramsUpdateReceived (x : xmldoc)
| ProgramsUpdate
| LogWarning (r : log_record)
| LogError (r : log_record)
| LogInfo (r : log_record).

(** The world: [clock n] is what the [n]-th call of [datetime.now()]
    returns, [wire] is what the socket will deliver (nothing more once it is
    used up), [trace] is what the object has done so far. *)
Record World := {
  clock : nat -> Z;
  ticks : nat;
  wire : list round;
  trace : list event
}.

Record Cfg := { self : EventStream; world : World }.

Definition M (A : Type) : Type := Cfg -> outcome A * Cfg.

Definition ret {A} (a : A) : M A := fun c => (Ret a, c).

Definition raise {A} (e : exn) : M A := fun c => (Raise e, c).

Definition bind {A B} (m : M A) (k : A -> M B) : M B :=
  fun c =>
    match m c with
    | (Ret a, c') => k a c'
    | (Raise e, c') => (Raise e, c')
    end.

Definition get_self : M EventStream := fun c => (Ret (self c), c).

Definition modify (f : EventStream -> EventStream) : M unit :=
  fun c => (Ret tt, {| self := f (self c); world := world c |}).

Definition emit (e : event) : M unit :=
  fun c =>
    (Ret tt,
     {| self := self c;
        world := {| clock := clock (world c); ticks := ticks (world c);
                    wire := wire (world c);
                    trace := trace (world c) ++ [e] |} |}).

(** [datetime.datetime.now()] *)
Definition datetime_now : M Z :=
  fun c =>
    (Ret (clock (world c) (ticks (world c))),
     {| self := self c;
        world := {| clock := clock (world c); ticks := S (ticks (world c));
                    wire := wire (world c); trace := trace (world c) |} |}).

Definition set_wire (w : list round) (c : Cfg) : Cfg :=
  {| self := self c;
     world := {| clock := clock (world c); ticks := ticks (world c);
                 wire := w; trace := trace (world c) |} |}.

Definition lift {A} (o : outcome A) : M A := fun c => (o, c).

(** [try: m  except Exception: handler] *)
Definition try_except {A} (m : M A) (handler : exn -> M A) : M A :=
  fun c =>
    match m c with
    | (Ret a, c') => (Ret a, c')
    | (Raise e, c') => handler e c'
    end.

Notation "x <- m ;; k" := (bind m (fun x => k))
  (at level 100, m at next level, k at level 200, right associativity).
Notation "m ;; k" := (bind m (fun _ => k))
  (at level 100, k at level 200, right associativity).

(** [not v] for a value that is [None] or an [int]. *)
Definition falsy (v : option Z) : bool :=
  match v with
  | None => true
  | Some n => n =? 0
  end.

(** ** The frame assembler *)

(** The loop of [_parse_headers] over the header lines. *)
Fixpoint scan_headers (lines : list bytes) : M unit :=
  match lines with
  | [] => ret tt
  | header :: rest =>
      match split_once ":" header with
      | [header_name; header_value] =>
          if negb (bytes_eqb (bytes_lower (bytes_strip header_name))
                             (B "content-length"))
          then scan_headers rest
          else
            match int_bytes (bytes_strip header_value) with
            | Some n =>
                modify (set_event_content_length (Some n)) ;;
                scan_headers rest
            | None => raise ValueError
            end
      | _ => raise ValueError
      end
  end.

(** [_parse_headers(seperator_position)].  [tl] is the slice [[1:]] of the
    list of lines. *)
Definition _parse_headers (seperator_position : Z) : M unit :=
  o <- get_self ;;
  let headers := slice (_event_buffer o) 0 seperator_position in
  modify (set_event_buffer
            (slice_from (_event_buffer o)
               (seperator_position + HTTP_HEADER_BODY_SEPERATOR_LEN))) ;;
  scan_headers (tl (bytes_split headers HTTP_HEADER_SEPERATOR)) ;;
  o' <- get_self ;;
  if falsy (_event_content_length o') then raise ValueError else ret tt.

(** The inner loop of [_read_one_response_or_timeout] with its [try]:
    [Ret true] when the loop is left by [break], [Ret false] when
    [SSLWantReadError] sends control back to [select]. *)
Fixpoint drain (chunks : list bytes) (fin : drain_end) : M bool :=
  match chunks with
  | new_data :: rest =>
      if len new_data =? 0 then ret true
      else
        o <- get_self ;;
        modify (set_event_buffer (_event_buffer o ++ new_data)) ;;
        drain rest fin
  | [] =>
      match fin with
      | RecvEmpty => ret true
      | RecvWantRead => ret false
      | RecvError => raise OSError
      end
  end.

(** How one turn of the outer loop ends: [return], or [continue]. *)
Inductive turn :=
| Return (v : option string)
| Continue.

(** "Read the headers if we do not have content length yet": [Ret false]
    is the [continue] taken when no separator is in the buffer. *)
Definition read_headers : M bool :=
  o <- get_self ;;
  if falsy (_event_content_length o) then
    let seperator_position :=
      bytes_find (_event_buffer o) HTTP_HEADER_BODY_SEPERATOR in
    if seperator_position =? -1 then ret false
    else _parse_headers seperator_position ;; ret true
  else ret true.

(** "If we do not have the body yet read again", and the rest of the turn.
    Comparing with [None] would raise [TypeError]; the module uses
    f-strings, so the interpreter's major version is 3 and the body is
    decoded. *)
Definition take_body : M turn :=
  o <- get_self ;;
  match _event_content_length o with
  | None => raise TypeError
  | Some n =>
      if len (_event_buffer o) <? n then ret Continue
      else
        let body := slice (_event_buffer o) 0 n in
        modify (set_event_buffer (slice_from (_event_buffer o) n)) ;;
        modify (set_event_content_length None) ;;
        if utf8_valid body
        then ret (Return (Some (string_of_list_byte body)))
        else raise UnicodeDecodeError
  end.

(** One turn of the outer loop, [select] having given [r]. *)
Definition turn_of (r : round) : M turn :=
  match r with
  | Timeout => ret (Return None)
  | SelectError => raise OSError
  | Ready chunks fin =>
      drained <- drain chunks fin ;;
      if drained then
        found <- read_headers ;;
        if found then take_body else ret Continue
      else ret Continue
  end.

Fixpoint read_loop (w : list round) (c : Cfg) : outcome (option string) * Cfg :=
  match w with
  | [] => (Ret None, c)
  | r :: w' =>
      match turn_of r (set_wire w' c) with
      | (Ret (Return v), c') => (Ret v, c')
      | (Ret Continue, c') => read_loop w' c'
      | (Raise e, c') => (Raise e, c')
      end
  end.

(** [_read_one_response_or_timeout()]: each turn of its loop takes one
    round from the wire; when nothing is left, [select] times out. *)
Definition _read_one_response_or_timeout : M (option string) :=
  fun c => read_loop (wire (world c)) c.

(** Feeding one chunk: the socket is readable, [recv] gives the chunk and
    then no bytes, which is how the inner loop is left by [break] and the
    buffer gets looked at. *)
Definition feed (chunk : bytes) : M turn := turn_of (Ready [chunk] RecvEmpty).

(** Feeding chunks one after the other, keeping the bodies returned. *)
Fixpoint feed_all (chunks : list bytes) : M (list string) :=
  match chunks with
  | [] => ret []
  | chunk :: rest =>
      t <- feed chunk ;;
      bodies <- feed_all rest ;;
      ret (match t with
           | Return (Some b) => b :: bodies
           | _ => bodies
           end)
  end.

(** The chunks arriving one by one: each time the socket gets readable,
    [recv] gives one chunk and then nothing. *)
Definition arriving (chunks : list bytes) : list round :=
  map (fun chunk => Ready [chunk] RecvEmpty) chunks.

(** [_read_one_response_or_timeout] called again and again, as [watch]
    does, until it reports a timeout; the bodies it returned. *)
Fixpoint read_all (calls : nat) (c : Cfg) : outcome (list string) * Cfg :=
  match calls with
  | O => (Ret [], c)
  | S calls' =>
      match _read_one_response_or_timeout c with
      | (Ret (Some b), c') =>
          match read_all calls' c' with
          | (Ret bodies, c'') => (Ret (b :: bodies), c'')
          | (Raise e, c'') => (Raise e, c'')
          end
      | (Ret None, c') => (Ret [], c')
      | (Raise e, c') => (Raise e, c')
      end
  end.

(** ** The subscription messages *)

(** [_create_message(msg)].  Passing [length] twice, once by name and once
    through the dictionary, is a [TypeError]. *)
Definition _create_message (msg : template) : M string :=
  o <- get_self ;;
  body' <- lift (str_format (body msg) (data o)) ;;
  let length := str_len body' in
  head' <-
    match data o !! "length"%string with
    | Some _ => raise TypeError
    | None =>
        lift (str_format (head msg)
                (<["length"%string := PyInt length]> (data o)))
    end ;;
  ret (head' +:+ body').

(** [write(msg)]: [io_ok] tells whether writing to the socket file and
    flushing it succeed. *)
Definition write (io_ok : bool) (msg : string) : M unit :=
  o <- get_self ;;
  match _writer o with
  | None => raise NotImplementedError
  | Some _ => if io_ok then emit (Sent msg) else raise OSError
  end.

(** [connect()]: [sock_ok] tells whether the socket's own [connect] (and,
    with TLS, [getpeercert]) runs without [OSError].  The address and the
    port are looked up first; a missing key is a [KeyError], which the
    [try] does not catch. *)
Definition connect (sock_ok : bool) : M bool :=
  o <- get_self ;;
  if negb (_connected o) then
    if negb (bool_decide (is_Some (data o !! "addr"%string)))
       || negb (bool_decide (is_Some (data o !! "port"%string)))
    then raise KeyError
    else if sock_ok then
      emit SocketConnect ;;
      modify (set_writer (Some SocketFile)) ;;
      modify (set_connected true) ;;
      ret true
    else
      emit (LogError CouldNotConnect) ;;
      (if _on_lost_function o then emit OnLost else ret tt) ;;
      ret false
  else ret true.

(** [disconnect()] *)
Definition disconnect : M unit :=
  o <- get_self ;;
  if _connected o then
    emit SocketClose ;;
    modify (set_connected false) ;;
    modify (set_subscribed false) ;;
    modify (set_running false)
  else ret tt.

(** [subscribe()] *)
Definition subscribe (io_ok : bool) : M unit :=
  o <- get_self ;;
  if negb (_subscribed o) && _connected o then
    match data o !! ATTR_STREAM_ID with
    | None =>
        msg <- _create_message SUB_MSG ;;
        write io_ok msg
    | Some _ =>
        msg <- _create_message RESUB_MSG ;;
        write io_ok msg
    end ;;
    modify (set_subscribed true)
  else ret tt.

(** [unsubscribe()] *)
Definition unsubscribe (io_ok : bool) : M unit :=
  o <- get_self ;;
  if _subscribed o && _connected o then
    msg <- _create_message UNSUB_MSG ;;
    write io_ok msg ;;
    modify (set_subscribed false) ;;
    disconnect
  else ret tt.

(** The property [running]: [alive] is what the thread, if there is one,
    answers; every error is turned into [False]. *)
Definition running (alive : bool) : M bool :=
  o <- get_self ;;
  match _thread o with
  | None => ret false
  | Some _ => ret alive
  end.

(** The setter of [running]. *)
Definition running_setter (val alive sock_ok io_ok : bool) : M unit :=
  r <- running alive ;;
  if val && negb r then
    emit (LogInfo StartingUpdates) ;;
    ok <- connect sock_ok ;;
    if ok then
      subscribe io_ok ;;
      modify (set_running true) ;;
      modify (set_thread (Some WatchThread)) ;;
      emit ThreadStart
    else ret tt
  else
    emit (LogInfo StoppingUpdates) ;;
    modify (set_running false) ;;
    unsubscribe io_ok ;;
    disconnect.

(** ** The heartbeat *)

(** [timedelta.seconds] of a difference of [us] microseconds: the seconds
    within the day, the days and the microseconds being kept apart. *)
Definition timedelta_seconds (us : Z) : Z :=
  (us mod 86400000000) / 1000000.

(** The property [heartbeat_time]. *)
Definition heartbeat_time : M Z :=
  o <- get_self ;;
  match _lasthb o with
  | Some lasthb =>
      now <- datetime_now ;;
      ret (timedelta_seconds (now - lasthb))
  | None => ret 0
  end.

(** [_lost_connect()] *)
Definition _lost_connect : M unit :=
  disconnect ;;
  emit (LogWarning LostConnection) ;;
  o <- get_self ;;
  if _on_lost_function o then emit OnLost else ret tt.

(** ** The event router *)

(** [update_received(xmldoc)] *)
Definition update_received (x : xmldoc) : M unit :=
  o <- get_self ;;
  let v := match attr_from_xml x "Event" ATTR_STREAM_ID with
           | Some s => PyStr s
           | None => PyNone
           end in
  modify (set_data (<[ATTR_STREAM_ID := v]> (data o))).

(** [int(v)] where [v] is a [str] or [None]. *)
Definition int_of (v : option string) : M Z :=
  match v with
  | None => raise TypeError
  | Some s =>
      match int_str s with
      | Some n => ret n
      | None => raise ValueError
      end
  end.

(** [cntrl[0] != "_"] for a non-empty [cntrl]. *)
Definition first_is_not_underscore (cntrl : string) : bool :=
  match cntrl with
  | String c _ => negb (Ascii.eqb c "_")
  | EmptyString => false
  end.

(** "Direct the event message": the part of [_route_message] that
    follows the capture of the stream id. *)
Definition direct (msg : string) (x : xmldoc) : M unit :=
  match value_from_xml x ATTR_CONTROL with
  | None => ret tt
  | Some cntrl =>
      if String.eqb cntrl EmptyString then ret tt
      else if String.eqb cntrl "_0" then
        now <- datetime_now ;;
        modify (set_lasthb (Some now)) ;;
        n <- int_of (value_from_xml x ATTR_ACTION) ;;
        modify (set_hbwait n)
      else if String.eqb cntrl PROP_STATUS then
        emit (NodesUpdateReceived x)
      else if first_is_not_underscore cntrl then
        emit (NodesControlMessageReceived x)
      else if String.eqb cntrl "_1" then
        if str_contains ("<" +:+ ATTR_VAR) msg then
          emit (VariablesUpdateReceived x)
        else if str_contains ("<" +:+ ATTR_ID +:+ ">") msg then
          emit (ProgramsUpdateReceived x)
        else if str_contains ("<" +:+ TAG_NODE +:+ ">") msg
                && str_contains "[" msg then
          ret tt
        else emit ProgramsUpdate
      else ret tt
  end.

(** [_route_message(msg)] *)
Definition _route_message (msg : string) : M unit :=
  match parseString msg with
  | None => emit (LogWarning (MalformedXML msg))
  | Some x =>
      o <- get_self ;;
      (if str_contains (ATTR_STREAM_ID +:+ "=") msg
          && negb (bool_decide (is_Some (data o !! ATTR_STREAM_ID)))
       then update_received x else ret tt) ;;
      direct msg x
  end.

(** ** The read loop *)

(** The test that opens each turn of the loop of [watch]:
    [self.heartbeat_time > self._hbwait]. *)
Definition heartbeat_expired : M bool :=
  elapsed <- heartbeat_time ;;
  o <- get_self ;;
  ret (elapsed >? _hbwait o).

(** One turn of the loop of [watch]: [Ret true] when the loop goes round
    again, [Ret false] when it is left by [return] or [break]. *)
Definition watch_turn : M bool :=
  expired <- heartbeat_expired ;;
  if expired then _lost_connect ;; ret false
  else
    r <- try_except
           (d <- _read_one_response_or_timeout ;; ret (Some d))
           (fun ex =>
              emit (LogWarning (ReadError ex)) ;; _lost_connect ;; ret None) ;;
    match r with
    | None => ret false
    | Some d =>
        o' <- get_self ;;
        if negb (_running o') || negb (_subscribed o') then ret false
        else
          match d with
          | Some msg =>
              if String.eqb msg EmptyString then ret true
              else _route_message msg ;; ret true
          | None => ret true
          end
    end.

(** The loop of [watch]; [None] when [fuel] turns were not enough to leave
    it. *)
Fixpoint watch_loop (fuel : nat) (c : Cfg) : option (outcome unit * Cfg) :=
  match fuel with
  | O => None
  | S fuel' =>
      match watch_turn c with
      | (Ret true, c') => watch_loop fuel' c'
      | (Ret false, c') => Some (Ret tt, c')
      | (Raise e, c') => Some (Raise e, c')
      end
  end.

(** [watch()] *)
Definition watch (fuel : nat) (c : Cfg) : option (outcome unit * Cfg) :=
  if negb (_subscribed (self c)) then Some (Ret tt, c)
  else
    match (modify (set_event_buffer []) ;;
           modify (set_event_content_length None)) c with
    | (_, c') => watch_loop fuel c'
    end.

(** ** Calls from outside *)

(** The methods, with what the world answers during the call; [Arrive] is
    the world's own move, more rounds getting ready on the socket. *)
Inductive call :=
| Connect (sock_ok : bool)
| Disconnect
| Subscribe (io_ok : bool)
| Unsubscribe (io_ok : bool)
| SetRunning (val alive sock_ok io_ok : bool)
| Watch (fuel : nat)
| Write (io_ok : bool) (msg : string)
| RouteMessage (msg : string)
| UpdateReceived (x : xmldoc)
| LostConnect
| ReadOne
| Arrive (rounds : list round).

(** The configuration a call ends in, whether it returns or raises; [None]
    when [watch] is still in its loop with the fuel used up. *)
Definition run (k : call) (c : Cfg) : option Cfg :=
  match k with
  | Connect sock_ok => Some (snd (connect sock_ok c))
  | Disconnect => Some (snd (disconnect c))
  | Subscribe io_ok => Some (snd (subscribe io_ok c))
  | Unsubscribe io_ok => Some (snd (unsubscribe io_ok c))
  | SetRunning val alive sock_ok io_ok =>
      Some (snd (running_setter val alive sock_ok io_ok c))
  | Watch fuel => option_map snd (watch fuel c)
  | Write io_ok msg => Some (snd (write io_ok msg c))
  | RouteMessage msg => Some (snd (_route_message msg c))
  | UpdateReceived x => Some (snd (update_received x c))
  | LostConnect => Some (snd (_lost_connect c))
  | ReadOne => Some (snd (_read_one_response_or_timeout c))
  | Arrive rounds => Some (set_wire (wire (world c) ++ rounds) c)
  end.

(** Calls one after the other. *)
Fixpoint run_all (ks : list call) (c : Cfg) : option Cfg :=
  match ks with
  | [] => Some c
  | k :: ks' =>
      match run k c with
      | Some c' => run_all ks' c'
      | None => None
      end
  end.

(** A call during which no socket gets connected. *)
Definition connects_nothing (k : call) : bool :=
  match k with
  | Connect sock_ok => negb sock_ok
  | SetRunning _ _ sock_ok _ => negb sock_ok
  | _ => true
  end.

(** A session on which [connect] has never succeeded: a new object, then
    calls during which no socket gets connected. *)
Inductive never_connected : Cfg -> Prop :=
| nc_init info on_lost w :
    never_connected {| self := init info on_lost; world := w |}
| nc_call k c c' :
    never_connected c -> connects_nothing k = true -> run k c = Some c' ->
    never_connected c'.

(** Running implies subscribed, subscribed implies connected. *)
Definition session_inv (o : EventStream) : bool :=
  implb (_running o) (_subscribed o) && implb (_subscribed o) (_connected o).

(** A stream id is known. *)
Definition sid_known (c : Cfg) : bool :=
  bool_decide (is_Some (data (self c) !! ATTR_STREAM_ID)).

(** The method [m] keeps the property [I] of the object, on return and on
    raise. *)
Definition preserving (I : EventStream -> Prop) {A} (m : M A) : Prop :=
  forall c, I (self c) -> I (self (snd (m c))).

(** The method [m] neither reads nor writes the wire. *)
Definition wire_blind {A} (m : M A) : Prop :=
  forall w c, m (set_wire w c) = (fst (m c), set_wire w (snd (m c))).

(** [c] after [payload] has been written and the session marked
    subscribed. *)
Definition subscribed_with (payload : string) (c : Cfg) : Cfg :=
  {| self := set_subscribed true (self c);
     world := {| clock := clock (world c); ticks := ticks (world c);
                 wire := wire (world c);
                 trace := trace (world c) ++ [Sent payload] |} |}.

End Session.

(** ** Frames, as the claims speak of them *)

(** A frame: the header block, then the separator, then the body. *)
Record frame := { f_head : bytes; f_body : bytes }.

Definition encode_frame (f : frame) : bytes :=
  f_head f ++ HTTP_HEADER_BODY_SEPERATOR ++ f_body f.

(** The bytes of a sequence of frames. *)
Definition stream (fs : list frame) : bytes := concat (map encode_frame fs).

(** The body as [_read_one_response_or_timeout] hands it over. *)
Definition body_text (f : frame) : string := string_of_list_byte (f_body f).

(** What the loop of [_parse_headers] leaves in the content length, started
    from [cl]; [None] when it raises. *)
Fixpoint last_length (lines : list bytes) (cl : option Z)
  : option (option Z) :=
  match lines with
  | [] => Some cl
  | header :: rest =>
      match split_once ":" header with
      | [header_name; header_value] =>
          if negb (bytes_eqb (bytes_lower (bytes_strip header_name))
                             (B "content-length"))
          then last_length rest cl
          else
            match int_bytes (bytes_strip header_value) with
            | Some n => last_length rest (Some n)
            | None => None
            end
      | _ => None
      end
  end.

(** The content length that a header block declares, as the parser reads
    it: the first line is passed over. *)
Definition declared_length (headers : bytes) : option (option Z) :=
  last_length (tl (bytes_split headers HTTP_HEADER_SEPERATOR)) None.

(** A frame that the assembler accepts: the separator does not occur before
    the end of the header block, the block declares the length of the body,
    that length is positive, and the body is UTF-8. *)
Definition well_formed (f : frame) : bool :=
  match find_at HTTP_HEADER_BODY_SEPERATOR
          (f_head f ++ HTTP_HEADER_BODY_SEPERATOR) with
  | Some n => Nat.eqb n (length (f_head f))
  | None => false
  end
  && match declared_length (f_head f) with
     | Some (Some n) => (n =? len (f_body f)) && (0 <? n)
     | _ => false
     end
  && utf8_valid (f_body f).

(** The byte of the decimal digit [d]. *)
Definition digit_byte (d : nat) : byte :=
  match Byte.of_N (48 + N.of_nat d) with
  | Some b => b
  | None => x30
  end.

(** The decimal digits of [n], before [acc]. *)
Fixpoint decimal_go (fuel n : nat) (acc : bytes) : bytes :=
  match fuel with
  | O => acc
  | S fuel' =>
      let acc' := digit_byte (n mod 10) :: acc in
      if (n / 10 =? 0)%nat then acc' else decimal_go fuel' (n / 10) acc'
  end.

Definition decimal (n : nat) : bytes := decimal_go (S n) n [].

(** A frame as the controller sends it, cut down to what matters: a first
    line, one header giving the length of the body, the body. *)
Definition request (first_line body : bytes) : frame :=
  {| f_head := first_line ++ HTTP_HEADER_SEPERATOR
                 ++ B "Content-Length: " ++ decimal (length body);
     f_body := body |}.

(** A byte that is not a carriage return. *)
Definition plain (b : byte) : Prop := b <> CR.

(** A decimal digit, seen as the parser sees it: not a space, not a sign,
    not a carriage return. *)
Definition digit_like (b : byte) : Prop :=
  is_digit b = true /\ is_space b = false /\ plain b
  /\ (code b =? 43)%N = false /\ (code b =? 45)%N = false.

(** The value of a list of digits read after [a]. *)
Definition digits_value (ds : bytes) (a : Z) : Z :=
  fold_left (fun v b => 10 * v + digit_val b) ds a.

(** A header line whose name is content-length. *)
Definition names_content_length (line : bytes) : bool :=
  match split_once ":" line with
  | [header_name; _] =>
      bytes_eqb (bytes_lower (bytes_strip header_name)) (B "content-length")
  | _ => false
  end.

(** The header block has a content-length header on one of its lines. *)
Definition has_content_length (headers : bytes) : bool :=
  existsb names_content_length (bytes_split headers HTTP_HEADER_SEPERATOR).

Definition frame_lengths (fs : list frame) : list nat :=
  map (fun f => length (encode_frame f)) fs.

(** Less than the whole of the first frame awaited has arrived. *)
Definition caught_up (R : bytes) (fs : list frame) : Prop :=
  match fs with
  | [] => True
  | f :: _ => (length R < length (encode_frame f))%nat
  end.

(** No chunk holds the last byte of more than one frame: [got] bytes of
    the first frame have arrived, [lens] are the lengths of the frames still
    to be completed, [sizes] the lengths of the chunks to come. *)
Fixpoint paced (got : nat) (lens sizes : list nat) : bool :=
  match sizes with
  | [] => true
  | s :: sizes' =>
      match lens with
      | [] => paced got [] sizes'
      | l :: lens' =>
          if (got + s <? l)%nat then paced (got + s) lens sizes'
          else
            match lens' with
            | [] => paced (got + s - l) [] sizes'
            | l' :: _ =>
                (got + s - l <? l')%nat && paced (got + s - l) lens' sizes'
            end
      end
  end.

Section FrameState.
Context `{P : Platform}.

(** The configuration [c] with the buffer and the content length replaced. *)
Definition with_frame (buf : bytes) (cl : option Z) (c : Cfg) : Cfg :=
  {| self := set_event_content_length cl (set_event_buffer buf (self c));
     world := world c |}.

(** The bytes [R] have been received and not yet handed over as a body,
    [fs] being the frames still to be handed over: either no header has
    been read and the buffer is [R], or the header block of the first frame
    has been read and taken out of the buffer. *)
Definition pending (R : bytes) (fs : list frame) (c : Cfg) : Prop :=
  (_event_content_length (self c) = None /\ _event_buffer (self c) = R)
  \/ (exists f fs',
        fs = f :: fs'
        /\ _event_content_length (self c) = Some (len (f_body f))
        /\ R = f_head f ++ HTTP_HEADER_BODY_SEPERATOR
                ++ _event_buffer (self c)).

(** The frames [fs], whole, are what the assembler still holds. *)
Definition holds (fs : list frame) (c : Cfg) : Prop :=
  pending (stream fs) fs c.

(** The assembler as [watch] leaves it before its loop. *)
Definition fresh (c : Cfg) : Cfg := with_frame [] None c.

End FrameState.

(** The bytes that one drain of the socket appends to the buffer: the
    chunks that [recv] gives before it returns no bytes. *)
Fixpoint recv_bytes (chunks : list bytes) : bytes :=
  match chunks with
  | [] => []
  | new_data :: rest =>
      if len new_data =? 0 then [] else new_data ++ recv_bytes rest
  end.

(** The bytes that a round of the socket brings. *)
Definition received (r : round) : bytes :=
  match r with
  | Ready chunks _ => recv_bytes chunks
  | _ => []
  end.

(** A header line without a colon. *)
Definition colonless (line : bytes) : Prop := ~ In (":" : byte) line.

Section FrameOnly.
Context `{P : Platform}.

(** The method [m] writes to the buffer and to the content length, and to
    nothing else of the object or of the world. *)
Definition frame_only {A} (m : M A) : Prop :=
  forall c, exists buf cl, snd (m c) = with_frame buf cl c.

End FrameOnly.

(** ** A platform to run the definitions on *)

(** The constants have the values of PyISY's [constants.py]; the XML reader,
    the formatter and the messages are small stand-ins, enough to run the
    methods on concrete inputs. *)
Module Sample.

(** What follows the first occurrence of [p] in [s]. *)
Fixpoint after (p s : string) : option string :=
  if String.prefix p s
  then Some (String.substring (String.length p)
               (String.length s - String.length p) s)
  else match s with
       | EmptyString => None
       | String _ s' => after p s'
       end.

(** What precedes the first occurrence of [p] in [s]. *)
Fixpoint before (p s : string) : option string :=
  if String.prefix p s then Some EmptyString
  else match s with
       | EmptyString => None
       | String a s' => option_map (String a) (before p s')
       end.

Definition between (opening closing s : string) : option string :=
  match after opening s with
  | Some r => before closing r
  | None => None
  end.

(** The decimal digits of [n], before [acc]. *)
Fixpoint digits (fuel : nat) (n : N) (acc : string) : string :=
  match fuel with
  | O => acc
  | S fuel' =>
      let acc' := String (ascii_of_N (48 + n mod 10)) acc in
      if (n / 10 =? 0)%N then acc' else digits fuel' (n / 10)%N acc'
  end.

Definition decimal (z : Z) : string :=
  match z with
  | Z0 => "0"
  | Zpos p => digits (Pos.size_nat p) (Npos p) EmptyString
  | Zneg p => String "-" (digits (Pos.size_nat p) (Npos p) EmptyString)
  end.

Definition show (v : pyval) : string :=
  match v with
  | PyNone => "None"
  | PyStr s => s
  | PyInt z => decimal z
  | PyFloat r => r
  end.

(** Replaces each [{name}] by the value of [name]. *)
Fixpoint fill (t : string) (name : option string) (kw : gmap string pyval)
  : outcome string :=
  match t with
  | EmptyString =>
      match name with
      | None => Ret EmptyString
      | Some _ => Raise ValueError
      end
  | String a t' =>
      match name with
      | None =>
          if Ascii.eqb a "{" then fill t' (Some EmptyString) kw
          else match fill t' None kw with
               | Ret r => Ret (String a r)
               | Raise e => Raise e
               end
      | Some n =>
          if Ascii.eqb a "}" then
            match kw !! n with
            | Some v =>
                match fill t' None kw with
                | Ret r => Ret (show v +:+ r)
                | Raise e => Raise e
                end
            | None => Raise KeyError
            end
          else fill t' (Some (n +:+ String a EmptyString)) kw
      end
  end.

Definition platform : Platform :=
  {| parseString :=
       fun s => if String.prefix "<" s then Some (Document s) else None;
     value_from_xml :=
       fun '(Document s) tag => between ("<" +:+ tag +:+ ">") "<" s;
     attr_from_xml :=
       fun '(Document s) tag attr => between (attr +:+ "='") "'" s;
     str_format := fun t kw => fill t None kw;
     int_str := fun s => int_bytes (list_byte_of_string s);
     ATTR_ACTION := "action";
     ATTR_CONTROL := "control";
     ATTR_ID := "id";
     ATTR_STREAM_ID := "sid";
     ATTR_VAR := "var";
     PROP_STATUS := "ST";
     TAG_NODE := "node";
     SUB_MSG :=
       {| head := "POST /services {addr}:{port} Content-Length: {length} ";
          body := "<Subscribe><duration>infinite</duration></Subscribe>" |};
     RESUB_MSG :=
       {| head := "POST /services {addr}:{port} Content-Length: {length} ";
          body := "<Subscribe><SID>{sid}</SID></Subscribe>" |};
     UNSUB_MSG :=
       {| head := "POST /services {addr}:{port} Content-Length: {length} ";
          body := "<Unsubscribe><SID>{sid}</SID></Unsubscribe>" |} |}.

#[local] Existing Instance platform.

Definition connection_info : gmap string pyval :=
  <["addr"%string := PyStr "192.168.1.10"]>
    (<["port"%string := PyInt 80]> ∅).

(** A clock that advances by one microsecond at each reading. *)
Definition quiet_world : World :=
  {| clock := fun n => Z.of_nat n; ticks := 0; wire := []; trace := [] |}.

(** A new object, with a callback for lost connections. *)
Definition new_session : Cfg :=
  Eval vm_compute in
    {| self := init connection_info true; world := quiet_world |}.

Definition CRLF : bytes := HTTP_HEADER_SEPERATOR.

Definition frame_hello : frame := request (B "POST reuse HTTP/1.1") (B "HELLO").

Definition frame_ab : frame := request (B "POST reuse HTTP/1.1") (B "ab").

Definition frame_cd : frame := request (B "POST reuse HTTP/1.1") (B "cd").

(** The header block of the example of the specification: no line before
    the content-length header. *)
Definition frame_bare : frame :=
  {| f_head := B "Content-Length: 5"; f_body := B "HELLO" |}.

(** [s] cut into chunks of one byte. *)
Definition bytewise (s : bytes) : list bytes := map (fun b => [b]) s.

(** A new session on which starting the updates has failed, the socket not
    getting connected. *)
Definition failed_start : Cfg :=
  Eval vm_compute in snd (running_setter true false false true new_session).

(** A session just connected, no stream id being known. *)
Definition connected_session : Cfg :=
  Eval vm_compute in snd (connect true new_session).

(** A session started: connected, subscribed, running. *)
Definition started_session : Cfg :=
  Eval vm_compute in snd (running_setter true false true true new_session).

Definition event_with_sid : string :=
  "<Event sid='uuid:12'><control>_1</control><var id='3'/></Event>".


Definition heartbeat_event : string :=
  "<Event><control>_0</control><action>30</action></Event>".

(** A session whose last heartbeat was recorded at [t0] with the wait
    interval [w], in a world where it is [now]. *)
Definition heartbeat_session (t0 w now : Z) : Cfg :=
  {| self := set_hbwait w (set_lasthb (Some t0) (init connection_info true));
     world := {| clock := fun _ => now; ticks := 0;
                 wire := []; trace := [] |} |}.

(** A header block without a content-length header, and its separator. *)
Definition headers_without_length : bytes :=
  B "POST reuse HTTP/1.1" ++ CRLF ++ B "Host: isy"
    ++ HTTP_HEADER_BODY_SEPERATOR.

(** A header block that declares a negative length, its separator, and
    five bytes. *)
Definition negative_frame : bytes :=
  B "POST reuse HTTP/1.1" ++ CRLF ++ B "Content-Length: -2"
    ++ HTTP_HEADER_BODY_SEPERATOR ++ B "abcde".

(** A header block with a line that has no colon, its separator, and a
    body. *)
Definition frame_with_garbage : bytes :=
  B "POST reuse HTTP/1.1" ++ CRLF ++ B "Content-Length: 5" ++ CRLF
    ++ B "garbage" ++ HTTP_HEADER_BODY_SEPERATOR ++ B "HELLO".

Definition unknown_event : string :=
  "<Event><control>_3</control><action>1</action></Event>".

Definition status_event : string :=
  "<Event><control>ST</control><action>255</action></Event>".

Definition command_event : string :=
  "<Event><control>DON</control><action>255</action></Event>".

Definition heartbeat_without_action : string :=
  "<Event><control>_0</control></Event>".

(** A session started to which an event has given a stream id. *)
Definition session_with_sid : Cfg :=
  Eval vm_compute in snd (_route_message event_with_sid started_session).

(** A session connected and subscribed by hand, the running flag not being
    set. *)
Definition subscribed_session : Cfg :=
  Eval vm_compute in snd (subscribe true connected_session).

(** A session started whose last heartbeat, with a wait interval of 30
    seconds, is 31 seconds old, bytes being ready on the socket. *)
Definition late_session : Cfg :=
  {| self := set_hbwait 30 (set_lasthb (Some 0) (self started_session));
     world := {| clock := fun _ => 31000000; ticks := 0;
                 wire := [Ready [B "x"] RecvEmpty]; trace := [] |} |}.

(** A new object whose connection dictionary is empty. *)
Definition no_address_session : Cfg :=
  {| self := init ∅ true; world := quiet_world |}.

End Sample.

(** ** Lemmas on bytes *)

Lemma starts_with_app sub r : starts_with sub (sub ++ r) = true.
Proof.
  induction sub as [|a sub IH]; simpl; [reflexivity|].
  rewrite (Byte.byte_dec_lb (eq_refl a)). exact IH.
Qed.

Lemma starts_with_inv sub s :
  starts_with sub s = true -> exists r, s = sub ++ r.
Proof.
  revert s. induction sub as [|a sub IH]; intros s H.
  - exists s. reflexivity.
  - destruct s as [|b s]; simpl in H; [discriminate|].
    apply andb_true_iff in H as [Hab Hs].
    apply Byte.byte_dec_bl in Hab. subst b.
    destruct (IH _ Hs) as [r ->]. exists r. reflexivity.
Qed.

Lemma starts_with_extend sub s t :
  starts_with sub s = true -> starts_with sub (s ++ t) = true.
Proof.
  intros H. destruct (starts_with_inv _ _ H) as [r ->].
  rewrite <- app_assoc. apply starts_with_app.
Qed.

Lemma starts_with_short sub s :
  (length s < length sub)%nat -> starts_with sub s = false.
Proof.
  revert s. induction sub as [|a sub IH]; intros s H; simpl in *; [lia|].
  destruct s as [|b s]; [reflexivity|]. simpl in H.
  rewrite IH by lia. apply andb_false_r.
Qed.

Lemma starts_with_within sub x y :
  (length sub <= length x)%nat ->
  starts_with sub (x ++ y) = starts_with sub x.
Proof.
  revert x. induction sub as [|a sub IH]; intros x H; [reflexivity|].
  destruct x as [|b x]; simpl in *; [lia|].
  rewrite IH by lia. reflexivity.
Qed.

Lemma find_at_short sub s :
  (length s < length sub)%nat -> find_at sub s = None.
Proof.
  induction s as [|b s IH]; intros H; simpl.
  - rewrite starts_with_short by exact H. reflexivity.
  - rewrite starts_with_short by exact H.
    simpl in H. rewrite IH by lia. reflexivity.
Qed.

Lemma find_at_hit sub s : starts_with sub s = true -> find_at sub s = Some 0%nat.
Proof. intros H. destruct s; simpl; rewrite H; reflexivity. Qed.

(** Once the separator is first met at the end of the header block, what
    follows it does not move it. *)
Lemma find_at_head sep h r :
  find_at sep (h ++ sep) = Some (length h) ->
  find_at sep (h ++ sep ++ r) = Some (length h).
Proof.
  induction h as [|a h IH]; intros H.
  - simpl. apply find_at_hit. apply starts_with_app.
  - change ((a :: h) ++ sep ++ r) with (a :: (h ++ sep ++ r)).
    change ((a :: h) ++ sep) with (a :: (h ++ sep)) in H.
    cbn [find_at] in *.
    destruct (starts_with sep (a :: h ++ sep)) eqn:E; [discriminate|].
    assert (Hlen : (length sep <= length (a :: h ++ sep))%nat)
      by (simpl; rewrite length_app; lia).
    replace (a :: h ++ sep ++ r) with ((a :: h ++ sep) ++ r)
      by (simpl; rewrite <- app_assoc; reflexivity).
    rewrite starts_with_within by exact Hlen. rewrite E.
    replace ((a :: h ++ sep) ++ r) with (a :: (h ++ sep ++ r))
      by (simpl; rewrite <- app_assoc; reflexivity).
    destruct (find_at sep (h ++ sep)) as [n|] eqn:F; [|discriminate].
    simpl in H. injection H as H. subst n.
    rewrite (IH eq_refl). reflexivity.
Qed.

(** Before the whole header block and separator have arrived, no separator
    is found. *)
Lemma find_at_before sep h r s t :
  find_at sep (h ++ sep) = Some (length h) ->
  s ++ t = h ++ sep ++ r ->
  (length s < length h + length sep)%nat ->
  find_at sep s = None.
Proof.
  revert s. induction h as [|a h IH]; intros s H E L.
  - apply find_at_short. simpl in L. exact L.
  - change ((a :: h) ++ sep) with (a :: (h ++ sep)) in H.
    cbn [find_at] in H.
    destruct (starts_with sep (a :: h ++ sep)) eqn:S0; [discriminate|].
    destruct (find_at sep (h ++ sep)) as [n|] eqn:F; [|discriminate].
    simpl in H. injection H as H. subst n.
    destruct s as [|b s].
    + simpl. destruct sep; [discriminate S0|reflexivity].
    + simpl in E. injection E as -> E.
      cbn [find_at].
      assert (S1 : starts_with sep (a :: s) = false).
      { destruct (starts_with sep (a :: s)) eqn:S1; [|reflexivity].
        apply (starts_with_extend _ _ t) in S1.
        simpl in S1. rewrite E in S1.
        assert (Hlen : (length sep <= length (a :: h ++ sep))%nat)
          by (simpl; rewrite length_app; lia).
        pose proof (starts_with_within sep (a :: h ++ sep) r Hlen) as W.
        simpl in W. rewrite <- app_assoc in W. rewrite S1, S0 in W.
        discriminate W. }
      rewrite S1. simpl in L.
      rewrite (IH s eq_refl E) by lia. reflexivity.
Qed.

Lemma len_app {A} (a b : list A) : len (a ++ b) = len a + len b.
Proof. unfold len. rewrite length_app. lia. Qed.

Lemma len_nonneg {A} (a : list A) : 0 <= len a.
Proof. unfold len. lia. Qed.

Lemma slice_prefix {A} (a b : list A) : slice (a ++ b) 0 (len a) = a.
Proof.
  unfold slice, clamp_index. rewrite len_app.
  pose proof (len_nonneg a). pose proof (len_nonneg b).
  replace (0 <? 0) with false by reflexivity.
  replace (len a <? 0) with false by (symmetry; apply Z.ltb_ge; lia).
  rewrite Z.min_l by lia. rewrite Z.min_l by lia.
  simpl. rewrite Z.sub_0_r. unfold len. rewrite Nat2Z.id.
  apply take_app_length.
Qed.

Lemma slice_from_app {A} (a b : list A) n :
  n = len a -> slice_from (a ++ b) n = b.
Proof.
  intros ->. unfold slice_from, clamp_index. rewrite len_app.
  pose proof (len_nonneg a). pose proof (len_nonneg b).
  replace (len a <? 0) with false by (symmetry; apply Z.ltb_ge; lia).
  rewrite Z.min_l by lia. unfold len. rewrite Nat2Z.id.
  apply drop_app_length.
Qed.

Lemma app_prefix_split {A} (a b c d : list A) :
  a ++ b = c ++ d -> (length c <= length a)%nat ->
  exists r, a = c ++ r /\ d = r ++ b.
Proof.
  intros E L.
  exists (drop (length c) a). split.
  - rewrite <- (take_drop (length c) a) at 1. f_equal.
    rewrite <- (take_app_le a b) by exact L.
    rewrite E. apply take_app_length.
  - pose proof (f_equal (drop (length c)) E) as D.
    rewrite drop_app_length in D. rewrite drop_app_le in D by exact L.
    symmetry. exact D.
Qed.

(** ** The frame assembler on well-formed frames *)

Section FrameLemmas.
Context `{P : Platform}.

Lemma with_frame_id c :
  with_frame (_event_buffer (self c)) (_event_content_length (self c)) c = c.
Proof. destruct c as [[] ?]. reflexivity. Qed.

Lemma drain_one chunk c :
  drain [chunk] RecvEmpty c
  = (Ret true,
     with_frame (_event_buffer (self c) ++ chunk)
       (_event_content_length (self c)) c).
Proof.
  unfold drain. destruct (len chunk =? 0) eqn:E.
  - apply Z.eqb_eq in E. unfold len in E.
    destruct chunk; [|simpl in E; lia].
    rewrite app_nil_r, with_frame_id. reflexivity.
  - destruct c as [[] ?]. reflexivity.
Qed.

Lemma scan_headers_run lines c cl' :
  last_length lines (_event_content_length (self c)) = Some cl' ->
  scan_headers lines c = (Ret tt, with_frame (_event_buffer (self c)) cl' c).
Proof.
  revert c. induction lines as [|header rest IH]; intros c H; simpl in *.
  - injection H as <-. rewrite with_frame_id. reflexivity.
  - destruct (split_once ":" header) as [|a [|b [|? ?]]]; try discriminate.
    destruct (negb _).
    + apply IH. exact H.
    + destruct (int_bytes (bytes_strip b)) as [n|]; [|discriminate].
      unfold bind, modify. rewrite IH by exact H. reflexivity.
Qed.

Lemma parse_headers_run h r n c :
  _event_content_length (self c) = None ->
  _event_buffer (self c) = h ++ HTTP_HEADER_BODY_SEPERATOR ++ r ->
  declared_length h = Some (Some n) -> n <> 0 ->
  _parse_headers (len h) c = (Ret tt, with_frame r (Some n) c).
Proof.
  intros Hcl Hbuf Hd Hn.
  unfold _parse_headers, bind, get_self, modify.
  rewrite Hbuf, slice_prefix.
  rewrite (app_assoc h), slice_from_app
    by (rewrite len_app; reflexivity).
  rewrite (scan_headers_run _ _ (Some n)) by (simpl; rewrite Hcl; exact Hd).
  simpl. destruct (n =? 0) eqn:E; [apply Z.eqb_eq in E; contradiction|].
  reflexivity.
Qed.

Lemma take_body_step b rest r F c :
  _event_content_length (self c) = Some (len b) ->
  _event_buffer (self c) = r ->
  r ++ F = b ++ rest ->
  utf8_valid b = true ->
  if (length r <? length b)%nat
  then take_body c = (Ret Continue, c)
  else exists R',
      r = b ++ R'
      /\ take_body c
         = (Ret (Return (Some (string_of_list_byte b))),
            with_frame R' None c).
Proof.
  intros Hcl Hbuf E U.
  destruct (length r <? length b)%nat eqn:L.
  - apply Nat.ltb_lt in L.
    unfold take_body, bind, get_self. rewrite Hcl, Hbuf.
    replace (len r <? len b) with true
      by (symmetry; apply Z.ltb_lt; unfold len; lia).
    reflexivity.
  - apply Nat.ltb_ge in L.
    destruct (app_prefix_split _ _ _ _ E L) as [R' [-> _]].
    exists R'. split; [reflexivity|].
    unfold take_body, bind, get_self. rewrite Hcl, Hbuf.
    replace (len (b ++ R') <? len b) with false
      by (symmetry; apply Z.ltb_ge; rewrite len_app;
          pose proof (len_nonneg R'); lia).
    unfold modify. simpl. rewrite slice_prefix, U.
    rewrite slice_from_app by reflexivity. reflexivity.
Qed.

Lemma well_formed_inv f :
  well_formed f = true ->
  find_at HTTP_HEADER_BODY_SEPERATOR (f_head f ++ HTTP_HEADER_BODY_SEPERATOR)
  = Some (length (f_head f))
  /\ declared_length (f_head f) = Some (Some (len (f_body f)))
  /\ 0 < len (f_body f)
  /\ utf8_valid (f_body f) = true.
Proof.
  unfold well_formed. intros H.
  apply andb_true_iff in H as [H U].
  apply andb_true_iff in H as [F D].
  destruct (find_at _ _) as [n|]; [|discriminate].
  apply Nat.eqb_eq in F. subst n.
  destruct (declared_length (f_head f)) as [[n|]|]; try discriminate.
  apply andb_true_iff in D as [D1 D2].
  apply Z.eqb_eq in D1. apply Z.ltb_lt in D2. subst n.
  repeat split; auto.
Qed.

Lemma length_separator : length HTTP_HEADER_BODY_SEPERATOR = 4%nat.
Proof. reflexivity. Qed.

Lemma length_encode_frame f :
  length (encode_frame f) = (length (f_head f) + 4 + length (f_body f))%nat.
Proof. unfold encode_frame. rewrite !length_app, length_separator. lia. Qed.

(** One chunk fed while the frame [f] is awaited: nothing comes out until
    the whole of [f] has arrived, and then its body comes out, the bytes
    after it staying in the buffer. *)
Lemma feed_step f fs R chunk F c :
  well_formed f = true ->
  pending R (f :: fs) c ->
  R ++ chunk ++ F = stream (f :: fs) ->
  if (length R + length chunk <? length (encode_frame f))%nat
  then exists c',
      feed chunk c = (Ret Continue, c')
      /\ pending (R ++ chunk) (f :: fs) c'
      /\ world c' = world c
  else exists c' R',
      feed chunk c = (Ret (Return (Some (body_text f))), c')
      /\ R ++ chunk = encode_frame f ++ R'
      /\ _event_content_length (self c') = None
      /\ _event_buffer (self c') = R'
      /\ world c' = world c.
Proof.
  intros W Hp E.
  destruct (well_formed_inv f W) as (Hfind & Hdecl & Hpos & Hutf).
  rewrite length_encode_frame.
  unfold feed, turn_of, bind. rewrite drain_one.
  set (c1 := with_frame _ _ c).
  assert (Hw1 : world c1 = world c) by reflexivity.
  assert (E' : (R ++ chunk) ++ F
               = f_head f ++ HTTP_HEADER_BODY_SEPERATOR
                   ++ (f_body f ++ stream fs)).
  { rewrite <- app_assoc, E. unfold stream. simpl. unfold encode_frame.
    rewrite <- !app_assoc. reflexivity. }
  (* the body part, once the header block is known *)
  assert (Body : forall c2 r,
             _event_content_length (self c2) = Some (len (f_body f)) ->
             _event_buffer (self c2) = r ->
             R ++ chunk = f_head f ++ HTTP_HEADER_BODY_SEPERATOR ++ r ->
             world c2 = world c ->
             if (length R + length chunk
                 <? length (f_head f) + 4 + length (f_body f))%nat
             then exists c',
                 take_body c2 = (Ret Continue, c')
                 /\ pending (R ++ chunk) (f :: fs) c'
                 /\ world c' = world c
             else exists c' R',
                 take_body c2 = (Ret (Return (Some (body_text f))), c')
                 /\ R ++ chunk = encode_frame f ++ R'
                 /\ _event_content_length (self c') = None
                 /\ _event_buffer (self c') = R'
                 /\ world c' = world c).
  { intros c2 r Hcl Hbuf HR Hw2.
    assert (Er : r ++ F = f_body f ++ stream fs).
    { rewrite HR in E'. rewrite <- !app_assoc in E'.
      apply app_inv_head in E'. simpl in E'.
      injection E' as E'. exact E'. }
    pose proof (take_body_step _ _ _ _ _ Hcl Hbuf Er Hutf) as T.
    assert (Hlen : (length R + length chunk
                    = length (f_head f) + 4 + length r)%nat).
    { rewrite <- length_app, HR, !length_app. simpl. lia. }
    destruct (length r <? length (f_body f))%nat eqn:L.
    - apply Nat.ltb_lt in L.
      replace (length R + length chunk
               <? length (f_head f) + 4 + length (f_body f))%nat
        with true by (symmetry; apply Nat.ltb_lt; lia).
      exists c2. split; [exact T|]. split; [|exact Hw2].
      right. exists f, fs. split; [reflexivity|]. split; [exact Hcl|].
      rewrite Hbuf. exact HR.
    - apply Nat.ltb_ge in L.
      replace (length R + length chunk
               <? length (f_head f) + 4 + length (f_body f))%nat
        with false by (symmetry; apply Nat.ltb_ge; lia).
      destruct T as (R' & -> & T).
      exists (with_frame R' None c2), R'.
      split; [exact T|]. split.
      + rewrite HR. unfold encode_frame. rewrite <- !app_assoc. reflexivity.
      + split; [reflexivity|]. split; [reflexivity|]. exact Hw2. }
  destruct Hp as [[Hcl Hbuf]|(f' & fs' & Hf & Hcl & HR)].
  - (* no header read yet *)
    assert (Hcl1 : _event_content_length (self c1) = None) by exact Hcl.
    assert (Hbuf1 : _event_buffer (self c1) = R ++ chunk)
      by (simpl; rewrite Hbuf; reflexivity).
    unfold read_headers, bind, get_self. rewrite Hcl1, Hbuf1.
    change (falsy None) with true. cbv beta iota.
    destruct (length (R ++ chunk) <? length (f_head f) + 4)%nat eqn:L.
    + apply Nat.ltb_lt in L.
      unfold bytes_find.
      rewrite (find_at_before _ _ _ _ _ Hfind E')
        by (rewrite length_separator; lia).
      simpl. rewrite length_app in L.
      replace (length R + length chunk
               <? length (f_head f) + 4 + length (f_body f))%nat
        with true by (symmetry; apply Nat.ltb_lt; lia).
      exists c1. split; [reflexivity|]. split; [|exact Hw1].
      left. split; assumption.
    + apply Nat.ltb_ge in L.
      destruct (app_prefix_split (R ++ chunk) F
                  (f_head f ++ HTTP_HEADER_BODY_SEPERATOR)
                  (f_body f ++ stream fs)) as (r & Hr & _).
      { rewrite <- (app_assoc (f_head f)). exact E'. }
      { rewrite (length_app (f_head f)), length_separator. lia. }
      rewrite <- app_assoc in Hr.
      unfold bytes_find. rewrite Hr.
      rewrite (find_at_head _ _ _ Hfind).
      replace (Z.of_nat (length (f_head f)) =? -1) with false
        by (symmetry; apply Z.eqb_neq; lia).
      change (Z.of_nat (length (f_head f))) with (len (f_head f)).
      cbv beta iota.
      rewrite (parse_headers_run (f_head f) r (len (f_body f)))
        by (try assumption; try lia; rewrite Hbuf1; exact Hr).
      rewrite <- Hr.
      apply (Body (with_frame r (Some (len (f_body f))) c1) r);
        try reflexivity. exact Hr.
  - (* the header block of [f] has been read *)
    injection Hf as <- <-.
    assert (Hcl1 : _event_content_length (self c1) = Some (len (f_body f)))
      by exact Hcl.
    unfold read_headers, bind, get_self. rewrite Hcl1.
    change (falsy (Some (len (f_body f)))) with (len (f_body f) =? 0).
    replace (len (f_body f) =? 0) with false
      by (symmetry; apply Z.eqb_neq; lia).
    unfold ret at 1. cbv beta iota.
    apply (Body c1 (_event_buffer (self c) ++ chunk));
      try reflexivity; try assumption.
    rewrite HR, <- !app_assoc. reflexivity.
Qed.

Lemma feed_idle R chunk F c :
  pending R [] c -> R ++ chunk ++ F = [] ->
  feed chunk c = (Ret Continue, c).
Proof.
  intros [[Hcl Hbuf]|(f & fs & Hf & _)] E; [|discriminate].
  apply app_eq_nil in E as [-> E]. apply app_eq_nil in E as [-> _].
  unfold feed, turn_of, bind. rewrite drain_one, Hbuf, Hcl.
  unfold read_headers, bind, get_self. simpl.
  destruct c as [[] ?]. simpl in *. subst. reflexivity.
Qed.

Lemma stream_cons f fs : stream (f :: fs) = encode_frame f ++ stream fs.
Proof. reflexivity. Qed.

Lemma feed_all_run chunks :
  forall R fs c,
    Forall (fun f => well_formed f = true) fs ->
    pending R fs c ->
    R ++ concat chunks = stream fs ->
    exists k c',
      feed_all chunks c = (Ret (map body_text (take k fs)), c')
      /\ (k <= length fs)%nat
      /\ holds (drop k fs) c'
      /\ world c' = world c
      /\ (caught_up R fs ->
          paced (length R) (frame_lengths fs) (map length chunks) = true ->
          k = length fs).
Proof.
  induction chunks as [|chunk rest IH]; intros R fs c W Hp E.
  - simpl in E. rewrite app_nil_r in E. subst R.
    exists 0%nat, c. simpl. rewrite drop_0.
    repeat split; auto; try lia.
    intros Hc _. destruct fs as [|f fs]; [reflexivity|].
    simpl in Hc. rewrite stream_cons, length_app in Hc. lia.
  - simpl in E. destruct fs as [|f fs].
    + pose proof (feed_idle _ _ _ _ Hp E) as Hfeed.
      apply app_eq_nil in E as [-> E]. apply app_eq_nil in E as [-> E].
      destruct (IH [] [] c W Hp E) as (k & c' & Hrun & Hk & Hh & Hw & _).
      exists k, c'. simpl in Hk.
      assert (k = 0%nat) by lia. subst k.
      cbn [feed_all]. unfold bind at 1. rewrite Hfeed.
      unfold bind at 1. rewrite Hrun.
      repeat split; auto.
    + pose proof (Forall_inv W) as Wf. pose proof (Forall_inv_tail W) as Wfs.
      pose proof (feed_step f fs R chunk (concat rest) c Wf Hp E) as St.
      destruct (length R + length chunk <? length (encode_frame f))%nat
        eqn:L.
      * destruct St as (c1 & Hfeed & Hp1 & Hw1).
        destruct (IH (R ++ chunk) (f :: fs) c1 W Hp1)
          as (k & c' & Hrun & Hk & Hh & Hw & Hpaced).
        { rewrite <- app_assoc. exact E. }
        exists k, c'.
        cbn [feed_all]. unfold bind at 1. rewrite Hfeed.
        unfold bind at 1. rewrite Hrun.
        repeat split; auto; try congruence.
        intros Hc Hpc. apply Hpaced.
        -- simpl. rewrite length_app. apply Nat.ltb_lt in L. exact L.
        -- simpl in Hpc. rewrite L in Hpc. rewrite length_app. exact Hpc.
      * destruct St as (c1 & R' & Hfeed & HR & Hcl1 & Hbuf1 & Hw1).
        assert (E1 : R' ++ concat rest = stream fs).
        { rewrite app_assoc, HR, <- app_assoc, stream_cons in E.
          apply app_inv_head in E. exact E. }
        assert (Hp1 : pending R' fs c1) by (left; split; assumption).
        destruct (IH R' fs c1 Wfs Hp1 E1)
          as (k & c' & Hrun & Hk & Hh & Hw & Hpaced).
        exists (S k), c'.
        cbn [feed_all]. unfold bind at 1. rewrite Hfeed.
        unfold bind at 1. rewrite Hrun.
        repeat split; auto; try congruence; try (simpl; lia).
        intros Hc Hpc. simpl. f_equal.
        assert (HlenR' : length R'
                         = (length R + length chunk
                            - length (encode_frame f))%nat).
        { pose proof (f_equal (@length byte) HR) as HL.
          rewrite !length_app in HL. lia. }
        simpl in Hpc. rewrite L in Hpc. rewrite <- HlenR' in Hpc.
        destruct fs as [|g fs'].
        -- apply Hpaced; [exact I|exact Hpc].
        -- simpl in Hpc. apply andb_true_iff in Hpc as [Hg Hpc].
           apply Hpaced; [|exact Hpc].
           simpl. apply Nat.ltb_lt in Hg. exact Hg.
Qed.

Lemma paced_bytewise sizes :
  forall got lens,
    Forall (fun s => s = 1%nat) sizes ->
    Forall (fun l => (2 <= l)%nat) lens ->
    match lens with [] => True | l :: _ => (got < l)%nat end ->
    paced got lens sizes = true.
Proof.
  induction sizes as [|s sizes IH]; intros got lens Hs Hl Hg; [reflexivity|].
  pose proof (Forall_inv Hs) as ->. pose proof (Forall_inv_tail Hs) as Hs'.
  destruct lens as [|l lens]; simpl.
  - apply IH; auto.
  - pose proof (Forall_inv Hl) as Hl1.
    pose proof (Forall_inv_tail Hl) as Hl'.
    destruct (got + 1 <? l)%nat eqn:L.
    + apply Nat.ltb_lt in L. apply IH; auto.
    + apply Nat.ltb_ge in L.
      replace (got + 1 - l)%nat with 0%nat by lia.
      destruct lens as [|l' lens'].
      * apply IH; auto.
      * pose proof (Forall_inv Hl') as Hl2. cbv beta in Hl2.
        replace (0 <? l')%nat with true
          by (symmetry; apply Nat.ltb_lt; lia).
        simpl. apply IH; auto. lia.
Qed.

End FrameLemmas.

(** ** Frames that are well formed *)

Lemma digit_byte_spec d :
  (d < 10)%nat ->
  is_digit (digit_byte d) = true
  /\ digit_val (digit_byte d) = Z.of_nat d
  /\ is_space (digit_byte d) = false
  /\ plain (digit_byte d)
  /\ (code (digit_byte d) =? 43)%N = false
  /\ (code (digit_byte d) =? 45)%N = false.
Proof.
  intros H.
  do 10 (destruct d as [|d];
         [vm_compute; repeat split; try reflexivity; discriminate|]).
  lia.
Qed.

Lemma decimal_go_spec fuel :
  forall n acc,
    (n < fuel)%nat ->
    exists ds,
      decimal_go fuel n acc = ds ++ acc
      /\ ds <> []
      /\ Forall digit_like ds
      /\ digits_value ds 0 = Z.of_nat n.
Proof.
  induction fuel as [|fuel IH]; intros n acc L; [lia|].
  assert (Hm : (n mod 10 < 10)%nat) by (apply Nat.mod_upper_bound; lia).
  destruct (digit_byte_spec _ Hm) as (D1 & D2 & D3 & D4 & D5 & D6).
  assert (Dl : digit_like (digit_byte (n mod 10)))
    by (repeat split; assumption).
  cbn [decimal_go]. destruct (n / 10 =? 0)%nat eqn:Q.
  - apply Nat.eqb_eq in Q. exists [digit_byte (n mod 10)].
    split; [reflexivity|]. split; [discriminate|].
    split; [repeat constructor; assumption|].
    unfold digits_value. cbn [fold_left]. rewrite D2.
    pose proof (Nat.div_mod_eq n 10). lia.
  - apply Nat.eqb_neq in Q.
    assert (L' : (n / 10 < fuel)%nat).
    { pose proof (Nat.div_mod_eq n 10). lia. }
    destruct (IH (n / 10)%nat (digit_byte (n mod 10) :: acc) L')
      as (ds & E & Hne & Hd & Hv).
    exists (ds ++ [digit_byte (n mod 10)]).
    split; [rewrite E, <- app_assoc; reflexivity|].
    split; [destruct ds; discriminate|].
    split; [apply Forall_app; split; [exact Hd|repeat constructor; assumption]|].
    unfold digits_value in *. rewrite fold_left_app, Hv.
    cbn [fold_left]. rewrite D2.
    pose proof (Nat.div_mod_eq n 10). lia.
Qed.

Lemma decimal_spec n :
  exists d ds,
    decimal n = d :: ds
    /\ Forall digit_like (d :: ds)
    /\ digits_value (d :: ds) 0 = Z.of_nat n.
Proof.
  destruct (decimal_go_spec (S n) n [] (Nat.lt_succ_diag_r n))
    as (ds & E & Hne & Hd & Hv).
  rewrite app_nil_r in E. destruct ds as [|d ds]; [contradiction|].
  exists d, ds. auto.
Qed.

Lemma int_digits_value ds :
  forall a p,
    Forall digit_like ds -> (ds <> [] \/ p = true) ->
    int_digits ds a p = Some (digits_value ds a).
Proof.
  induction ds as [|b ds IH]; intros a p Hd Hp.
  - destruct Hp as [Hp | ->]; [contradiction|reflexivity].
  - pose proof (Forall_inv Hd) as (D1 & _).
    cbn [int_digits]. rewrite D1.
    apply IH; [exact (Forall_inv_tail Hd)|right; reflexivity].
Qed.

Lemma lstrip_id b s : is_space b = false -> lstrip (b :: s) = b :: s.
Proof. intros H. simpl. rewrite H. reflexivity. Qed.

Lemma bytes_strip_digits ds :
  Forall digit_like ds -> bytes_strip ds = ds.
Proof.
  intros Hd. unfold bytes_strip.
  assert (L : forall l, Forall digit_like l -> lstrip l = l).
  { intros [|b l] Hl; [reflexivity|].
    apply lstrip_id. exact (proj1 (proj2 (Forall_inv Hl))). }
  rewrite (L ds Hd).
  rewrite (L (rev ds)) by (apply Forall_rev; exact Hd).
  apply rev_involutive.
Qed.

(** The length that the loop of [_parse_headers] reads back from the digits
    of [n]. *)
Lemma int_bytes_decimal n :
  int_bytes (bytes_strip (x20 :: decimal n)) = Some (Z.of_nat n).
Proof.
  destruct (decimal_spec n) as (d & ds & E & Hd & Hv). rewrite E.
  assert (S1 : bytes_strip (x20 :: d :: ds) = d :: ds).
  { unfold bytes_strip. change (lstrip (x20 :: d :: ds)) with (lstrip (d :: ds)).
    apply (bytes_strip_digits (d :: ds) Hd). }
  rewrite S1. unfold int_bytes. rewrite (bytes_strip_digits _ Hd).
  destruct (Forall_inv Hd) as (_ & _ & _ & P1 & P2).
  rewrite P1, P2, <- Hv.
  apply int_digits_value; [exact Hd|left; discriminate].
Qed.

Lemma starts_with_plain sep b s :
  plain b -> starts_with (CR :: sep) (b :: s) = false.
Proof.
  intros H. simpl. destruct (Byte.eqb CR b) eqn:E; [|reflexivity].
  apply Byte.byte_dec_bl in E. symmetry in E. contradiction.
Qed.

Lemma find_at_plain x y :
  Forall plain x ->
  find_at HTTP_HEADER_BODY_SEPERATOR (x ++ y)
  = option_map (Nat.add (length x)) (find_at HTTP_HEADER_BODY_SEPERATOR y).
Proof.
  induction x as [|b x IH]; intros Hx.
  - simpl. destruct (find_at _ y); reflexivity.
  - change ((b :: x) ++ y) with (b :: (x ++ y)). cbn [find_at].
    unfold HTTP_HEADER_BODY_SEPERATOR at 1.
    rewrite (starts_with_plain _ _ _ (Forall_inv Hx)).
    rewrite (IH (Forall_inv_tail Hx)).
    destruct (find_at _ y); reflexivity.
Qed.

Lemma split_go_plain x :
  forall cur rest,
    Forall plain x ->
    split_go HTTP_HEADER_SEPERATOR 0 cur (x ++ rest)
    = split_go HTTP_HEADER_SEPERATOR 0 (rev x ++ cur) rest.
Proof.
  induction x as [|b x IH]; intros cur rest Hx; [reflexivity|].
  change ((b :: x) ++ rest) with (b :: (x ++ rest)). cbn [split_go].
  unfold HTTP_HEADER_SEPERATOR at 1.
  rewrite (starts_with_plain _ _ _ (Forall_inv Hx)).
  rewrite (IH _ _ (Forall_inv_tail Hx)). simpl.
  rewrite <- app_assoc. reflexivity.
Qed.

Lemma plain_literal : Forall plain (B "Content-Length: ").
Proof. repeat constructor; discriminate. Qed.

Lemma plain_digits ds : Forall digit_like ds -> Forall plain ds.
Proof.
  intros H. eapply Forall_impl; [exact H|].
  intros b (_ & _ & Hb & _). exact Hb.
Qed.

Lemma find_at_line line :
  Forall plain line -> line <> [] ->
  find_at HTTP_HEADER_BODY_SEPERATOR
    (CR :: LF :: line ++ HTTP_HEADER_BODY_SEPERATOR)
  = Some (2 + length line)%nat.
Proof.
  intros Hl Hne. destruct line as [|c0 l0]; [contradiction|].
  pose proof (Forall_inv Hl) as Hc0.
  assert (S0 : starts_with HTTP_HEADER_BODY_SEPERATOR
                 (CR :: LF :: (c0 :: l0) ++ HTTP_HEADER_BODY_SEPERATOR)
               = false).
  { simpl. destruct (Byte.eqb CR c0) eqn:Q; [|reflexivity].
    apply Byte.byte_dec_bl in Q. symmetry in Q. contradiction. }
  assert (S1 : starts_with HTTP_HEADER_BODY_SEPERATOR
                 (LF :: (c0 :: l0) ++ HTTP_HEADER_BODY_SEPERATOR)
               = false) by reflexivity.
  cbn [find_at]. rewrite S0, S1.
  rewrite (find_at_plain _ _ Hl).
  assert (F0 : find_at HTTP_HEADER_BODY_SEPERATOR HTTP_HEADER_BODY_SEPERATOR
               = Some 0%nat) by reflexivity.
  rewrite F0. simpl. rewrite Nat.add_0_r. reflexivity.
Qed.

Lemma bytes_split_lines first_line line :
  Forall plain first_line -> Forall plain line ->
  bytes_split (first_line ++ HTTP_HEADER_SEPERATOR ++ line)
    HTTP_HEADER_SEPERATOR
  = [first_line; line].
Proof.
  intros Hf Hl. unfold bytes_split.
  rewrite (split_go_plain _ _ _ Hf). rewrite app_nil_r.
  assert (Step : forall cur rest,
             split_go HTTP_HEADER_SEPERATOR 0 cur (CR :: LF :: rest)
             = rev cur :: split_go HTTP_HEADER_SEPERATOR 0 [] rest)
    by reflexivity.
  change (HTTP_HEADER_SEPERATOR ++ line) with (CR :: LF :: line).
  rewrite Step, rev_involutive.
  rewrite <- (app_nil_r line) at 1.
  rewrite (split_go_plain _ _ _ Hl). simpl.
  rewrite app_nil_r, rev_involutive. reflexivity.
Qed.

Lemma last_length_line ds :
  last_length [B "Content-Length: " ++ ds] None
  = match int_bytes (bytes_strip (x20 :: ds)) with
    | Some n => Some (Some n)
    | None => None
    end.
Proof. reflexivity. Qed.

(** A first line without carriage return, a content-length header with the
    length of the body in decimal, a body that is not empty and is UTF-8:
    the assembler accepts the frame. *)
Lemma request_well_formed first_line body :
  Forall plain first_line ->
  body <> [] ->
  utf8_valid body = true ->
  well_formed (request first_line body) = true.
Proof.
  intros Hf Hb Hu.
  destruct (decimal_spec (length body)) as (d & ds & E & Hd & Hv).
  set (line := B "Content-Length: " ++ decimal (length body)).
  assert (Hline : Forall plain line).
  { subst line. apply Forall_app. split; [exact plain_literal|].
    rewrite E. exact (plain_digits _ Hd). }
  assert (Hne : line <> []) by (subst line; discriminate).
  assert (Hhead : f_head (request first_line body)
                  = first_line ++ HTTP_HEADER_SEPERATOR ++ line)
    by reflexivity.
  assert (Hbody : f_body (request first_line body) = body) by reflexivity.
  unfold well_formed. rewrite Hhead, Hbody. clear Hhead Hbody.
  assert (F : find_at HTTP_HEADER_BODY_SEPERATOR
                ((first_line ++ HTTP_HEADER_SEPERATOR ++ line)
                   ++ HTTP_HEADER_BODY_SEPERATOR)
              = Some (length (first_line ++ HTTP_HEADER_SEPERATOR ++ line))).
  { rewrite <- app_assoc. rewrite (find_at_plain _ _ Hf).
    change ((HTTP_HEADER_SEPERATOR ++ line) ++ HTTP_HEADER_BODY_SEPERATOR)
      with (CR :: LF :: line ++ HTTP_HEADER_BODY_SEPERATOR).
    rewrite (find_at_line _ Hline Hne).
    change (HTTP_HEADER_SEPERATOR ++ line) with (CR :: LF :: line).
    simpl. rewrite length_app. simpl. reflexivity. }
  assert (D : declared_length (first_line ++ HTTP_HEADER_SEPERATOR ++ line)
              = Some (Some (len body))).
  { unfold declared_length. rewrite (bytes_split_lines _ _ Hf Hline).
    cbn [tl]. subst line. rewrite last_length_line, int_bytes_decimal.
    reflexivity. }
  rewrite F, D, Nat.eqb_refl, Z.eqb_refl, Hu.
  replace (0 <? len body) with true; [reflexivity|].
  symmetry. apply Z.ltb_lt. unfold len.
  destruct body; [contradiction|simpl; lia].
Qed.

(** ** Feeding chunks and reading from the socket *)

Lemma blind_ret {A} (a : A) : wire_blind (ret a).
Proof. intros w c. reflexivity. Qed.

Lemma blind_raise {A} e : wire_blind (raise e : M A).
Proof. intros w c. reflexivity. Qed.

Lemma blind_get_self : wire_blind get_self.
Proof. intros w c. reflexivity. Qed.

Lemma blind_modify f : wire_blind (modify f).
Proof. intros w c. reflexivity. Qed.

Lemma blind_bind {A B} (m : M A) (k : A -> M B) :
  wire_blind m -> (forall a, wire_blind (k a)) -> wire_blind (bind m k).
Proof.
  intros Hm Hk w c. unfold bind. rewrite Hm.
  destruct (m c) as [[a|e] c']; simpl; [apply Hk|reflexivity].
Qed.

Ltac blind_step :=
  match goal with
  | |- wire_blind (bind _ _) => apply blind_bind; [|intros ?]
  | |- wire_blind (ret _) => apply blind_ret
  | |- wire_blind (raise _) => apply blind_raise
  | |- wire_blind get_self => apply blind_get_self
  | |- wire_blind (modify _) => apply blind_modify
  | |- wire_blind (if ?b then _ else _) => destruct b
  | |- wire_blind (match ?x with _ => _ end) => destruct x
  | |- wire_blind _ => solve [auto]
  end.

Ltac blind := repeat blind_step.

Lemma blind_scan_headers lines : wire_blind (scan_headers lines).
Proof. induction lines as [|h r IH]; simpl; blind. Qed.

Lemma blind_parse_headers pos : wire_blind (_parse_headers pos).
Proof. pose proof blind_scan_headers. unfold _parse_headers. blind. Qed.

Lemma blind_drain chunks fin : wire_blind (drain chunks fin).
Proof. induction chunks as [|h r IH]; simpl; blind. Qed.

Lemma blind_read_headers : wire_blind read_headers.
Proof. pose proof blind_parse_headers. unfold read_headers. blind. Qed.

Lemma blind_take_body : wire_blind take_body.
Proof. unfold take_body. blind. Qed.

Lemma blind_turn_of r : wire_blind (turn_of r).
Proof.
  pose proof blind_drain. pose proof blind_read_headers.
  pose proof blind_take_body. unfold turn_of. blind.
Qed.

Lemma take_body_returns c c' : take_body c <> (Ret (Return None), c').
Proof.
  unfold take_body, bind, get_self, modify, ret, raise.
  destruct (_event_content_length (self c)); [|discriminate].
  destruct (_ <? _); [discriminate|].
  destruct (utf8_valid _); discriminate.
Qed.

(** A feed returns a body, or asks for more, or raises: never [None]. *)
Lemma feed_returns chunk c c' : feed chunk c <> (Ret (Return None), c').
Proof.
  unfold feed, turn_of, bind.
  destruct (drain [chunk] RecvEmpty c) as [[[|]|e] c1]; try discriminate.
  destruct (read_headers c1) as [[[|]|e] c2]; try discriminate.
  apply take_body_returns.
Qed.

(** What the feeds return is what [_read_one_response_or_timeout] returns,
    call after call, when the chunks arrive one by one. *)
Lemma read_all_feed_all chunks :
  forall calls c bodies c',
    (length chunks < calls)%nat ->
    feed_all chunks c = (Ret bodies, c') ->
    read_all calls (set_wire (arriving chunks) c)
    = (Ret bodies, set_wire [] c').
Proof.
  induction chunks as [|chunk rest IH]; intros calls c bodies c' L E.
  - destruct calls as [|calls]; [simpl in L; lia|].
    injection E as <- <-. reflexivity.
  - destruct calls as [|calls]; [simpl in L; lia|]. simpl in L.
    cbn [feed_all] in E. unfold bind at 1 in E.
    destruct (feed chunk c) as [[t|e] c1] eqn:F; [|discriminate].
    unfold bind at 1 in E.
    destruct (feed_all rest c1) as [[bs|e] c2] eqn:R; [|discriminate].
    injection E as <- <-.
    assert (T : turn_of (Ready [chunk] RecvEmpty)
                  (set_wire (arriving rest) (set_wire (arriving (chunk :: rest)) c))
                = (Ret t, set_wire (arriving rest) c1)).
    { change (set_wire (arriving rest) (set_wire (arriving (chunk :: rest)) c))
        with (set_wire (arriving rest) c).
      rewrite blind_turn_of. fold (feed chunk c). rewrite F. reflexivity. }
    destruct t as [[b|]|].
    + cbn [read_all]. unfold _read_one_response_or_timeout.
      change (wire (world (set_wire (arriving (chunk :: rest)) c)))
        with (Ready [chunk] RecvEmpty :: arriving rest).
      cbn [read_loop]. rewrite T.
      rewrite (IH calls c1 bs c2) by (try lia; exact R). reflexivity.
    + exfalso. exact (feed_returns chunk c c1 F).
    + specialize (IH (S calls) c1 bs c2 ltac:(lia) R).
      cbn [read_all] in IH |- *.
      unfold _read_one_response_or_timeout in IH |- *.
      change (wire (world (set_wire (arriving (chunk :: rest)) c)))
        with (Ready [chunk] RecvEmpty :: arriving rest).
      cbn [read_loop]. rewrite T.
      change (wire (world (set_wire (arriving rest) c1)))
        with (arriving rest) in IH.
      exact IH.
Qed.

(** ** The frame assembler: the claims *)

Section FrameClaims.
Context `{P : Platform}.

Lemma length_encode_frame_ge f : (4 <= length (encode_frame f))%nat.
Proof. rewrite length_encode_frame. lia. Qed.

(** C1, as amended.  Frames that the assembler accepts (a first line before
    the headers, a content-length header giving the positive length of the
    body, a UTF-8 body) are cut into chunks in any way and fed one chunk
    after the other to the assembler as [watch] starts it.  No feed raises;
    the bodies returned are the bodies of the first [k] frames, in order and
    byte for byte; the bytes of the other frames are still held by the
    assembler, none lost and none twice; and these are the bodies that
    [_read_one_response_or_timeout] returns, call after call, when the
    chunks arrive one by one on the socket.  When no chunk holds the last
    byte of more than one frame, and so when the chunks are single bytes,
    all the bodies are returned and nothing is left. *)
Theorem frames_reassembled (fs : list frame) (chunks : list bytes) (c : Cfg) :
  Forall (fun f => well_formed f = true) fs ->
  concat chunks = stream fs ->
  exists k c',
    feed_all chunks (fresh c) = (Ret (map body_text (firstn k fs)), c')
    /\ read_all (S (length chunks)) (set_wire (arriving chunks) (fresh c))
       = (Ret (map body_text (firstn k fs)), set_wire [] c')
    /\ (k <= length fs)%nat
    /\ holds (skipn k fs) c'
    /\ (paced 0 (frame_lengths fs) (map length chunks) = true ->
        k = length fs)
    /\ (Forall (fun chunk => length chunk = 1%nat) chunks -> k = length fs).
Proof.
  intros W E.
  assert (Hp : pending [] fs (fresh c)) by (left; split; reflexivity).
  destruct (feed_all_run chunks [] fs (fresh c) W Hp E)
    as (k & c' & Hrun & Hk & Hh & _ & Hpaced).
  assert (Hc : caught_up [] fs).
  { destruct fs as [|f fs']; simpl; [exact I|].
    pose proof (length_encode_frame_ge f). lia. }
  exists k, c'. split; [exact Hrun|].
  split; [apply read_all_feed_all; [lia|exact Hrun]|].
  repeat split; auto.
  intros Hb. apply Hpaced; [exact Hc|].
  apply paced_bytewise.
  - apply Forall_map. exact Hb.
  - unfold frame_lengths. apply Forall_map.
    apply Forall_forall. intros f _.
    pose proof (length_encode_frame_ge f). lia.
  - destruct fs as [|f fs']; simpl; [exact I|].
    pose proof (length_encode_frame_ge f). lia.
Qed.

(** C2, as amended.  With a first line before the content-length header,
    the headers and the separator fed alone leave the assembler waiting for
    five bytes, without a body and without an error; feeding [HELLO] then
    returns the body [HELLO] and empties the buffer. *)
Theorem hello_in_two_parts (c : Cfg) :
  feed (B "POST reuse HTTP/1.1" ++ HTTP_HEADER_SEPERATOR
          ++ B "Content-Length: 5" ++ HTTP_HEADER_BODY_SEPERATOR)
       (fresh c)
  = (Ret Continue, with_frame [] (Some 5) c)
  /\ feed (B "HELLO") (with_frame [] (Some 5) c)
     = (Ret (Return (Some "HELLO"%string)), with_frame [] None c).
Proof. split; reflexivity. Qed.

(** C3, on the code.  A frame whose headers declare a content length of 0:
    [_parse_headers] stores 0, takes it for a missing header and raises
    [ValueError]; no empty body is returned. *)
Theorem zero_length_frame_raises (c : Cfg) :
  feed (B "POST reuse HTTP/1.1" ++ HTTP_HEADER_SEPERATOR
          ++ B "Content-Length: 0" ++ HTTP_HEADER_BODY_SEPERATOR)
       (fresh c)
  = (Raise ValueError, with_frame [] (Some 0) c).
Proof. reflexivity. Qed.

End FrameClaims.

Section FrameExamples.
Local Existing Instance Sample.platform.
Import Sample.

Lemma frames_reassembled_witness :
  Forall (fun f => well_formed f = true) [frame_ab; frame_cd]
  /\ concat (bytewise (stream [frame_ab; frame_cd]))
     = stream [frame_ab; frame_cd]
  /\ exists k c',
      feed_all (bytewise (stream [frame_ab; frame_cd])) (fresh new_session)
      = (Ret (map body_text (firstn k [frame_ab; frame_cd])), c')
      /\ read_all (S (length (bytewise (stream [frame_ab; frame_cd]))))
           (set_wire (arriving (bytewise (stream [frame_ab; frame_cd])))
              (fresh new_session))
         = (Ret (map body_text (firstn k [frame_ab; frame_cd])),
            set_wire [] c')
      /\ (k <= 2)%nat
      /\ holds (skipn k [frame_ab; frame_cd]) c'
      /\ (paced 0 (frame_lengths [frame_ab; frame_cd])
            (map length (bytewise (stream [frame_ab; frame_cd]))) = true ->
          k = 2%nat)
      /\ (Forall (fun chunk => length chunk = 1%nat)
            (bytewise (stream [frame_ab; frame_cd])) -> k = 2%nat).
Proof.
  split; [repeat constructor|].
  split; [reflexivity|].
  apply (frames_reassembled [frame_ab; frame_cd]).
  - repeat constructor.
  - reflexivity.
Defined.

(** C1, as stated, fails.  Two frames arriving in one chunk: one feed, one
    body, and the second frame stays in the buffer; read from the socket,
    the first call returns the first body and the second call times out.
    And a frame whose content-length header is the first line of its header
    block, fed byte by byte: [ValueError], no body. *)
Lemma frames_reassembled_counterexample :
  well_formed frame_ab = true /\ well_formed frame_cd = true
  /\ feed_all [stream [frame_ab; frame_cd]] (fresh new_session)
     = (Ret ["ab"%string],
        with_frame (encode_frame frame_cd) None new_session)
  /\ read_all 2
       (set_wire (arriving [stream [frame_ab; frame_cd]]) (fresh new_session))
     = (Ret ["ab"%string],
        with_frame (encode_frame frame_cd) None new_session)
  /\ fst (feed_all (bytewise (stream [frame_bare])) (fresh new_session))
     = Raise ValueError.
Proof. repeat split; vm_compute; reflexivity. Qed.

(** C2, as stated, fails.  The headers of the example have no first line:
    the content-length header is passed over and the first feed raises
    [ValueError]. *)
Lemma hello_in_two_parts_counterexample :
  feed (B "Content-Length: 5" ++ HTTP_HEADER_BODY_SEPERATOR)
       (fresh new_session)
  = (Raise ValueError, with_frame [] None new_session).
Proof. vm_compute. reflexivity. Qed.

End FrameExamples.

(** ** What the methods leave alone *)

Section Preserving.
Context `{P : Platform}.
Variable I : EventStream -> Prop.

Lemma pres_ret {A} (a : A) : preserving I (ret a).
Proof. intros c H. exact H. Qed.

Lemma pres_raise {A} e : preserving I (raise e : M A).
Proof. intros c H. exact H. Qed.

Lemma pres_lift {A} (o : outcome A) : preserving I (lift o).
Proof. intros c H. exact H. Qed.

Lemma pres_get_self : preserving I get_self.
Proof. intros c H. exact H. Qed.

Lemma pres_emit e : preserving I (emit e).
Proof. intros c H. exact H. Qed.

Lemma pres_now : preserving I datetime_now.
Proof. intros c H. exact H. Qed.

Lemma pres_modify f : (forall o, I o -> I (f o)) -> preserving I (modify f).
Proof. intros Hf c H. apply Hf. exact H. Qed.

Lemma pres_bind {A B} (m : M A) (k : A -> M B) :
  preserving I m -> (forall a, preserving I (k a)) -> preserving I (bind m k).
Proof.
  intros Hm Hk c H. unfold bind.
  specialize (Hm c H). destruct (m c) as [[a|e] c']; simpl in *.
  - apply Hk. exact Hm.
  - exact Hm.
Qed.

Lemma pres_try {A} (m : M A) (h : exn -> M A) :
  preserving I m -> (forall e, preserving I (h e)) ->
  preserving I (try_except m h).
Proof.
  intros Hm Hh c H. unfold try_except.
  specialize (Hm c H). destruct (m c) as [[a|e] c']; simpl in *.
  - exact Hm.
  - apply Hh. exact Hm.
Qed.

End Preserving.

Ltac pres_step :=
  match goal with
  | |- preserving _ (bind _ _) => apply pres_bind; [|intros ?]
  | |- preserving _ (ret _) => apply pres_ret
  | |- preserving _ (raise _) => apply pres_raise
  | |- preserving _ (lift _) => apply pres_lift
  | |- preserving _ get_self => apply pres_get_self
  | |- preserving _ (emit _) => apply pres_emit
  | |- preserving _ datetime_now => apply pres_now
  | |- preserving _ (try_except _ _) => apply pres_try; [|intros ?]
  | |- preserving _ (modify _) => apply pres_modify; solve [auto]
  | |- preserving _ (if ?b then _ else _) => destruct b
  | |- preserving _ (match ?x with _ => _ end) => destruct x
  | |- preserving _ _ => solve [auto]
  end.

Ltac pres := repeat pres_step.

(** The frame assembler, the heartbeat test and the router write to the
    buffer, the content length, the heartbeat fields and, through
    [update_received], the connection dictionary; nothing else. *)
Section Readers.
Context `{P : Platform}.
Variable I : EventStream -> Prop.
Hypothesis I_buffer : forall v o, I o -> I (set_event_buffer v o).
Hypothesis I_length : forall v o, I o -> I (set_event_content_length v o).
Hypothesis I_lasthb : forall v o, I o -> I (set_lasthb v o).
Hypothesis I_hbwait : forall v o, I o -> I (set_hbwait v o).
Hypothesis I_update : forall x, preserving I (update_received x).

Lemma pres_scan_headers lines : preserving I (scan_headers lines).
Proof using I_length. induction lines as [|h r IH]; simpl; pres. Qed.

Lemma pres_parse_headers pos : preserving I (_parse_headers pos).
Proof using I_buffer I_length.
  pose proof pres_scan_headers. unfold _parse_headers. pres.
Qed.

Lemma pres_drain chunks fin : preserving I (drain chunks fin).
Proof using I_buffer. induction chunks as [|h r IH]; simpl; pres. Qed.

Lemma pres_read_headers : preserving I read_headers.
Proof using I_buffer I_length.
  pose proof pres_parse_headers. unfold read_headers. pres.
Qed.

Lemma pres_take_body : preserving I take_body.
Proof using I_buffer I_length. unfold take_body. pres. Qed.

Lemma pres_turn_of r : preserving I (turn_of r).
Proof using I_buffer I_length.
  pose proof pres_drain. pose proof pres_read_headers.
  pose proof pres_take_body. unfold turn_of. pres.
Qed.

Lemma pres_read_loop w :
  forall c, I (self c) -> I (self (snd (read_loop w c))).
Proof using I_buffer I_length.
  induction w as [|r w IH]; intros c H; simpl; [exact H|].
  pose proof (pres_turn_of r (set_wire w c) H) as Ht.
  destruct (turn_of r (set_wire w c)) as [[[v|]|e] c']; simpl in *; auto.
Qed.

Lemma pres_read_one : preserving I _read_one_response_or_timeout.
Proof using I_buffer I_length.
  intros c H. apply pres_read_loop. exact H.
Qed.

Lemma pres_heartbeat_time : preserving I heartbeat_time.
Proof. unfold heartbeat_time. pres. Qed.

Lemma pres_heartbeat_expired : preserving I heartbeat_expired.
Proof. pose proof pres_heartbeat_time. unfold heartbeat_expired. pres. Qed.

Lemma pres_int_of v : preserving I (int_of v).
Proof. unfold int_of. pres. Qed.

Lemma pres_route_message msg : preserving I (_route_message msg).
Proof using I_lasthb I_hbwait I_update.
  pose proof pres_int_of. unfold _route_message, direct. pres.
Qed.

Lemma pres_create_message msg : preserving I (_create_message msg).
Proof. unfold _create_message. pres. Qed.

Lemma pres_write io_ok msg : preserving I (write io_ok msg).
Proof. unfold write. pres. Qed.

End Readers.

(** The session methods write to the flags and the thread besides; only a
    [connect] that succeeds writes to the writer. *)
Section Sessions.
Context `{P : Platform}.
Variable I : EventStream -> Prop.
Variable may_connect : bool.
Hypothesis I_buffer : forall v o, I o -> I (set_event_buffer v o).
Hypothesis I_length : forall v o, I o -> I (set_event_content_length v o).
Hypothesis I_lasthb : forall v o, I o -> I (set_lasthb v o).
Hypothesis I_hbwait : forall v o, I o -> I (set_hbwait v o).
Hypothesis I_update : forall x, preserving I (update_received x).
Hypothesis I_disconnect : preserving I disconnect.
Hypothesis I_connect :
  forall ok, (ok = true -> may_connect = true) -> preserving I (connect ok).
Hypothesis I_subscribe : forall io, preserving I (subscribe io).
Hypothesis I_unsubscribe : forall io, preserving I (unsubscribe io).
Hypothesis I_setter :
  forall val alive ok io,
    (ok = true -> may_connect = true) ->
    preserving I (running_setter val alive ok io).

Lemma pres_lost_connect : preserving I _lost_connect.
Proof using I_disconnect. unfold _lost_connect. pres. Qed.

Lemma pres_watch_turn : preserving I watch_turn.
Proof using I_buffer I_length I_lasthb I_hbwait I_update I_disconnect.
  pose proof (pres_heartbeat_expired I).
  pose proof pres_lost_connect.
  pose proof (pres_read_one I I_buffer I_length).
  pose proof (pres_route_message I I_lasthb I_hbwait I_update).
  unfold watch_turn. pres.
Qed.

Lemma pres_watch_loop fuel :
  forall c r c', I (self c) -> watch_loop fuel c = Some (r, c') -> I (self c').
Proof using I_buffer I_length I_lasthb I_hbwait I_update I_disconnect.
  induction fuel as [|fuel IH]; intros c r c' H E; simpl in E; [discriminate|].
  pose proof (pres_watch_turn c H) as Ht.
  destruct (watch_turn c) as [[[|]|e] c1]; simpl in Ht.
  - eapply IH; eauto.
  - injection E as <- <-. exact Ht.
  - injection E as <- <-. exact Ht.
Qed.

Lemma pres_watch fuel c r c' :
  I (self c) -> watch fuel c = Some (r, c') -> I (self c').
Proof using I_buffer I_length I_lasthb I_hbwait I_update I_disconnect.
  intros H E. unfold watch in E.
  destruct (negb (_subscribed (self c))).
  - injection E as <- <-. exact H.
  - simpl in E. eapply pres_watch_loop; [|exact E]. simpl.
    apply I_length, I_buffer, H.
Qed.

Lemma pres_run k c c' :
  (connects_nothing k = false -> may_connect = true) ->
  I (self c) -> run k c = Some c' -> I (self c').
Proof using All.
  intros Hk H E. destruct k; simpl in *;
    try (injection E as <-).
  - apply I_connect; auto. intros ->. apply Hk. reflexivity.
  - apply I_disconnect; auto.
  - apply I_subscribe; auto.
  - apply I_unsubscribe; auto.
  - apply I_setter; auto. intros ->. apply Hk. reflexivity.
  - destruct (watch fuel c) as [[r c1]|] eqn:W; [|discriminate].
    simpl in E. injection E as <-. eapply pres_watch; eauto.
  - apply pres_write; auto.
  - apply pres_route_message; auto.
  - apply I_update; auto.
  - apply pres_lost_connect; auto.
  - apply pres_read_one; auto.
  - exact H.
Qed.

End Sessions.

(** Properties that no flag and no thread touches. *)
Section Attributes.
Context `{P : Platform}.
Variable I : EventStream -> Prop.
Variable may_connect : bool.
Hypothesis I_running : forall v o, I o -> I (set_running v o).
Hypothesis I_subscribed : forall v o, I o -> I (set_subscribed v o).
Hypothesis I_connected : forall v o, I o -> I (set_connected v o).
Hypothesis I_thread : forall v o, I o -> I (set_thread v o).
Hypothesis I_writer :
  may_connect = true -> forall v o, I o -> I (set_writer v o).

Lemma attr_disconnect : preserving I disconnect.
Proof using I_running I_subscribed I_connected. unfold disconnect. pres. Qed.

Lemma attr_connect ok :
  (ok = true -> may_connect = true) -> preserving I (connect ok).
Proof using I_connected I_writer.
  intros Hok. unfold connect. pres.
Qed.

Lemma attr_subscribe io : preserving I (subscribe io).
Proof using I_subscribed.
  pose proof (pres_create_message I). pose proof (pres_write I).
  unfold subscribe. pres.
Qed.

Lemma attr_unsubscribe io : preserving I (unsubscribe io).
Proof using I_running I_subscribed I_connected.
  pose proof (pres_create_message I). pose proof (pres_write I).
  pose proof attr_disconnect.
  unfold unsubscribe. pres.
Qed.

Lemma attr_setter val alive ok io :
  (ok = true -> may_connect = true) ->
  preserving I (running_setter val alive ok io).
Proof using All.
  intros Hok.
  pose proof (attr_connect ok Hok). pose proof attr_subscribe.
  pose proof attr_unsubscribe. pose proof attr_disconnect.
  unfold running_setter, running. pres.
Qed.

End Attributes.

(** ** The session: the claims *)

Section SessionClaims.
Context `{P : Platform}.

Lemma writer_run k c c' :
  connects_nothing k = true ->
  _writer (self c) = None -> run k c = Some c' -> _writer (self c') = None.
Proof.
  intros Hk.
  set (I := fun o : EventStream => _writer o = None).
  assert (Hw : false = true -> forall v o, I o -> I (set_writer v o))
    by discriminate.
  assert (Hu : forall x, preserving I (update_received x))
    by (intros x; unfold update_received; pres).
  apply (pres_run I false); subst I; simpl; auto.
  - apply attr_disconnect; auto.
  - intros ok. apply attr_connect; auto.
  - intros io. apply attr_subscribe; auto.
  - intros io. apply attr_unsubscribe; auto.
  - intros val alive ok io. apply attr_setter; auto.
  - rewrite Hk. discriminate.
Qed.

Lemma never_connected_writer c : never_connected c -> _writer (self c) = None.
Proof.
  induction 1 as [info on_lost w|k c c' _ IH Hk E]; [reflexivity|].
  exact (writer_run k c c' Hk IH E).
Qed.

(** C10.  On a session on which [connect] has never succeeded, [write]
    raises [NotImplementedError]; the object and the world, the trace of
    what was sent included, are as they were. *)
Theorem write_before_connect (c : Cfg) (io_ok : bool) (msg : string) :
  never_connected c ->
  write io_ok msg c = (Raise NotImplementedError, c).
Proof.
  intros H. apply never_connected_writer in H.
  unfold write, bind, get_self. rewrite H. reflexivity.
Qed.

Lemma create_message_run msg c : exists o, _create_message msg c = (o, c).
Proof.
  unfold _create_message, bind, get_self, lift, raise, ret.
  destruct (str_format (body msg) (data (self c))) as [b|e]; [|eauto].
  destruct (data (self c) !! "length"%string); [eauto|].
  destruct (str_format (head msg) _) as [h|e]; eauto.
Qed.

Lemma sid_known_lookup c :
  sid_known c = true <-> is_Some (data (self c) !! ATTR_STREAM_ID).
Proof. unfold sid_known. apply bool_decide_eq_true. Qed.

Lemma sid_known_update x c : sid_known (snd (update_received x c)) = true.
Proof.
  apply sid_known_lookup. simpl.
  rewrite lookup_insert_eq. eauto.
Qed.

Lemma sid_known_run k c c' :
  sid_known c = true -> run k c = Some c' -> sid_known c' = true.
Proof.
  rewrite !sid_known_lookup.
  set (I := fun o : EventStream => is_Some (data o !! ATTR_STREAM_ID)).
  assert (Hu : forall x, preserving I (update_received x)).
  { intros x c0 _. apply sid_known_lookup, sid_known_update. }
  apply (pres_run I true); subst I; simpl; auto.
  - apply attr_disconnect; auto.
  - intros ok _. apply (attr_connect _ true); auto.
  - intros io. apply attr_subscribe; auto.
  - intros io. apply attr_unsubscribe; auto.
  - intros val alive ok io _. apply (attr_setter _ true); auto.
Qed.

Lemma sid_known_run_all ks :
  forall c c', sid_known c = true -> run_all ks c = Some c' ->
               sid_known c' = true.
Proof.
  induction ks as [|k ks IH]; intros c c' H E; simpl in E.
  - injection E as <-. exact H.
  - destruct (run k c) as [c1|] eqn:R; [|discriminate].
    apply (IH c1); [|exact E]. exact (sid_known_run k c c1 H R).
Qed.

(** What [subscribe] does on a session that is connected and not
    subscribed, when the message can be built and written. *)
Lemma subscribe_sends c payload :
  _subscribed (self c) = false -> _connected (self c) = true ->
  _writer (self c) <> None ->
  fst (_create_message (if sid_known c then RESUB_MSG else SUB_MSG) c)
  = Ret payload ->
  subscribe true c = (Ret tt, subscribed_with payload c).
Proof.
  intros Hs Hc Hw Hm.
  unfold subscribe, bind at 1, get_self. rewrite Hs, Hc. simpl.
  assert (Hk : sid_known c
               = match data (self c) !! ATTR_STREAM_ID with
                 | Some _ => true | None => false end).
  { unfold sid_known. destruct (data (self c) !! ATTR_STREAM_ID); reflexivity. }
  rewrite Hk in Hm.
  destruct (data (self c) !! ATTR_STREAM_ID);
    match type of Hm with
    | fst (_create_message ?m c) = _ =>
        destruct (create_message_run m c) as [o Ho]
    end;
    rewrite Ho in Hm; simpl in Hm; subst o;
    unfold bind; rewrite Ho;
    unfold write, bind, get_self;
    destruct (_writer (self c)); try contradiction; reflexivity.
Qed.

(** C9.  While no stream id is known, [subscribe] writes the message built
    from [SUB_MSG].  Once [update_received] has stored a stream id, whatever
    calls follow, [subscribe] writes the message built from [RESUB_MSG]. *)
Theorem subscribe_template :
  (forall c payload,
      sid_known c = false ->
      _subscribed (self c) = false -> _connected (self c) = true ->
      _writer (self c) <> None ->
      fst (_create_message SUB_MSG c) = Ret payload ->
      subscribe true c = (Ret tt, subscribed_with payload c))
  /\ (forall c x ks c' payload,
      run_all ks (snd (update_received x c)) = Some c' ->
      _subscribed (self c') = false -> _connected (self c') = true ->
      _writer (self c') <> None ->
      fst (_create_message RESUB_MSG c') = Ret payload ->
      subscribe true c' = (Ret tt, subscribed_with payload c')).
Proof.
  split.
  - intros c payload Hk Hs Hc Hw Hm.
    apply subscribe_sends; auto. rewrite Hk. exact Hm.
  - intros c x ks c' payload Hr Hs Hc Hw Hm.
    pose proof (sid_known_run_all ks _ _ (sid_known_update x c) Hr) as Hk.
    apply subscribe_sends; auto. rewrite Hk. exact Hm.
Qed.

Ltac open_session c :=
  let w := fresh "w" in
  destruct c as [[[] ? ? [] [] ? ? ? ? ? ?] w];
  unfold session_inv; simpl; try discriminate; intros _.

Ltac step_session :=
  match goal with
  | |- context [_create_message ?m ?c] =>
      let o := fresh "o" in
      let H := fresh "H" in
      destruct (create_message_run m c) as [o H]; rewrite H; clear H;
      destruct o
  | |- context [match ?x with _ => _ end] => is_var x; destruct x
  | |- context [match ?m !! ?k with _ => _ end] => destruct (m !! k)
  | |- context [bool_decide ?Q] => destruct (bool_decide Q)
  end.

Ltac close_session :=
  unfold bind, get_self, modify, emit, ret, raise, lift;
  repeat (simpl; try reflexivity; step_session).

Lemma inv_connect ok :
  preserving (fun o => session_inv o = true) (connect ok).
Proof.
  intros c. destruct ok; open_session c; unfold connect; close_session.
Qed.

Lemma inv_disconnect : preserving (fun o => session_inv o = true) disconnect.
Proof.
  intros c. open_session c; unfold disconnect; close_session.
Qed.

Lemma inv_subscribe io :
  preserving (fun o => session_inv o = true) (subscribe io).
Proof.
  intros c. destruct io; open_session c;
    unfold subscribe, write; close_session.
Qed.

Lemma inv_unsubscribe io :
  preserving (fun o => session_inv o = true) (unsubscribe io).
Proof.
  intros c. destruct io; open_session c;
    unfold unsubscribe, disconnect, write; close_session.
Qed.

Lemma inv_setter val alive ok io :
  preserving (fun o => session_inv o = true)
    (running_setter val alive ok io).
Proof.
  intros c. destruct val, alive, ok, io; open_session c;
    unfold running_setter, running, connect, subscribe, unsubscribe,
      disconnect, write;
    close_session.
Qed.

Lemma inv_run k c c' :
  session_inv (self c) = true -> run k c = Some c' ->
  session_inv (self c') = true.
Proof.
  set (I := fun o : EventStream => session_inv o = true).
  assert (Hu : forall x, preserving I (update_received x))
    by (intros x; unfold update_received; pres).
  apply (pres_run I true); subst I; simpl; auto.
  - apply inv_disconnect.
  - intros ok _. apply inv_connect.
  - apply inv_subscribe.
  - apply inv_unsubscribe.
  - intros val alive ok io _. apply inv_setter.
Qed.

(** C7.  Whatever the call, and whether it returns or raises, a session
    where running implies subscribed and subscribed implies connected is
    left in such a state; and when the call is [disconnect], the session is
    left neither subscribed nor running. *)
Theorem session_invariant (k : call) (c c' : Cfg) :
  session_inv (self c) = true ->
  run k c = Some c' ->
  session_inv (self c') = true
  /\ (k = Disconnect ->
      _subscribed (self c') = false /\ _running (self c') = false).
Proof.
  intros H E. split; [exact (inv_run k c c' H E)|].
  intros ->. simpl in E. injection E as <-.
  revert H. open_session c; unfold disconnect; close_session; auto.
Qed.

(** ** The heartbeat and the router: the claims *)

(** A message that parses is directed, the stream id having been captured
    if need be; the capture leaves the world as it is. *)
Lemma route_parsed msg x c :
  parseString msg = Some x ->
  exists c1, world c1 = world c /\ _route_message msg c = direct msg x c1.
Proof.
  intros Hp. unfold _route_message. rewrite Hp.
  unfold bind at 1, get_self. unfold bind at 1.
  destruct (_ && _).
  - exists (snd (update_received x c)). split; reflexivity.
  - exists c. split; reflexivity.
Qed.

(** C5, as amended.  A heartbeat message, control code [_0], records the
    time of its arrival and the wait interval it carries.  With a heartbeat
    recorded at [t0] and a wait interval [w], a query made [d] microseconds
    later, less than one day later, finds the connection alive exactly when
    the whole seconds elapsed are at most [w].  Before any heartbeat is
    recorded the connection counts as alive, the wait interval being 0 or
    more. *)
Theorem heartbeat_liveness :
  (forall msg x action w c,
      parseString msg = Some x ->
      value_from_xml x ATTR_CONTROL = Some "_0"%string ->
      value_from_xml x ATTR_ACTION = Some action ->
      int_str action = Some w ->
      fst (_route_message msg c) = Ret tt
      /\ _lasthb (self (snd (_route_message msg c)))
         = Some (clock (world c) (ticks (world c)))
      /\ _hbwait (self (snd (_route_message msg c))) = w)
  /\ (forall c t0 w d,
      _lasthb (self c) = Some t0 ->
      _hbwait (self c) = w ->
      clock (world c) (ticks (world c)) = t0 + d ->
      0 <= d < 86400000000 ->
      fst (heartbeat_expired c) = Ret (negb (d / 1000000 <=? w)))
  /\ (forall c,
      _lasthb (self c) = None ->
      0 <= _hbwait (self c) ->
      fst (heartbeat_expired c) = Ret false).
Proof.
  split; [|split].
  - intros msg x action w c Hp Hc Ha Hi.
    destruct (route_parsed msg x c Hp) as (c0 & Hw0 & ->).
    assert (D : forall c1,
               world c1 = world c ->
               fst (direct msg x c1) = Ret tt
               /\ _lasthb (self (snd (direct msg x c1)))
                  = Some (clock (world c) (ticks (world c)))
               /\ _hbwait (self (snd (direct msg x c1))) = w).
    { intros c1 Hw. unfold direct. rewrite Hc.
      change (String.eqb "_0" EmptyString) with false.
      change (String.eqb "_0" "_0") with true. cbv iota.
      unfold bind, datetime_now, modify, int_of. rewrite Ha, Hi.
      simpl. rewrite Hw. auto. }
    apply D. exact Hw0.
  - intros c t0 w d Hl Hw Hc Hd.
    unfold heartbeat_expired, heartbeat_time, bind, get_self, datetime_now.
    rewrite Hl. simpl. rewrite Hc, Hw. unfold ret. simpl.
    unfold timedelta_seconds.
    replace (t0 + d - t0) with d by lia.
    rewrite Z.mod_small by lia.
    rewrite Z.gtb_ltb, Z.ltb_antisym. reflexivity.
  - intros c Hl Hw.
    unfold heartbeat_expired, heartbeat_time, bind, get_self.
    rewrite Hl. unfold ret. simpl.
    rewrite Z.gtb_ltb. f_equal. apply Z.ltb_ge. exact Hw.
Qed.

(** C6.  A message that parses and whose control code is [_1] is routed by
    what its text contains, in this order: the variable tag, and the
    variables are told and nobody else; else the id tag, and the programs
    are told; else the node tag together with a bracket, and nobody is
    told; else the programs are asked to refresh. *)
Theorem trigger_routing (msg : string) (x : xmldoc) (c : Cfg) :
  parseString msg = Some x ->
  value_from_xml x ATTR_CONTROL = Some "_1"%string ->
  PROP_STATUS <> "_1"%string ->
  exists c',
    _route_message msg c = (Ret tt, c')
    /\ trace (world c')
       = trace (world c)
         ++ (if str_contains ("<" +:+ ATTR_VAR) msg
             then [VariablesUpdateReceived x]
             else if str_contains ("<" +:+ ATTR_ID +:+ ">") msg
             then [ProgramsUpdateReceived x]
             else if str_contains ("<" +:+ TAG_NODE +:+ ">") msg
                     && str_contains "[" msg
             then []
             else [ProgramsUpdate]).
Proof.
  intros Hp Hc Hs.
  assert (Route : forall c1,
             world c1 = world c ->
             exists c',
               direct msg x c1 = (Ret tt, c')
               /\ trace (world c')
                  = trace (world c)
                    ++ (if str_contains ("<" +:+ ATTR_VAR) msg
                        then [VariablesUpdateReceived x]
                        else if str_contains ("<" +:+ ATTR_ID +:+ ">") msg
                        then [ProgramsUpdateReceived x]
                        else if str_contains ("<" +:+ TAG_NODE +:+ ">") msg
                                && str_contains "[" msg
                        then []
                        else [ProgramsUpdate])).
  { intros c1 Hw. unfold direct. rewrite Hc.
    change (String.eqb "_1" EmptyString) with false.
    change (String.eqb "_1" "_0") with false.
    replace (String.eqb "_1" PROP_STATUS) with false
      by (symmetry; apply String.eqb_neq; congruence).
    change (first_is_not_underscore "_1") with false.
    change (String.eqb "_1" "_1") with true.
    cbv iota.
    destruct (str_contains ("<" +:+ ATTR_VAR) msg);
      [eexists; split; [reflexivity|simpl; rewrite Hw; reflexivity]|].
    destruct (str_contains ("<" +:+ ATTR_ID +:+ ">") msg);
      [eexists; split; [reflexivity|simpl; rewrite Hw; reflexivity]|].
    destruct (str_contains ("<" +:+ TAG_NODE +:+ ">") msg
              && str_contains "[" msg);
      eexists;
      (split; [reflexivity
              |simpl; rewrite Hw; try rewrite app_nil_r; reflexivity]). }
  unfold _route_message. rewrite Hp. unfold bind at 1, get_self.
  unfold bind at 1.
  destruct (str_contains (ATTR_STREAM_ID +:+ "=") msg
            && negb (bool_decide (is_Some (data (self c) !! ATTR_STREAM_ID)))).
  - apply Route. reflexivity.
  - apply Route. reflexivity.
Qed.

(** ** The read loop: the claims *)

Lemma scan_headers_no_length lines c :
  existsb names_content_length lines = false ->
  scan_headers lines c = (Ret tt, c)
  \/ scan_headers lines c = (Raise ValueError, c).
Proof.
  induction lines as [|line rest IH]; intros H; simpl in *; [left; reflexivity|].
  apply orb_false_iff in H as [Hl Hr].
  unfold names_content_length in Hl.
  destruct (split_once ":" line) as [|a [|b [|? ?]]];
    try (right; reflexivity).
  rewrite Hl. simpl. apply IH. exact Hr.
Qed.

Lemma existsb_tl {A} (f : A -> bool) l :
  existsb f l = false -> existsb f (tl l) = false.
Proof.
  destruct l; simpl; [auto|]. intros H.
  apply orb_false_iff in H as [_ H]. exact H.
Qed.

(** The separator found, no content-length header before it: the header
    block is taken out of the buffer and [ValueError] is raised. *)
Lemma parse_headers_no_length pos c :
  falsy (_event_content_length (self c)) = true ->
  has_content_length (slice (_event_buffer (self c)) 0 pos) = false ->
  _parse_headers pos c
  = (Raise ValueError,
     with_frame
       (slice_from (_event_buffer (self c))
          (pos + HTTP_HEADER_BODY_SEPERATOR_LEN))
       (_event_content_length (self c)) c).
Proof.
  intros Hf Hn. unfold has_content_length in Hn. apply existsb_tl in Hn.
  unfold _parse_headers, bind at 1, get_self.
  unfold bind at 1, modify.
  set (c1 := {| self := _; world := _ |}).
  assert (Hc1 : c1 = with_frame
                       (slice_from (_event_buffer (self c))
                          (pos + HTTP_HEADER_BODY_SEPERATOR_LEN))
                       (_event_content_length (self c)) c).
  { subst c1. destruct c as [[] ?]. reflexivity. }
  unfold bind at 1.
  destruct (scan_headers_no_length _ c1 Hn) as [-> | ->].
  - unfold bind, get_self. rewrite Hc1. simpl. rewrite Hf. reflexivity.
  - rewrite Hc1. reflexivity.
Qed.

(** What [_lost_connect] does. *)
Lemma lost_connect_run c :
  exists c',
    _lost_connect c = (Ret tt, c')
    /\ _connected (self c') = false
    /\ (_connected (self c) = true ->
        _subscribed (self c') = false /\ _running (self c') = false)
    /\ trace (world c')
       = trace (world c)
         ++ (if _connected (self c) then [SocketClose] else [])
         ++ [LogWarning LostConnection]
         ++ (if _on_lost_function (self c) then [OnLost] else []).
Proof.
  destruct c as [[r wr t s [] l h [] d b n] w];
    eexists; (split; [reflexivity|]); simpl;
    rewrite <- ?app_assoc; simpl;
    (split; [reflexivity|]); (split; [|reflexivity]);
    intros; try discriminate; auto.
Qed.

(** C4.  A turn of the loop of [watch] in which the heartbeat has not
    expired, the socket is read, the separator is then in the buffer with no
    content length known, and the header block before it has no
    content-length header: [_parse_headers] raises [ValueError]; the turn
    catches it, logs it, disconnects, calls the callback for lost
    connections when there is one, and [watch] returns without raising. *)
Theorem missing_length_is_connection_lost
    (c0 c1 cd : Cfg) (chunks : list bytes) (fin : drain_end)
    (rest : list round) :
  heartbeat_expired c0 = (Ret false, c1) ->
  wire (world c1) = Ready chunks fin :: rest ->
  drain chunks fin (set_wire rest c1) = (Ret true, cd) ->
  falsy (_event_content_length (self cd)) = true ->
  bytes_find (_event_buffer (self cd)) HTTP_HEADER_BODY_SEPERATOR <> -1 ->
  has_content_length
    (slice (_event_buffer (self cd)) 0
       (bytes_find (_event_buffer (self cd)) HTTP_HEADER_BODY_SEPERATOR))
  = false ->
  exists ce c',
    _parse_headers
      (bytes_find (_event_buffer (self cd)) HTTP_HEADER_BODY_SEPERATOR) cd
    = (Raise ValueError, ce)
    /\ watch_turn c0 = (Ret false, c')
    /\ (forall fuel, watch_loop (S fuel) c0 = Some (Ret tt, c'))
    /\ _connected (self c') = false
    /\ (_connected (self ce) = true ->
        _subscribed (self c') = false /\ _running (self c') = false)
    /\ trace (world c')
       = trace (world ce)
         ++ [LogWarning (ReadError ValueError)]
         ++ (if _connected (self ce) then [SocketClose] else [])
         ++ [LogWarning LostConnection]
         ++ (if _on_lost_function (self ce) then [OnLost] else []).
Proof.
  intros Hhb Hwire Hdrain Hf Hfind Hno.
  pose proof (parse_headers_no_length _ cd Hf Hno) as Hparse.
  set (ce := with_frame _ _ cd) in Hparse.
  set (cl := snd (emit (LogWarning (ReadError ValueError)) ce)).
  destruct (lost_connect_run cl) as (c' & Hlost & Hconn & Hflags & Htrace).
  exists ce, c'.
  assert (Hread : _read_one_response_or_timeout c1 = (Raise ValueError, ce)).
  { unfold _read_one_response_or_timeout. rewrite Hwire.
    cbn [read_loop]. unfold turn_of, bind at 1. rewrite Hdrain.
    unfold bind at 1, read_headers, bind at 1, get_self. rewrite Hf.
    apply Z.eqb_neq in Hfind. rewrite Hfind.
    unfold bind at 1. rewrite Hparse. reflexivity. }
  assert (Hturn : watch_turn c0 = (Ret false, c')).
  { unfold watch_turn, bind at 1. rewrite Hhb.
    unfold bind at 1, try_except, bind at 1. rewrite Hread.
    subst cl. revert Hlost.
    cbv beta iota delta [bind emit snd]. intros ->. reflexivity. }
  split; [exact Hparse|]. split; [exact Hturn|].
  split; [intros fuel; simpl; rewrite Hturn; reflexivity|].
  split; [exact Hconn|]. split; [exact Hflags|].
  rewrite Htrace. subst cl. simpl. rewrite <- app_assoc. reflexivity.
Qed.


End SessionClaims.

Section SessionExamples.
Local Existing Instance Sample.platform.
Import Sample.

Lemma write_before_connect_witness :
  never_connected failed_start
  /\ write true "<x/>" failed_start = (Raise NotImplementedError, failed_start).
Proof.
  assert (H : never_connected failed_start).
  { apply (nc_call (SetRunning true false false true) new_session).
    - apply nc_init.
    - reflexivity.
    - reflexivity. }
  split; [exact H|].
  apply (write_before_connect failed_start true "<x/>" H).
Defined.

Lemma subscribe_template_witness :
  (sid_known connected_session = false
   /\ subscribe true connected_session
      = (Ret tt,
         subscribed_with
           "POST /services 192.168.1.10:80 Content-Length: 52 <Subscribe><duration>infinite</duration></Subscribe>"
           connected_session))
  /\ (run_all [Connect true]
        (snd (update_received (Document event_with_sid) new_session))
      = Some (snd (connect true
                     (snd (update_received (Document event_with_sid)
                             new_session))))
      /\ subscribe true
           (snd (connect true
                   (snd (update_received (Document event_with_sid)
                           new_session))))
         = (Ret tt,
            subscribed_with
              "POST /services 192.168.1.10:80 Content-Length: 41 <Subscribe><SID>uuid:12</SID></Subscribe>"
              (snd (connect true
                      (snd (update_received (Document event_with_sid)
                              new_session)))))).
Proof.
  split.
  - split; [reflexivity|].
    apply (proj1 subscribe_template connected_session);
      try reflexivity; unfold not; intros H; vm_compute in H; discriminate H.
  - split; [reflexivity|].
    apply (proj2 subscribe_template new_session (Document event_with_sid)
             [Connect true]);
      try reflexivity; unfold not; intros H; vm_compute in H; discriminate H.
Defined.

Lemma session_invariant_witness :
  session_inv (self started_session) = true
  /\ run Disconnect started_session = Some (snd (disconnect started_session))
  /\ session_inv (self (snd (disconnect started_session))) = true
  /\ (Disconnect = Disconnect ->
      _subscribed (self (snd (disconnect started_session))) = false
      /\ _running (self (snd (disconnect started_session))) = false).
Proof.
  split; [reflexivity|]. split; [reflexivity|].
  apply (session_invariant Disconnect started_session); reflexivity.
Defined.

Lemma heartbeat_liveness_witness :
  (parseString heartbeat_event = Some (Document heartbeat_event)
   /\ _lasthb (self (snd (_route_message heartbeat_event started_session)))
      = Some 0
   /\ _hbwait (self (snd (_route_message heartbeat_event started_session)))
      = 30)
  /\ fst (heartbeat_expired (heartbeat_session 1000 30 (1000 + 29000000)))
     = Ret false
  /\ fst (heartbeat_expired (heartbeat_session 1000 30 (1000 + 31000000)))
     = Ret true
  /\ fst (heartbeat_expired new_session) = Ret false.
Proof.
  destruct heartbeat_liveness as (Hrecord & Hquery & Hnone).
  split; [|split; [|split]].
  - split; [reflexivity|].
    apply (Hrecord heartbeat_event (Document heartbeat_event) "30"%string 30
             started_session); reflexivity.
  - apply (Hquery (heartbeat_session 1000 30 (1000 + 29000000))
             1000 30 29000000);
      try reflexivity; lia.
  - apply (Hquery (heartbeat_session 1000 30 (1000 + 31000000))
             1000 30 31000000);
      try reflexivity; lia.
  - apply (Hnone new_session); [reflexivity|]. simpl. lia.
Defined.

(** C5, as stated, fails.  Thirty seconds and a half after the heartbeat,
    and one day and five seconds after it, the wait interval being 30, more
    than the interval has elapsed and the connection is judged alive. *)
Lemma heartbeat_liveness_counterexample :
  fst (heartbeat_expired (heartbeat_session 0 30 30500000)) = Ret false
  /\ 30 * 1000000 < 30500000 - 0
  /\ fst (heartbeat_expired (heartbeat_session 0 30 86405000000)) = Ret false
  /\ 30 * 1000000 < 86405000000 - 0.
Proof. repeat split; reflexivity. Qed.

Lemma trigger_routing_witness :
  parseString event_with_sid = Some (Document event_with_sid)
  /\ value_from_xml (Document event_with_sid) ATTR_CONTROL = Some "_1"%string
  /\ PROP_STATUS <> "_1"%string
  /\ exists c',
      _route_message event_with_sid started_session = (Ret tt, c')
      /\ trace (world c')
         = trace (world started_session)
           ++ [VariablesUpdateReceived (Document event_with_sid)].
Proof.
  split; [reflexivity|]. split; [reflexivity|].
  split; [discriminate|].
  destruct (trigger_routing event_with_sid (Document event_with_sid)
              started_session) as (c' & Hroute & Htrace);
    [reflexivity|reflexivity|discriminate|].
  exists c'. split; [exact Hroute|]. rewrite Htrace. reflexivity.
Defined.

Lemma missing_length_is_connection_lost_witness :
  let c0 := set_wire [Ready [headers_without_length] RecvEmpty]
              started_session in
  let c1 := snd (heartbeat_expired c0) in
  let cd := snd (drain [headers_without_length] RecvEmpty (set_wire [] c1)) in
  heartbeat_expired c0 = (Ret false, c1)
  /\ wire (world c1) = [Ready [headers_without_length] RecvEmpty]
  /\ drain [headers_without_length] RecvEmpty (set_wire [] c1) = (Ret true, cd)
  /\ falsy (_event_content_length (self cd)) = true
  /\ bytes_find (_event_buffer (self cd)) HTTP_HEADER_BODY_SEPERATOR <> -1
  /\ has_content_length
       (slice (_event_buffer (self cd)) 0
          (bytes_find (_event_buffer (self cd)) HTTP_HEADER_BODY_SEPERATOR))
     = false
  /\ exists c',
      watch_turn c0 = (Ret false, c')
      /\ watch_loop 1 c0 = Some (Ret tt, c')
      /\ _connected (self c') = false
      /\ _subscribed (self c') = false
      /\ _running (self c') = false
      /\ trace (world c')
         = trace (world started_session)
           ++ [LogWarning (ReadError ValueError); SocketClose;
               LogWarning LostConnection; OnLost].
Proof.
  intros c0 c1 cd.
  assert (H1 : heartbeat_expired c0 = (Ret false, c1))
    by (vm_compute; reflexivity).
  assert (H2 : wire (world c1) = [Ready [headers_without_length] RecvEmpty])
    by (vm_compute; reflexivity).
  assert (H3 : drain [headers_without_length] RecvEmpty (set_wire [] c1)
               = (Ret true, cd))
    by (vm_compute; reflexivity).
  assert (H4 : falsy (_event_content_length (self cd)) = true)
    by (vm_compute; reflexivity).
  assert (H5 : bytes_find (_event_buffer (self cd)) HTTP_HEADER_BODY_SEPERATOR
               <> -1)
    by (vm_compute; discriminate).
  assert (H6 : has_content_length
                 (slice (_event_buffer (self cd)) 0
                    (bytes_find (_event_buffer (self cd))
                       HTTP_HEADER_BODY_SEPERATOR))
               = false)
    by (vm_compute; reflexivity).
  repeat (split; [assumption|]).
  destruct (missing_length_is_connection_lost c0 c1 cd
              [headers_without_length] RecvEmpty [] H1 H2 H3 H4 H5 H6)
    as (ce & c' & Hparse & Hturn & Hloop & Hconn & Hflags & Htrace).
  assert (Hp : _parse_headers
                 (bytes_find (_event_buffer (self cd))
                    HTTP_HEADER_BODY_SEPERATOR) cd
               = (Raise ValueError, with_frame [] None cd))
    by (vm_compute; reflexivity).
  rewrite Hp in Hparse. injection Hparse as <-.
  assert (Hc : _connected (self (with_frame [] None cd)) = true)
    by (vm_compute; reflexivity).
  exists c'.
  split; [exact Hturn|]. split; [exact (Hloop 0%nat)|].
  split; [exact Hconn|].
  split; [exact (proj1 (Hflags Hc))|].
  split; [exact (proj2 (Hflags Hc))|].
  rewrite Htrace. vm_compute. reflexivity.
Defined.


End SessionExamples.

(** ** The frame assembler on any input *)

Section FrameExtras.
Context `{P : Platform}.

Lemma with_frame_twice b1 l1 b2 l2 c :
  with_frame b2 l2 (with_frame b1 l1 c) = with_frame b2 l2 c.
Proof. reflexivity. Qed.

Lemma drain_run chunks fin :
  forall c, exists o,
    drain chunks fin c
    = (o, with_frame (_event_buffer (self c) ++ recv_bytes chunks)
            (_event_content_length (self c)) c).
Proof.
  induction chunks as [|x rest IH]; intros c; simpl.
  - rewrite app_nil_r, with_frame_id. destruct fin; eexists; reflexivity.
  - destruct (len x =? 0).
    + rewrite app_nil_r, with_frame_id. eexists; reflexivity.
    + unfold bind, get_self, modify.
      destruct (IH {| self := set_event_buffer (_event_buffer (self c) ++ x)
                                (self c);
                      world := world c |}) as [o ->].
      exists o. simpl. rewrite <- app_assoc. reflexivity.
Qed.

Lemma slice_from_tail {A} (l : list A) n : exists pre, l = pre ++ slice_from l n.
Proof.
  unfold slice_from. eexists. symmetry. apply firstn_skipn.
Qed.

Lemma scan_headers_buffer lines c :
  _event_buffer (self (snd (scan_headers lines c))) = _event_buffer (self c).
Proof.
  apply (pres_scan_headers (fun o => _event_buffer o = _event_buffer (self c)));
    auto.
Qed.

Lemma parse_headers_buffer pos c :
  _event_buffer (self (snd (_parse_headers pos c)))
  = slice_from (_event_buffer (self c)) (pos + HTTP_HEADER_BODY_SEPERATOR_LEN).
Proof.
  unfold _parse_headers, bind at 1, get_self. unfold bind at 1, modify.
  set (X := slice_from _ _).
  set (c1 := {| self := _; world := _ |}).
  set (I := fun o : EventStream => _event_buffer o = X).
  assert (HI : forall v o, I o -> I (set_event_content_length v o)) by auto.
  pose proof (pres_scan_headers I HI) as Hs.
  assert (Hp : preserving I
                 (bind (scan_headers
                          (tl (bytes_split
                                 (slice (_event_buffer (self c)) 0 pos)
                                 HTTP_HEADER_SEPERATOR)))
                    (fun _ =>
                       bind get_self
                         (fun o' =>
                            if falsy (_event_content_length o')
                            then raise ValueError else ret tt)))).
  { pres. }
  apply (Hp c1). reflexivity.
Qed.

Lemma read_headers_tail c :
  exists taken,
    _event_buffer (self c)
    = taken ++ _event_buffer (self (snd (read_headers c))).
Proof.
  unfold read_headers, bind at 1, get_self.
  destruct (falsy _); [|exists []; reflexivity].
  destruct (_ =? -1); [exists []; reflexivity|].
  unfold bind.
  pose proof (parse_headers_buffer
                (bytes_find (_event_buffer (self c)) HTTP_HEADER_BODY_SEPERATOR)
                c) as Hb.
  destruct (_parse_headers _ c) as [[[]|e] c1]; simpl in *;
    rewrite Hb; apply slice_from_tail.
Qed.

Lemma take_body_tail c :
  exists taken,
    _event_buffer (self c) = taken ++ _event_buffer (self (snd (take_body c))).
Proof.
  unfold take_body, bind at 1, get_self.
  destruct (_event_content_length (self c)) as [n|]; [|exists []; reflexivity].
  destruct (_ <? _); [exists []; reflexivity|].
  unfold bind, modify. simpl.
  destruct (utf8_valid _); simpl; apply slice_from_tail.
Qed.

(** X1.  Whatever a round of the socket brings and whatever the state of
    the assembler, the buffer after the turn is a tail of the buffer before
    it followed by the bytes received: a turn takes bytes from the front
    only, and neither reorders nor makes up bytes, also when it raises. *)
Theorem buffer_is_a_tail (r : round) (c : Cfg) :
  exists taken,
    _event_buffer (self c) ++ received r
    = taken ++ _event_buffer (self (snd (turn_of r c))).
Proof.
  destruct r as [| |chunks fin]; simpl;
    try (exists []; rewrite app_nil_r; reflexivity).
  unfold bind at 1.
  destruct (drain_run chunks fin c) as [o ->].
  set (c1 := with_frame _ _ c).
  change (_event_buffer (self c) ++ recv_bytes chunks)
    with (_event_buffer (self c1)).
  destruct o as [[|]|e]; try (exists []; reflexivity).
  unfold bind.
  destruct (read_headers_tail c1) as [t1 H1].
  destruct (read_headers c1) as [[[|]|e] c2]; simpl in H1;
    try (exists t1; exact H1).
  destruct (take_body_tail c2) as [t2 H2].
  exists (t1 ++ t2). rewrite <- app_assoc, <- H2. exact H1.
Qed.

Lemma slice_firstn {A} (l : list A) n :
  0 <= n <= len l -> slice l 0 n = firstn (Z.to_nat n) l.
Proof.
  intros H. unfold slice, clamp_index.
  destruct (n <? 0) eqn:E; [apply Z.ltb_lt in E; lia|].
  change (0 <? 0) with false. cbv iota.
  rewrite Z.min_l by lia. rewrite Z.min_l by lia.
  rewrite Z.sub_0_r. reflexivity.
Qed.

Lemma slice_from_skipn {A} (l : list A) n :
  0 <= n <= len l -> slice_from l n = skipn (Z.to_nat n) l.
Proof.
  intros H. unfold slice_from, clamp_index.
  destruct (n <? 0) eqn:E; [apply Z.ltb_lt in E; lia|].
  rewrite Z.min_l by lia. reflexivity.
Qed.

(** [take_body] with a content length known. *)
Lemma take_body_run c n :
  _event_content_length (self c) = Some n ->
  take_body c
  = if len (_event_buffer (self c)) <? n then (Ret Continue, c)
    else (if utf8_valid (slice (_event_buffer (self c)) 0 n)
          then Ret (Return (Some (string_of_list_byte
                                    (slice (_event_buffer (self c)) 0 n))))
          else Raise UnicodeDecodeError,
          with_frame (slice_from (_event_buffer (self c)) n) None c).
Proof.
  intros Hcl. unfold take_body, bind, get_self, modify. rewrite Hcl.
  destruct (_ <? _); [reflexivity|]. simpl.
  destruct (utf8_valid _); reflexivity.
Qed.

(** The rest of a turn once the bytes have been appended, a content length
    other than 0 being known. *)
Lemma feed_with_length chunk c n :
  _event_content_length (self c) = Some n -> n <> 0 ->
  feed chunk c
  = take_body (with_frame (_event_buffer (self c) ++ chunk) (Some n) c).
Proof.
  intros Hcl Hn. unfold feed, turn_of, bind at 1. rewrite drain_one, Hcl.
  unfold bind at 1, read_headers, bind at 1, get_self. simpl.
  destruct (n =? 0) eqn:E; [apply Z.eqb_eq in E; contradiction|].
  reflexivity.
Qed.

(** X2.  With a positive content length [n] pending, a feed either waits,
    keeping every byte, while fewer than [n] bytes are buffered, or takes
    exactly the first [n] bytes out of the buffer and forgets the length:
    they are returned as the body when they are UTF-8, and
    [UnicodeDecodeError] is raised when they are not, the bytes being gone
    from the buffer in both cases. *)
Theorem body_has_declared_length (chunk : bytes) (c : Cfg) (n : Z) :
  _event_content_length (self c) = Some n -> 0 < n ->
  let buf := _event_buffer (self c) ++ chunk in
  if len buf <? n
  then feed chunk c = (Ret Continue, with_frame buf (Some n) c)
  else exists b r,
      buf = b ++ r /\ len b = n
      /\ feed chunk c
         = (if utf8_valid b
            then Ret (Return (Some (string_of_list_byte b)))
            else Raise UnicodeDecodeError,
            with_frame r None c).
Proof.
  intros Hcl Hn buf. rewrite (feed_with_length chunk c n Hcl) by lia.
  fold buf. rewrite (take_body_run _ n) by reflexivity.
  change (_event_buffer (self (with_frame buf (Some n) c))) with buf.
  destruct (len buf <? n) eqn:L; [reflexivity|].
  apply Z.ltb_ge in L.
  exists (firstn (Z.to_nat n) buf), (skipn (Z.to_nat n) buf).
  split; [symmetry; apply firstn_skipn|].
  split; [unfold len in *; rewrite length_firstn; lia|].
  rewrite slice_firstn, slice_from_skipn by lia. reflexivity.
Qed.

(** X3.  A negative content length, which [int] accepts and the test for
    a missing length lets through, never makes the assembler wait: when the
    headers have been dealt with and the length [n] is negative, the same
    turn hands over all the bytes buffered but the last [-n], as Python's
    slices count from the end, and keeps those last bytes. *)
Theorem negative_length_never_waits (chunk : bytes) (c c1 : Cfg) (n : Z) :
  read_headers
    (with_frame (_event_buffer (self c) ++ chunk)
       (_event_content_length (self c)) c)
  = (Ret true, c1) ->
  _event_content_length (self c1) = Some n -> n < 0 ->
  let buf := _event_buffer (self c1) in
  let k := Z.to_nat (len buf + n) in
  feed chunk c
  = (if utf8_valid (firstn k buf)
     then Ret (Return (Some (string_of_list_byte (firstn k buf))))
     else Raise UnicodeDecodeError,
     with_frame (skipn k buf) None c1).
Proof.
  intros Hrh Hcl Hn buf k.
  unfold feed, turn_of, bind at 1. rewrite drain_one.
  unfold bind at 1. rewrite Hrh.
  rewrite (take_body_run c1 n Hcl). fold buf.
  pose proof (len_nonneg buf) as Hb.
  destruct (len buf <? n) eqn:L; [apply Z.ltb_lt in L; lia|].
  assert (Hs : slice buf 0 n = firstn k buf).
  { unfold slice, clamp_index. change (0 <? 0) with false.
    destruct (n <? 0) eqn:E; [|apply Z.ltb_ge in E; lia]. cbv iota.
    rewrite Z.min_l by lia. rewrite Z.sub_0_r. simpl.
    subst k. f_equal. lia. }
  assert (Hr : slice_from buf n = skipn k buf).
  { unfold slice_from, clamp_index.
    destruct (n <? 0) eqn:E; [|apply Z.ltb_ge in E; lia].
    subst k. f_equal. lia. }
  rewrite Hs, Hr. reflexivity.
Qed.

Lemma recv_bytes_concat chunks :
  Forall (fun x : bytes => x <> []) chunks -> recv_bytes chunks = concat chunks.
Proof.
  induction 1 as [|x rest Hx _ IH]; simpl; [reflexivity|].
  destruct x as [|b x]; [contradiction|].
  replace (len (b :: x) =? 0) with false
    by (symmetry; apply Z.eqb_neq; unfold len; simpl; lia).
  rewrite IH. reflexivity.
Qed.

Lemma drain_want_read chunks :
  Forall (fun x : bytes => x <> []) chunks ->
  forall c,
    drain chunks RecvWantRead c
    = (Ret false,
       with_frame (_event_buffer (self c) ++ concat chunks)
         (_event_content_length (self c)) c).
Proof.
  induction 1 as [|x rest Hx _ IH]; intros c; simpl.
  - rewrite app_nil_r, with_frame_id. reflexivity.
  - destruct x as [|b x]; [contradiction|].
    replace (len (b :: x) =? 0) with false
      by (symmetry; apply Z.eqb_neq; unfold len; simpl; lia).
    unfold bind, get_self, modify. rewrite IH. simpl.
    rewrite <- app_assoc. reflexivity.
Qed.

(** X4.  When [recv] ends a drain with [SSLWantReadError], the bytes
    received are appended to the buffer and the turn goes back to [select]
    without looking at the buffer: nothing is parsed and no body is
    returned in that turn, even if a whole frame is buffered; if nothing
    more arrives the call reports a timeout and the bytes stay buffered. *)
Theorem want_read_defers (chunks : list bytes) (c : Cfg) :
  Forall (fun x : bytes => x <> []) chunks ->
  let c' := with_frame (_event_buffer (self c) ++ concat chunks)
              (_event_content_length (self c)) c in
  turn_of (Ready chunks RecvWantRead) c = (Ret Continue, c')
  /\ _read_one_response_or_timeout (set_wire [Ready chunks RecvWantRead] c)
     = (Ret None, set_wire [] c').
Proof.
  intros H c'.
  assert (T : forall c0,
             turn_of (Ready chunks RecvWantRead) c0
             = (Ret Continue,
                with_frame (_event_buffer (self c0) ++ concat chunks)
                  (_event_content_length (self c0)) c0)).
  { intros c0. unfold turn_of, bind. rewrite (drain_want_read chunks H).
    reflexivity. }
  split; [apply T|].
  unfold _read_one_response_or_timeout. simpl wire. cbn [read_loop].
  rewrite T. reflexivity.
Qed.

End FrameExtras.

(** ** The header lines *)

Section HeaderExtras.
Context `{P : Platform}.

Lemma scan_headers_app l1 l2 :
  forall c,
    scan_headers (l1 ++ l2) c
    = bind (scan_headers l1) (fun _ => scan_headers l2) c.
Proof.
  induction l1 as [|h r IH]; intros c; simpl; [reflexivity|].
  destruct (split_once ":" h) as [|a [|b [|? ?]]]; try reflexivity.
  destruct (negb _); [apply IH|].
  destruct (int_bytes (bytes_strip b)) as [n|]; [|reflexivity].
  unfold bind at 1 3, modify. rewrite IH. reflexivity.
Qed.

(** X5.  When several header lines name the content length, the last of
    them counts: the lines before it having been read without error, and
    no line after it naming the content length, the length left by the loop
    of [_parse_headers] is the value of that line, whatever the earlier
    lines gave and whether a later line makes the loop raise or not. *)
Theorem last_content_length_wins
    (lines rest : list bytes) (line name value : bytes) (n : Z) (c : Cfg) :
  fst (scan_headers lines c) = Ret tt ->
  split_once ":" line = [name; value] ->
  bytes_eqb (bytes_lower (bytes_strip name)) (B "content-length") = true ->
  int_bytes (bytes_strip value) = Some n ->
  existsb names_content_length rest = false ->
  _event_content_length
    (self (snd (scan_headers (lines ++ line :: rest) c)))
  = Some n.
Proof.
  intros Hl Hs Hn Hv Hr.
  rewrite scan_headers_app. unfold bind at 1.
  destruct (scan_headers lines c) as [[[]|e] c1]; [|discriminate].
  cbn [scan_headers]. rewrite Hs, Hn, Hv. cbn [negb].
  unfold bind, modify.
  set (c2 := {| self := _; world := _ |}).
  destruct (scan_headers_no_length rest c2 Hr) as [-> | ->]; reflexivity.
Qed.

Lemma split_once_colonless sep line :
  ~ In sep line -> split_once sep line = [line].
Proof.
  induction line as [|b s IH]; intros H; simpl; [reflexivity|].
  destruct (Byte.eqb b sep) eqn:E.
  - apply Byte.byte_dec_bl in E. subst b. exfalso. apply H. left. reflexivity.
  - rewrite IH; [reflexivity|]. intros Hin. apply H. right. exact Hin.
Qed.

Lemma scan_headers_colonless lines :
  Exists colonless lines ->
  forall c, fst (scan_headers lines c) = Raise ValueError.
Proof.
  induction 1 as [line rest Hc|line rest _ IH]; intros c; simpl.
  - rewrite (split_once_colonless _ _ Hc). reflexivity.
  - destruct (split_once ":" line) as [|a [|b [|? ?]]]; try reflexivity.
    destruct (negb _); [apply IH|].
    destruct (int_bytes (bytes_strip b)) as [n|]; [|reflexivity].
    unfold bind, modify. apply IH.
Qed.

(** X6.  A header line without a colon, anywhere after the first line of
    the header block, makes [_parse_headers] raise [ValueError], whether or
    not another line gives the content length. *)
Theorem header_without_colon_raises (pos : Z) (c : Cfg) :
  Exists colonless
    (tl (bytes_split (slice (_event_buffer (self c)) 0 pos)
           HTTP_HEADER_SEPERATOR)) ->
  fst (_parse_headers pos c) = Raise ValueError.
Proof.
  intros H. unfold _parse_headers, bind at 1, get_self.
  unfold bind at 1, modify. unfold bind at 1.
  match goal with
  | |- fst (match scan_headers ?l ?c1 with _ => _ end) = _ =>
      pose proof (scan_headers_colonless l H c1) as Hs;
      destruct (scan_headers l c1) as [[[]|e] c2]
  end; simpl in *; [discriminate|exact Hs].
Qed.

End HeaderExtras.

(** ** The loop of [watch] *)

Section WatchExtras.
Context `{P : Platform}.

(** X7.  Whatever exception the read raises (a socket error, a header
    block that cannot be read, a body that is not UTF-8), [watch] catches
    it: it logs the error, disconnects, calls the callback for lost
    connections when there is one, and returns without raising. *)
Theorem read_error_ends_watch (c0 c1 ce : Cfg) (e : exn) :
  heartbeat_expired c0 = (Ret false, c1) ->
  _read_one_response_or_timeout c1 = (Raise e, ce) ->
  exists c',
    watch_turn c0 = (Ret false, c')
    /\ (forall fuel, watch_loop (S fuel) c0 = Some (Ret tt, c'))
    /\ _connected (self c') = false
    /\ (_connected (self ce) = true ->
        _subscribed (self c') = false /\ _running (self c') = false)
    /\ trace (world c')
       = trace (world ce)
         ++ [LogWarning (ReadError e)]
         ++ (if _connected (self ce) then [SocketClose] else [])
         ++ [LogWarning LostConnection]
         ++ (if _on_lost_function (self ce) then [OnLost] else []).
Proof.
  intros Hhb Hread.
  set (cl := snd (emit (LogWarning (ReadError e)) ce)).
  destruct (lost_connect_run cl) as (c' & Hlost & Hconn & Hflags & Htrace).
  exists c'.
  assert (Hturn : watch_turn c0 = (Ret false, c')).
  { unfold watch_turn, bind at 1. rewrite Hhb.
    unfold bind at 1, try_except, bind at 1. rewrite Hread.
    subst cl. revert Hlost.
    cbv beta iota delta [bind emit snd]. intros ->. reflexivity. }
  split; [exact Hturn|].
  split; [intros fuel; simpl; rewrite Hturn; reflexivity|].
  split; [exact Hconn|]. split; [exact Hflags|].
  rewrite Htrace. subst cl. simpl. rewrite <- app_assoc. reflexivity.
Qed.

(** X8.  When the whole seconds since the last heartbeat exceed the wait
    interval, the turn of [watch] does not read from the socket: it
    disconnects, logs the loss, calls the callback when there is one, and
    [watch] returns; the wire and the buffer are as they were. *)
Theorem heartbeat_timeout_ends_watch (c : Cfg) (t0 : Z) :
  _lasthb (self c) = Some t0 ->
  _hbwait (self c)
  < timedelta_seconds (clock (world c) (ticks (world c)) - t0) ->
  exists c',
    watch_turn c = (Ret false, c')
    /\ (forall fuel, watch_loop (S fuel) c = Some (Ret tt, c'))
    /\ _connected (self c') = false
    /\ wire (world c') = wire (world c)
    /\ _event_buffer (self c') = _event_buffer (self c)
    /\ trace (world c')
       = trace (world c)
         ++ (if _connected (self c) then [SocketClose] else [])
         ++ [LogWarning LostConnection]
         ++ (if _on_lost_function (self c) then [OnLost] else []).
Proof.
  intros Hl Hw.
  assert (Hhb : heartbeat_expired c
                = (Ret true, snd (datetime_now c))).
  { unfold heartbeat_expired, heartbeat_time, bind, get_self. rewrite Hl.
    unfold datetime_now, ret. cbn [self world].
    apply Z.ltb_lt in Hw. rewrite Z.gtb_ltb, Hw. reflexivity. }
  destruct (lost_connect_run (snd (datetime_now c)))
    as (c' & Hlost & Hconn & _ & Htrace).
  exists c'.
  assert (Hturn : watch_turn c = (Ret false, c')).
  { unfold watch_turn, bind at 1. rewrite Hhb. unfold bind. rewrite Hlost.
    reflexivity. }
  split; [exact Hturn|].
  split; [intros fuel; simpl; rewrite Hturn; reflexivity|].
  split; [exact Hconn|].
  assert (Hkeep : wire (world c') = wire (world c)
                  /\ _event_buffer (self c') = _event_buffer (self c)).
  { revert Hlost. clear.
    destruct c as [[r wr t s [] l h [] d b n] w]; simpl;
      intros E; injection E as <-; split; reflexivity. }
  split; [exact (proj1 Hkeep)|]. split; [exact (proj2 Hkeep)|].
  exact Htrace.
Qed.

(** X9.  Before any heartbeat has been received, the wait interval being 0
    or more, silence is never taken for a lost connection: on a session
    that is running and subscribed, with nothing arriving on the socket,
    each turn of [watch] leaves everything as it is and goes round again,
    so [watch] is still in its loop whatever number of turns it is given. *)
Theorem silence_before_first_heartbeat (c : Cfg) (fuel : nat) :
  _subscribed (self c) = true -> _running (self c) = true ->
  _lasthb (self c) = None -> 0 <= _hbwait (self c) ->
  wire (world c) = [] ->
  watch_turn (with_frame [] None c) = (Ret true, with_frame [] None c)
  /\ watch fuel c = None.
Proof.
  intros Hs Hr Hl Hw Hwire.
  assert (Hturn : watch_turn (with_frame [] None c)
                  = (Ret true, with_frame [] None c)).
  { unfold watch_turn, bind at 1, heartbeat_expired, bind at 1,
      heartbeat_time, bind at 1, get_self.
    cbn [self with_frame set_event_content_length set_event_buffer _lasthb].
    rewrite Hl. unfold ret at 1. unfold bind at 1. unfold ret at 1.
    cbn [self with_frame set_event_content_length set_event_buffer _hbwait].
    replace (0 >? _hbwait (self c)) with false
      by (symmetry; rewrite Z.gtb_ltb; apply Z.ltb_ge; exact Hw).
    unfold bind at 1, try_except, bind at 1, _read_one_response_or_timeout.
    cbn [world with_frame]. rewrite Hwire. cbn [read_loop].
    unfold ret at 1. unfold bind, get_self.
    cbn [self with_frame set_event_content_length set_event_buffer
           _running _subscribed].
    rewrite Hs, Hr. reflexivity. }
  split; [exact Hturn|].
  unfold watch. rewrite Hs. cbn [negb].
  change ((bind (modify (set_event_buffer []))
             (fun _ => modify (set_event_content_length None))) c)
    with (Ret tt, with_frame [] None c).
  cbv iota.
  induction fuel as [|fuel IH]; simpl; [reflexivity|].
  rewrite Hturn. exact IH.
Qed.

(** X10.  When the running flag is not set, as on a session subscribed by
    hand, a turn of [watch] still reads from the socket once and then
    leaves the loop without routing what it has read: [watch] returns in
    the configuration the read has left, the message being dropped. *)
Theorem unstarted_session_drops_message (c0 c1 c2 : Cfg) (d : option string) :
  _running (self c0) = false ->
  heartbeat_expired c0 = (Ret false, c1) ->
  _read_one_response_or_timeout c1 = (Ret d, c2) ->
  watch_turn c0 = (Ret false, c2)
  /\ (forall fuel, watch_loop (S fuel) c0 = Some (Ret tt, c2)).
Proof.
  intros Hr Hhb Hread.
  set (I := fun o : EventStream => _running o = false).
  assert (H1 : I (self c1)).
  { pose proof (pres_heartbeat_expired I c0 Hr) as H.
    rewrite Hhb in H. exact H. }
  assert (H2 : I (self c2)).
  { assert (Hb : forall v o, I o -> I (set_event_buffer v o)) by auto.
    assert (Hn : forall v o, I o -> I (set_event_content_length v o)) by auto.
    pose proof (pres_read_one I Hb Hn c1 H1) as H.
    rewrite Hread in H. exact H. }
  assert (Hturn : watch_turn c0 = (Ret false, c2)).
  { unfold watch_turn, bind at 1. rewrite Hhb.
    unfold bind at 1, try_except, bind at 1. rewrite Hread.
    unfold ret at 1. unfold bind at 1, get_self.
    unfold I in H2. rewrite H2. reflexivity. }
  split; [exact Hturn|].
  intros fuel. simpl. rewrite Hturn. reflexivity.
Qed.

End WatchExtras.

(** ** The router *)

Section RouterExtras.
Context `{P : Platform}.

(** The configuration in which a message that parses is directed: the
    stream id is taken from the message when the text has ["sid="] in it
    and no stream id is known. *)
Lemma route_capture msg x c :
  parseString msg = Some x ->
  _route_message msg c
  = direct msg x
      (if str_contains (ATTR_STREAM_ID +:+ "=") msg && negb (sid_known c)
       then snd (update_received x c) else c).
Proof.
  intros Hp. unfold _route_message. rewrite Hp.
  unfold bind at 1, get_self. unfold bind at 1. unfold sid_known.
  destruct (_ && _); reflexivity.
Qed.

Lemma direct_data msg x c :
  data (self (snd (direct msg x c))) = data (self c).
Proof.
  set (I := fun o : EventStream => data o = data (self c)).
  assert (H1 : forall v o, I o -> I (set_lasthb v o)) by auto.
  assert (H2 : forall v o, I o -> I (set_hbwait v o)) by auto.
  assert (H : preserving I (direct msg x)).
  { pose proof (pres_int_of I). unfold direct. pres. }
  apply (H c). reflexivity.
Qed.

(** X11.  The connection dictionary after a message has been routed: the
    stream id is stored when the message parses, its text has ["sid="] in
    it and no stream id is known yet, the value being the attribute of the
    event, or [None] when the event has no such attribute; in every other
    case, and whatever the routing does besides, the dictionary is as it
    was, so a stream id once known is not replaced by a later message. *)
Theorem stream_id_capture (msg : string) (c : Cfg) :
  data (self (snd (_route_message msg c)))
  = match parseString msg with
    | Some x =>
        if str_contains (ATTR_STREAM_ID +:+ "=") msg && negb (sid_known c)
        then <[ATTR_STREAM_ID :=
                 match attr_from_xml x "Event" ATTR_STREAM_ID with
                 | Some s => PyStr s
                 | None => PyNone
                 end]> (data (self c))
        else data (self c)
    | None => data (self c)
    end.
Proof.
  destruct (parseString msg) as [x|] eqn:Hp.
  - rewrite (route_capture msg x c Hp), direct_data.
    destruct (_ && _); reflexivity.
  - unfold _route_message. rewrite Hp. reflexivity.
Qed.

(** X12.  A message without a control code, with an empty one, or with one
    that begins with an underscore and is none of [_0], [_1] and the status
    property, is dropped without a word: [_route_message] returns, nobody
    is told and nothing is logged; the capture of the stream id is all that
    can have happened. *)
Theorem unknown_codes_ignored (msg : string) (x : xmldoc) (c : Cfg) :
  parseString msg = Some x ->
  match value_from_xml x ATTR_CONTROL with
  | None => True
  | Some cntrl =>
      cntrl = EmptyString
      \/ (first_is_not_underscore cntrl = false
          /\ cntrl <> "_0"%string /\ cntrl <> "_1"%string
          /\ cntrl <> PROP_STATUS)
  end ->
  _route_message msg c
  = (Ret tt,
     if str_contains (ATTR_STREAM_ID +:+ "=") msg && negb (sid_known c)
     then snd (update_received x c) else c).
Proof.
  intros Hp Hc. rewrite (route_capture msg x c Hp).
  unfold direct.
  destruct (value_from_xml x ATTR_CONTROL) as [cntrl|]; [|reflexivity].
  destruct Hc as [-> | (Hu & H0 & H1 & Hs)]; [reflexivity|].
  apply String.eqb_neq in H0, H1, Hs. rewrite H0, H1, Hs, Hu.
  destruct (String.eqb cntrl EmptyString); reflexivity.
Qed.

(** X13.  A message whose control code is the status property goes to
    [nodes.update_received]; one whose code does not begin with an
    underscore, the status property apart, goes to
    [nodes.control_message_received]; in both cases that is the only thing
    done with it, and [_route_message] returns. *)
Theorem node_events_routing
    (msg : string) (x : xmldoc) (cntrl : string) (c : Cfg) :
  parseString msg = Some x ->
  value_from_xml x ATTR_CONTROL = Some cntrl ->
  cntrl <> EmptyString -> cntrl <> "_0"%string ->
  cntrl = PROP_STATUS \/ first_is_not_underscore cntrl = true ->
  exists c',
    _route_message msg c = (Ret tt, c')
    /\ self c'
       = self (if str_contains (ATTR_STREAM_ID +:+ "=") msg
                  && negb (sid_known c)
               then snd (update_received x c) else c)
    /\ trace (world c')
       = trace (world c)
         ++ [if String.eqb cntrl PROP_STATUS
             then NodesUpdateReceived x
             else NodesControlMessageReceived x].
Proof.
  intros Hp Hc He H0 Hk. rewrite (route_capture msg x c Hp).
  unfold direct. rewrite Hc.
  apply String.eqb_neq in He, H0. rewrite He, H0.
  set (c1 := if _ && _ then _ else c).
  assert (Hw : world c1 = world c) by (subst c1; destruct (_ && _); reflexivity).
  destruct (String.eqb cntrl PROP_STATUS) eqn:Es.
  - eexists. split; [reflexivity|]. split; [reflexivity|].
    simpl. rewrite Hw. reflexivity.
  - destruct Hk as [-> | Hk]; [rewrite String.eqb_refl in Es; discriminate|].
    rewrite Hk. eexists. split; [reflexivity|]. split; [reflexivity|].
    simpl. rewrite Hw. reflexivity.
Qed.

(** X14.  A heartbeat message, control code [_0], whose action is missing
    or is not a number: [_route_message] raises [TypeError] or
    [ValueError], the time of the heartbeat having been recorded already
    and the wait interval being as it was; [watch] routes outside its
    [try], so the exception leaves [watch] with the session still
    connected, nothing logged and the callback for lost connections not
    called. *)
Theorem heartbeat_without_interval_raises
    (msg : string) (x : xmldoc) (c : Cfg) :
  parseString msg = Some x ->
  value_from_xml x ATTR_CONTROL = Some "_0"%string ->
  match value_from_xml x ATTR_ACTION with
  | None => True
  | Some a => int_str a = None
  end ->
  exists e c',
    _route_message msg c = (Raise e, c')
    /\ e = match value_from_xml x ATTR_ACTION with
           | None => TypeError
           | Some _ => ValueError
           end
    /\ _lasthb (self c') = Some (clock (world c) (ticks (world c)))
    /\ _hbwait (self c') = _hbwait (self c)
    /\ _connected (self c') = _connected (self c)
    /\ trace (world c') = trace (world c)
    /\ (forall c0 c1,
          heartbeat_expired c0 = (Ret false, c1) ->
          _read_one_response_or_timeout c1 = (Ret (Some msg), c) ->
          msg <> EmptyString ->
          _running (self c) = true -> _subscribed (self c) = true ->
          watch_turn c0 = (Raise e, c')
          /\ (forall fuel, watch_loop (S fuel) c0 = Some (Raise e, c'))).
Proof.
  intros Hp Hc Ha.
  set (c1 := if str_contains (ATTR_STREAM_ID +:+ "=") msg
                && negb (sid_known c)
             then snd (update_received x c) else c).
  assert (Hw : world c1 = world c) by (subst c1; destruct (_ && _); reflexivity).
  assert (Hh : _hbwait (self c1) = _hbwait (self c))
    by (subst c1; destruct (_ && _); reflexivity).
  assert (Hn : _connected (self c1) = _connected (self c))
    by (subst c1; destruct (_ && _); reflexivity).
  assert (Hroute : _route_message msg c = direct msg x c1)
    by (apply route_capture; exact Hp).
  set (e := match value_from_xml x ATTR_ACTION with
            | None => TypeError
            | Some _ => ValueError
            end).
  assert (Hd : direct msg x c1
               = (Raise e,
                  {| self := set_lasthb
                               (Some (clock (world c1) (ticks (world c1))))
                               (self c1);
                     world := world (snd (datetime_now c1)) |})).
  { unfold direct. rewrite Hc.
    change (String.eqb "_0" EmptyString) with false.
    change (String.eqb "_0" "_0") with true. cbv iota.
    unfold bind, datetime_now, modify, int_of. subst e.
    destruct (value_from_xml x ATTR_ACTION) as [a|]; [rewrite Ha|];
      reflexivity. }
  eexists e, _. split; [rewrite Hroute; exact Hd|].
  split; [reflexivity|].
  split; [simpl; rewrite Hw; reflexivity|].
  split; [exact Hh|]. split; [exact Hn|].
  split; [simpl; rewrite Hw; reflexivity|].
  intros c0 c0' Hhb Hread Hne Hr Hs.
  assert (Hturn : watch_turn c0
                  = (Raise e,
                     {| self := set_lasthb
                                  (Some (clock (world c1) (ticks (world c1))))
                                  (self c1);
                        world := world (snd (datetime_now c1)) |})).
  { unfold watch_turn, bind at 1. rewrite Hhb.
    unfold bind at 1, try_except, bind at 1. rewrite Hread.
    unfold ret at 1. unfold bind at 1, get_self. rewrite Hr, Hs. simpl.
    apply String.eqb_neq in Hne. rewrite Hne.
    unfold bind. rewrite Hroute, Hd. reflexivity. }
  split; [exact Hturn|].
  intros fuel. simpl. rewrite Hturn. reflexivity.
Qed.

End RouterExtras.

(** ** The heartbeat *)

Section HeartbeatExtras.
Context `{P : Platform}.

Lemma timedelta_seconds_range us : 0 <= timedelta_seconds us <= 86399.
Proof.
  unfold timedelta_seconds.
  pose proof (Z.mod_pos_bound us 86400000000 ltac:(lia)) as H.
  split.
  - apply Z.div_pos; lia.
  - apply Z.lt_succ_r. apply Z.div_lt_upper_bound; lia.
Qed.

(** X15.  What [heartbeat_time] returns is a number of seconds within the
    day, between 0 and 86399, however long ago the last heartbeat was; so
    with a wait interval of 86399 seconds or more the heartbeat never
    counts as expired. *)
Theorem long_interval_never_expires (c : Cfg) :
  86399 <= _hbwait (self c) ->
  (exists e, fst (heartbeat_time c) = Ret e /\ 0 <= e <= 86399)
  /\ fst (heartbeat_expired c) = Ret false.
Proof.
  intros Hw.
  unfold heartbeat_expired, heartbeat_time, bind, get_self, datetime_now.
  destruct (_lasthb (self c)) as [t0|]; unfold ret; cbn [fst self].
  - pose proof (timedelta_seconds_range (clock (world c) (ticks (world c)) - t0))
      as H.
    split; [eexists; split; [reflexivity|exact H]|].
    f_equal. rewrite Z.gtb_ltb. apply Z.ltb_ge. lia.
  - split; [exists 0; split; [reflexivity|lia]|].
    f_equal. rewrite Z.gtb_ltb. apply Z.ltb_ge. lia.
Qed.

(** X16.  A clock that has been set back makes the heartbeat count as
    expired: with a wait interval [w] of 0 or more, a query made when the
    clock shows [d] microseconds less than at the last heartbeat, for any
    [d] from one microsecond up to a day less [w + 1] seconds, finds the
    heartbeat expired, the seconds of a negative difference being counted
    from the day before. *)
Theorem clock_set_back_expires (c : Cfg) (t0 d : Z) :
  _lasthb (self c) = Some t0 ->
  clock (world c) (ticks (world c)) = t0 - d ->
  0 <= _hbwait (self c) ->
  0 < d <= 86400000000 - 1000000 * (_hbwait (self c) + 1) ->
  fst (heartbeat_expired c) = Ret true.
Proof.
  intros Hl Hc Hw Hd.
  unfold heartbeat_expired, heartbeat_time, bind, get_self, datetime_now.
  rewrite Hl. unfold ret. cbn [fst self world]. rewrite Hc.
  f_equal. rewrite Z.gtb_ltb. apply Z.ltb_lt.
  unfold timedelta_seconds.
  replace (t0 - d - t0) with (- d) by lia.
  rewrite <- (Z_mod_plus_full (- d) 1 86400000000).
  rewrite Z.mod_small by lia.
  apply Z.lt_le_trans with (_hbwait (self c) + 1); [lia|].
  apply Z.div_le_lower_bound; lia.
Qed.

End HeartbeatExtras.

(** ** Starting and stopping *)

Section SessionExtras.
Context `{P : Platform}.

(** [_create_message] reads the connection dictionary only and changes
    nothing. *)
Lemma create_message_at msg c c1 :
  data (self c1) = data (self c) ->
  _create_message msg c1 = (fst (_create_message msg c), c1).
Proof.
  intros Hd. unfold _create_message, bind, get_self, lift, raise, ret.
  rewrite Hd.
  destruct (str_format (body msg) (data (self c))) as [b|e]; [|reflexivity].
  destruct (data (self c) !! "length"%string); [reflexivity|].
  destruct (str_format (head msg) _) as [h|e]; reflexivity.
Qed.

Ltac use_message Hm :=
  match type of Hm with
  | fst (_create_message ?m ?c0) = _ =>
      match goal with
      | |- context [_create_message m ?c1] =>
          rewrite (create_message_at m c0 c1 eq_refl), Hm
      end
  end.

Lemma writer_kept_run k c c' :
  _writer (self c) <> None -> run k c = Some c' -> _writer (self c') <> None.
Proof.
  set (I := fun o : EventStream => _writer o <> None).
  assert (Hb : forall v o, I o -> I (set_event_buffer v o)) by auto.
  assert (Hn : forall v o, I o -> I (set_event_content_length v o)) by auto.
  assert (Hl : forall v o, I o -> I (set_lasthb v o)) by auto.
  assert (Hh : forall v o, I o -> I (set_hbwait v o)) by auto.
  assert (Hr : forall v o, I o -> I (set_running v o)) by auto.
  assert (Hs : forall v o, I o -> I (set_subscribed v o)) by auto.
  assert (Hc : forall v o, I o -> I (set_connected v o)) by auto.
  assert (Ht : forall v o, I o -> I (set_thread v o)) by auto.
  assert (Hw : forall o, I o -> I (set_writer (Some SocketFile) o))
    by (intros o _; discriminate).
  assert (Hu : forall x, preserving I (update_received x))
    by (intros x; unfold update_received; pres).
  assert (Hd : preserving I disconnect) by (apply attr_disconnect; auto).
  assert (Hsub : forall io, preserving I (subscribe io))
    by (intros io; apply attr_subscribe; auto).
  assert (Hun : forall io, preserving I (unsubscribe io))
    by (intros io; apply attr_unsubscribe; auto).
  assert (Hcon : forall ok, preserving I (connect ok))
    by (intros ok; unfold connect; pres).
  assert (Hset : forall val alive ok io,
             preserving I (running_setter val alive ok io))
    by (intros val alive ok io; unfold running_setter, running; pres).
  apply (pres_run I true); auto.
Qed.

(** X17.  [disconnect] closes the socket and leaves the writer in place,
    and so does every other call: once a session has a writer, whatever
    calls follow, a lost connection and a stop included, [write] does not
    raise [NotImplementedError] again; it writes, or fails as the socket
    file fails. *)
Theorem writer_outlives_connection
    (ks : list call) (c c' : Cfg) (io_ok : bool) (msg : string) :
  _writer (self c) <> None ->
  run_all ks c = Some c' ->
  _writer (self c') <> None
  /\ fst (write io_ok msg c') = if io_ok then Ret tt else Raise OSError.
Proof.
  intros Hw Hr.
  assert (H : _writer (self c') <> None).
  { revert c Hw Hr. induction ks as [|k ks IH]; intros c Hw Hr; simpl in Hr.
    - injection Hr as <-. exact Hw.
    - destruct (run k c) as [c1|] eqn:R; [|discriminate].
      apply (IH c1); [|exact Hr]. exact (writer_kept_run k c c1 Hw R). }
  split; [exact H|].
  unfold write, bind, get_self.
  destruct (_writer (self c')); [|contradiction].
  destruct io_ok; reflexivity.
Qed.

Lemma running_false alive c :
  _thread (self c) = None \/ alive = false ->
  running alive c = (Ret false, c).
Proof.
  unfold running, bind, get_self, ret.
  intros [-> | ->]; [reflexivity|]. destruct (_thread (self c)); reflexivity.
Qed.

(** X18.  Starting the updates on a session that is not connected, the
    socket getting connected and the subscription being written: the
    setter logs, connects, sends the subscription built from the template
    that [subscribe] chooses, marks the session subscribed and running and
    starts the thread, in this order, and returns. *)
Theorem start_session (c : Cfg) (alive : bool) (payload : string) :
  _thread (self c) = None \/ alive = false ->
  _connected (self c) = false -> _subscribed (self c) = false ->
  is_Some (data (self c) !! "addr"%string) ->
  is_Some (data (self c) !! "port"%string) ->
  fst (_create_message (if sid_known c then RESUB_MSG else SUB_MSG) c)
  = Ret payload ->
  exists c',
    running_setter true alive true true c = (Ret tt, c')
    /\ _running (self c') = true /\ _subscribed (self c') = true
    /\ _connected (self c') = true
    /\ _thread (self c') = Some WatchThread
    /\ _writer (self c') = Some SocketFile
    /\ trace (world c')
       = trace (world c)
         ++ [LogInfo StartingUpdates; SocketConnect; Sent payload;
             ThreadStart].
Proof.
  intros Ht Hc Hs Ha Hp Hm.
  unfold running_setter, bind at 1. rewrite (running_false alive c Ht).
  cbn [andb negb]. unfold bind at 1, emit at 1. unfold bind at 1.
  set (c1 := {| self := self c; world := _ |}).
  assert (Hcon : connect true c1
                 = (Ret true,
                    {| self := set_connected true
                                 (set_writer (Some SocketFile) (self c));
                       world := world (snd (emit SocketConnect c1)) |})).
  { unfold connect, bind at 1, get_self. cbn [self c1]. rewrite Hc.
    cbn [negb]. rewrite !bool_decide_eq_true_2 by assumption.
    reflexivity. }
  rewrite Hcon. set (c2 := {| self := set_connected _ _; world := _ |}).
  unfold bind at 1.
  assert (Hsub : subscribe true c2 = (Ret tt, subscribed_with payload c2)).
  { apply subscribe_sends; try reflexivity.
    - cbn. exact Hs.
    - discriminate.
    - change (sid_known c2) with (sid_known c).
      rewrite (create_message_at _ c c2 eq_refl). exact Hm. }
  rewrite Hsub. eexists. split; [reflexivity|].
  repeat (split; [reflexivity|]).
  simpl. rewrite <- !app_assoc. reflexivity.
Qed.

(** X19.  Starting the updates when the socket cannot be connected: the
    setter logs the error, calls the callback for lost connections when
    there is one, and returns without raising; no thread is started and
    the object is as it was. *)
Theorem start_unreachable (c : Cfg) (alive io_ok : bool) :
  _thread (self c) = None \/ alive = false ->
  _connected (self c) = false ->
  is_Some (data (self c) !! "addr"%string) ->
  is_Some (data (self c) !! "port"%string) ->
  exists c',
    running_setter true alive false io_ok c = (Ret tt, c')
    /\ self c' = self c
    /\ trace (world c')
       = trace (world c)
         ++ [LogInfo StartingUpdates; LogError CouldNotConnect]
         ++ (if _on_lost_function (self c) then [OnLost] else []).
Proof.
  intros Ht Hc Ha Hp.
  unfold running_setter, bind at 1. rewrite (running_false alive c Ht).
  cbn [andb negb]. unfold bind at 1, emit at 1. unfold bind at 1.
  unfold connect, bind at 1, get_self. cbn [self]. rewrite Hc.
  cbn [negb]. rewrite !bool_decide_eq_true_2 by assumption. cbn [negb orb].
  destruct (_on_lost_function (self c)); eexists;
    (split; [reflexivity|]); (split; [reflexivity|]);
    simpl; rewrite <- !app_assoc; reflexivity.
Qed.

(** X20.  The address or the port missing from the connection dictionary:
    [connect] raises [KeyError], which its [try] does not catch, so the
    setter raises it too; the error is not logged, the callback for lost
    connections is not called and the object is as it was. *)
Theorem missing_address_raises (c : Cfg) (alive sock_ok io_ok : bool) :
  _thread (self c) = None \/ alive = false ->
  _connected (self c) = false ->
  data (self c) !! "addr"%string = None
  \/ data (self c) !! "port"%string = None ->
  connect sock_ok c = (Raise KeyError, c)
  /\ exists c',
      running_setter true alive sock_ok io_ok c = (Raise KeyError, c')
      /\ self c' = self c
      /\ trace (world c') = trace (world c) ++ [LogInfo StartingUpdates].
Proof.
  intros Ht Hc Hk.
  assert (Hb : negb (bool_decide (is_Some (data (self c) !! "addr"%string)))
               || negb (bool_decide
                          (is_Some (data (self c) !! "port"%string)))
               = true).
  { destruct Hk as [Hk | Hk]; rewrite Hk.
    - reflexivity.
    - rewrite orb_true_r. reflexivity. }
  split.
  - unfold connect, bind, get_self. rewrite Hc. cbn [negb]. rewrite Hb.
    reflexivity.
  - unfold running_setter, bind at 1. rewrite (running_false alive c Ht).
    cbn [andb negb]. unfold bind at 1, emit at 1. unfold bind at 1.
    unfold connect, bind at 1, get_self. cbn [self]. rewrite Hc.
    cbn [negb]. rewrite Hb.
    eexists. split; [reflexivity|]. split; reflexivity.
Qed.

(** What [subscribe] does when the message can be built and the write
    fails. *)
Lemma subscribe_fails c payload :
  _subscribed (self c) = false -> _connected (self c) = true ->
  _writer (self c) <> None ->
  fst (_create_message (if sid_known c then RESUB_MSG else SUB_MSG) c)
  = Ret payload ->
  subscribe false c = (Raise OSError, c).
Proof.
  intros Hs Hc Hw Hm.
  unfold subscribe, bind at 1, get_self. rewrite Hs, Hc. simpl.
  assert (Hk : sid_known c
               = match data (self c) !! ATTR_STREAM_ID with
                 | Some _ => true | None => false end).
  { unfold sid_known. destruct (data (self c) !! ATTR_STREAM_ID); reflexivity. }
  rewrite Hk in Hm.
  destruct (data (self c) !! ATTR_STREAM_ID);
    match type of Hm with
    | fst (_create_message ?m c) = _ =>
        destruct (create_message_run m c) as [o Ho]
    end;
    rewrite Ho in Hm; simpl in Hm; subst o;
    unfold bind; rewrite Ho;
    unfold write, bind, get_self;
    destruct (_writer (self c)); try contradiction; reflexivity.
Qed.

(** X24.  Starting the updates when the socket gets connected and the
    subscription cannot be written: the setter raises the error of the
    write; the running flag is not set and no thread is started, the
    session is not subscribed, and the socket stays connected, the callback
    for lost connections not being called. *)
Theorem start_with_failing_write (c : Cfg) (alive : bool) (payload : string) :
  _thread (self c) = None \/ alive = false ->
  _connected (self c) = false -> _subscribed (self c) = false ->
  is_Some (data (self c) !! "addr"%string) ->
  is_Some (data (self c) !! "port"%string) ->
  fst (_create_message (if sid_known c then RESUB_MSG else SUB_MSG) c)
  = Ret payload ->
  exists c',
    running_setter true alive true false c = (Raise OSError, c')
    /\ _running (self c') = _running (self c)
    /\ _thread (self c') = _thread (self c)
    /\ _subscribed (self c') = false
    /\ _connected (self c') = true
    /\ trace (world c')
       = trace (world c) ++ [LogInfo StartingUpdates; SocketConnect].
Proof.
  intros Ht Hc Hs Ha Hp Hm.
  unfold running_setter, bind at 1. rewrite (running_false alive c Ht).
  cbn [andb negb]. unfold bind at 1, emit at 1. unfold bind at 1.
  set (c1 := {| self := self c; world := _ |}).
  assert (Hcon : connect true c1
                 = (Ret true,
                    {| self := set_connected true
                                 (set_writer (Some SocketFile) (self c));
                       world := world (snd (emit SocketConnect c1)) |})).
  { unfold connect, bind at 1, get_self. cbn [self c1]. rewrite Hc.
    cbn [negb]. rewrite !bool_decide_eq_true_2 by assumption.
    reflexivity. }
  rewrite Hcon. set (c2 := {| self := set_connected _ _; world := _ |}).
  unfold bind at 1.
  assert (Hsub : subscribe false c2 = (Raise OSError, c2)).
  { apply (subscribe_fails c2 payload); try reflexivity.
    - cbn. exact Hs.
    - discriminate.
    - change (sid_known c2) with (sid_known c).
      rewrite (create_message_at _ c c2 eq_refl). exact Hm. }
  rewrite Hsub. exists c2. split; [reflexivity|].
  repeat (split; [reflexivity|]).
  simpl. rewrite Hs. split; [reflexivity|]. split; [reflexivity|].
  rewrite <- !app_assoc. reflexivity.
Qed.

(** What the setter does on its second branch. *)
Lemma stop_branch val alive sock_ok io_ok c :
  val = false \/ (_thread (self c) <> None /\ alive = true) ->
  running_setter val alive sock_ok io_ok c
  = bind (emit (LogInfo StoppingUpdates))
      (fun _ => bind (modify (set_running false))
         (fun _ => bind (unsubscribe io_ok) (fun _ => disconnect))) c.
Proof.
  intros H. unfold running_setter, bind at 1, running, bind at 1, get_self.
  destruct H as [-> | [Ht ->]]; [destruct (_thread (self c)); reflexivity|].
  destruct (_thread (self c)); [|contradiction].
  destruct val; reflexivity.
Qed.

(** X21.  The setter stops the updates when it is given [False], and also
    when it is given [True] while the thread is alive: on a session that is
    subscribed and connected it logs, clears the running flag, writes the
    message built from [UNSUB_MSG], closes the socket once and leaves the
    session neither subscribed nor connected nor running. *)
Theorem stop_session
    (c : Cfg) (val alive sock_ok : bool) (payload : string) :
  val = false \/ (_thread (self c) <> None /\ alive = true) ->
  _subscribed (self c) = true -> _connected (self c) = true ->
  _writer (self c) <> None ->
  fst (_create_message UNSUB_MSG c) = Ret payload ->
  exists c',
    running_setter val alive sock_ok true c = (Ret tt, c')
    /\ _running (self c') = false /\ _subscribed (self c') = false
    /\ _connected (self c') = false
    /\ trace (world c')
       = trace (world c)
         ++ [LogInfo StoppingUpdates; Sent payload; SocketClose].
Proof.
  intros Hv Hs Hc Hw Hm. rewrite (stop_branch _ _ _ _ _ Hv).
  destruct c as [[r wr t s cn l h ol d b n] w]. simpl in Hs, Hc, Hw. subst.
  destruct wr as [wr|]; [|contradiction].
  unfold unsubscribe, disconnect, write, bind, get_self, modify, emit, ret,
    raise.
  simpl. use_message Hm. simpl.
  eexists. split; [reflexivity|]. repeat (split; [reflexivity|]).
  simpl. rewrite <- !app_assoc. reflexivity.
Qed.

(** X22.  When the message to unsubscribe cannot be written, the setter
    raises the error of the write with the running flag cleared and the
    rest undone: the session is still subscribed and connected, and the
    socket has not been closed. *)
Theorem stop_with_failing_write
    (c : Cfg) (val alive sock_ok : bool) (payload : string) :
  val = false \/ (_thread (self c) <> None /\ alive = true) ->
  _subscribed (self c) = true -> _connected (self c) = true ->
  _writer (self c) <> None ->
  fst (_create_message UNSUB_MSG c) = Ret payload ->
  exists c',
    running_setter val alive sock_ok false c = (Raise OSError, c')
    /\ _running (self c') = false /\ _subscribed (self c') = true
    /\ _connected (self c') = true
    /\ trace (world c') = trace (world c) ++ [LogInfo StoppingUpdates].
Proof.
  intros Hv Hs Hc Hw Hm. rewrite (stop_branch _ _ _ _ _ Hv).
  destruct c as [[r wr t s cn l h ol d b n] w]. simpl in Hs, Hc, Hw. subst.
  destruct wr as [wr|]; [|contradiction].
  unfold unsubscribe, disconnect, write, bind, get_self, modify, emit, ret,
    raise.
  simpl. use_message Hm. simpl.
  eexists. split; [reflexivity|]. repeat (split; [reflexivity|]).
  reflexivity.
Qed.

Lemma stop_returns alive sock_ok io_ok c c1 :
  running_setter false alive sock_ok io_ok c = (Ret tt, c1) ->
  _connected (self c1) = false /\ _running (self c1) = false.
Proof.
  rewrite (stop_branch false alive sock_ok io_ok c (or_introl eq_refl)).
  destruct c as [[r wr t s cn l h ol d b n] w].
  unfold unsubscribe, disconnect, write, bind, get_self, modify, emit, ret,
    raise.
  simpl.
  destruct s, cn; simpl;
    try (intros E; injection E as <-; split; reflexivity).
  match goal with
  | |- context [_create_message ?m ?c0] =>
      destruct (create_message_run m c0) as [o ->]
  end.
  destruct o as [p|e]; [|discriminate].
  destruct wr; [|discriminate]. destruct io_ok; [|discriminate].
  simpl. intros E; injection E as <-. split; reflexivity.
Qed.

(** X23.  Stopping is idempotent: after a stop that has returned, the
    session is neither connected nor running, and another stop, whatever
    the world answers, writes nothing, closes nothing and leaves the
    object as it is; it only logs again. *)
Theorem stop_twice
    (c c1 : Cfg) (alive1 sock1 io1 alive2 sock2 io2 : bool) :
  running_setter false alive1 sock1 io1 c = (Ret tt, c1) ->
  _connected (self c1) = false /\ _running (self c1) = false
  /\ exists c2,
      running_setter false alive2 sock2 io2 c1 = (Ret tt, c2)
      /\ self c2 = self c1
      /\ trace (world c2) = trace (world c1) ++ [LogInfo StoppingUpdates].
Proof.
  intros H. destruct (stop_returns _ _ _ _ _ H) as [Hc Hr].
  split; [exact Hc|]. split; [exact Hr|].
  rewrite (stop_branch false alive2 sock2 io2 c1 (or_introl eq_refl)).
  destruct c1 as [[r wr t s cn l h ol d b n] w]. simpl in Hc, Hr. subst.
  unfold unsubscribe, disconnect, bind, get_self, modify, emit, ret.
  simpl. rewrite andb_false_r.
  eexists. split; [reflexivity|]. split; reflexivity.
Qed.

End SessionExtras.

(** ** What a read leaves alone *)

Section ReadExtras.
Context `{P : Platform}.

Lemma frame_only_ret {A} (a : A) : frame_only (ret a).
Proof. intros c. eexists _, _. symmetry. apply with_frame_id. Qed.

Lemma frame_only_raise {A} e : frame_only (raise e : M A).
Proof. intros c. eexists _, _. symmetry. apply with_frame_id. Qed.

Lemma frame_only_get_self : frame_only get_self.
Proof. intros c. eexists _, _. symmetry. apply with_frame_id. Qed.

Lemma frame_only_buffer v : frame_only (modify (set_event_buffer v)).
Proof. intros c. exists v, (_event_content_length (self c)). reflexivity. Qed.

Lemma frame_only_length v : frame_only (modify (set_event_content_length v)).
Proof. intros c. exists (_event_buffer (self c)), v. reflexivity. Qed.

Lemma frame_only_bind {A B} (m : M A) (k : A -> M B) :
  frame_only m -> (forall a, frame_only (k a)) -> frame_only (bind m k).
Proof.
  intros Hm Hk c. unfold bind.
  destruct (Hm c) as (b & n & E).
  destruct (m c) as [[a|e] c1]; simpl in E; subst c1.
  - destruct (Hk a (with_frame b n c)) as (b' & n' & E').
    exists b', n'. rewrite E'. reflexivity.
  - exists b, n. reflexivity.
Qed.

Ltac frame_step :=
  match goal with
  | |- frame_only (bind _ _) => apply frame_only_bind; [|intros ?]
  | |- frame_only (ret _) => apply frame_only_ret
  | |- frame_only (raise _) => apply frame_only_raise
  | |- frame_only get_self => apply frame_only_get_self
  | |- frame_only (modify (set_event_buffer _)) => apply frame_only_buffer
  | |- frame_only (modify (set_event_content_length _)) =>
      apply frame_only_length
  | |- frame_only (if ?b then _ else _) => destruct b
  | |- frame_only (match ?x with _ => _ end) => destruct x
  | |- frame_only _ => solve [auto]
  end.

Lemma frame_only_scan_headers lines : frame_only (scan_headers lines).
Proof. induction lines as [|h r IH]; simpl; repeat frame_step. Qed.

Lemma frame_only_turn_of r : frame_only (turn_of r).
Proof.
  assert (Hd : forall chunks fin, frame_only (drain chunks fin))
    by (intros chunks fin; induction chunks as [|h t IH]; simpl;
        repeat frame_step).
  pose proof frame_only_scan_headers as Hs.
  unfold turn_of, read_headers, _parse_headers, take_body.
  repeat frame_step.
Qed.

Lemma read_loop_frame w :
  forall c, wire (world c) = w ->
    exists buf cl k,
      snd (read_loop w c) = set_wire (skipn k w) (with_frame buf cl c).
Proof.
  induction w as [|r w IH]; intros c Hw.
  - exists (_event_buffer (self c)), (_event_content_length (self c)), 0%nat.
    destruct c as [[] []]. simpl in *. subst. reflexivity.
  - cbn [read_loop].
    destruct (frame_only_turn_of r (set_wire w c)) as (b & n & E).
    destruct (turn_of r (set_wire w c)) as [[[v|]|e] c1]; simpl in E; subst c1;
      try (exists b, n, 1%nat; reflexivity).
    destruct (IH (with_frame b n (set_wire w c)) eq_refl) as (b' & n' & k & E').
    exists b', n', (S k). rewrite E'. reflexivity.
Qed.

(** X25.  A call of [_read_one_response_or_timeout], however it ends,
    changes the buffer and the content length and takes rounds from the
    front of the wire; the flags, the writer, the thread, the heartbeat
    fields and the connection dictionary are as they were, the clock has
    not been read and nothing has been logged or sent. *)
Theorem read_touches_the_assembler_only (c : Cfg) :
  exists buf cl k,
    snd (_read_one_response_or_timeout c)
    = set_wire (skipn k (wire (world c))) (with_frame buf cl c).
Proof.
  unfold _read_one_response_or_timeout. apply read_loop_frame. reflexivity.
Qed.

End ReadExtras.

(** ** The further properties on the sample platform *)

Section ExtraExamples.
Local Existing Instance Sample.platform.
Import Sample.

Lemma body_has_declared_length_witness :
  let c := with_frame (B "HE") (Some 5) new_session in
  _event_content_length (self c) = Some 5
  /\ 0 < 5
  /\ feed (B "L") c = (Ret Continue, with_frame (B "HEL") (Some 5) c)
  /\ exists b r,
      B "HE" ++ B "LLO<" = b ++ r /\ len b = 5
      /\ feed (B "LLO<") c
         = (if utf8_valid b
            then Ret (Return (Some (string_of_list_byte b)))
            else Raise UnicodeDecodeError,
            with_frame r None c).
Proof.
  intros c.
  assert (H1 : _event_content_length (self c) = Some 5) by reflexivity.
  assert (H2 : 0 < 5) by lia.
  split; [exact H1|]. split; [exact H2|]. split.
  - exact (body_has_declared_length (B "L") c 5 H1 H2).
  - exact (body_has_declared_length (B "LLO<") c 5 H1 H2).
Defined.

Lemma negative_length_never_waits_witness :
  let c1 := snd (read_headers (with_frame negative_frame None new_session)) in
  read_headers
    (with_frame (_event_buffer (self new_session) ++ negative_frame)
       (_event_content_length (self new_session)) new_session)
  = (Ret true, c1)
  /\ _event_content_length (self c1) = Some (-2)
  /\ -2 < 0
  /\ feed negative_frame new_session
     = (Ret (Return (Some "abc"%string)), with_frame (B "de") None c1).
Proof.
  intros c1.
  assert (H1 : read_headers
                 (with_frame (_event_buffer (self new_session) ++ negative_frame)
                    (_event_content_length (self new_session)) new_session)
               = (Ret true, c1))
    by (vm_compute; reflexivity).
  assert (H2 : _event_content_length (self c1) = Some (-2))
    by (vm_compute; reflexivity).
  assert (H3 : -2 < 0) by lia.
  repeat (split; [assumption|]).
  exact (negative_length_never_waits negative_frame new_session c1 (-2)
           H1 H2 H3).
Defined.

Lemma want_read_defers_witness :
  Forall (fun x : bytes => x <> []) [encode_frame frame_hello]
  /\ turn_of (Ready [encode_frame frame_hello] RecvWantRead) new_session
     = (Ret Continue, with_frame (encode_frame frame_hello) None new_session)
  /\ _read_one_response_or_timeout
       (set_wire [Ready [encode_frame frame_hello] RecvWantRead] new_session)
     = (Ret None,
        set_wire [] (with_frame (encode_frame frame_hello) None new_session)).
Proof.
  assert (H : Forall (fun x : bytes => x <> []) [encode_frame frame_hello])
    by (repeat constructor; discriminate).
  split; [exact H|].
  exact (want_read_defers [encode_frame frame_hello] new_session H).
Defined.

Lemma last_content_length_wins_witness :
  fst (scan_headers [B "Content-Length: 5"] new_session) = Ret tt
  /\ split_once ":" (B "content-length : 7") = [B "content-length "; B " 7"]
  /\ bytes_eqb (bytes_lower (bytes_strip (B "content-length ")))
       (B "content-length")
     = true
  /\ int_bytes (bytes_strip (B " 7")) = Some 7
  /\ existsb names_content_length [B "Host: isy"] = false
  /\ _event_content_length
       (self (snd (scan_headers
                     ([B "Content-Length: 5"]
                        ++ B "content-length : 7" :: [B "Host: isy"])
                     new_session)))
     = Some 7.
Proof.
  assert (H1 : fst (scan_headers [B "Content-Length: 5"] new_session) = Ret tt)
    by (vm_compute; reflexivity).
  assert (H2 : split_once ":" (B "content-length : 7")
               = [B "content-length "; B " 7"])
    by (vm_compute; reflexivity).
  assert (H3 : bytes_eqb (bytes_lower (bytes_strip (B "content-length ")))
                 (B "content-length")
               = true)
    by (vm_compute; reflexivity).
  assert (H4 : int_bytes (bytes_strip (B " 7")) = Some 7)
    by (vm_compute; reflexivity).
  assert (H5 : existsb names_content_length [B "Host: isy"] = false)
    by (vm_compute; reflexivity).
  repeat (split; [assumption|]).
  exact (last_content_length_wins [B "Content-Length: 5"] [B "Host: isy"]
           (B "content-length : 7") (B "content-length ") (B " 7") 7
           new_session H1 H2 H3 H4 H5).
Defined.

Lemma header_without_colon_raises_witness :
  let c := with_frame frame_with_garbage None new_session in
  let pos := bytes_find frame_with_garbage HTTP_HEADER_BODY_SEPERATOR in
  Exists colonless
    (tl (bytes_split (slice (_event_buffer (self c)) 0 pos)
           HTTP_HEADER_SEPERATOR))
  /\ fst (_parse_headers pos c) = Raise ValueError.
Proof.
  intros c pos.
  assert (H : Exists colonless
                (tl (bytes_split (slice (_event_buffer (self c)) 0 pos)
                       HTTP_HEADER_SEPERATOR))).
  { apply Exists_exists. exists (B "garbage"). split.
    - vm_compute. repeat constructor.
    - unfold colonless. vm_compute. intros G.
      repeat (destruct G as [G|G]; [discriminate G|]). exact G. }
  split; [exact H|].
  exact (header_without_colon_raises pos c H).
Defined.

Lemma read_error_ends_watch_witness :
  let c0 := set_wire [SelectError] started_session in
  let c1 := snd (heartbeat_expired c0) in
  let ce := snd (_read_one_response_or_timeout c1) in
  heartbeat_expired c0 = (Ret false, c1)
  /\ _read_one_response_or_timeout c1 = (Raise OSError, ce)
  /\ exists c',
      watch_turn c0 = (Ret false, c')
      /\ watch_loop 1 c0 = Some (Ret tt, c')
      /\ _connected (self c') = false
      /\ _subscribed (self c') = false
      /\ _running (self c') = false
      /\ trace (world c')
         = trace (world started_session)
           ++ [LogWarning (ReadError OSError); SocketClose;
               LogWarning LostConnection; OnLost].
Proof.
  intros c0 c1 ce.
  assert (H1 : heartbeat_expired c0 = (Ret false, c1))
    by (vm_compute; reflexivity).
  assert (H2 : _read_one_response_or_timeout c1 = (Raise OSError, ce))
    by (vm_compute; reflexivity).
  assert (Hc : _connected (self ce) = true) by (vm_compute; reflexivity).
  repeat (split; [assumption|]).
  destruct (read_error_ends_watch c0 c1 ce OSError H1 H2)
    as (c' & Hturn & Hloop & Hconn & Hflags & Htrace).
  exists c'.
  split; [exact Hturn|]. split; [exact (Hloop 0%nat)|].
  split; [exact Hconn|].
  split; [exact (proj1 (Hflags Hc))|].
  split; [exact (proj2 (Hflags Hc))|].
  rewrite Htrace. vm_compute. reflexivity.
Defined.

Lemma heartbeat_timeout_ends_watch_witness :
  _lasthb (self late_session) = Some 0
  /\ _hbwait (self late_session)
     < timedelta_seconds
         (clock (world late_session) (ticks (world late_session)) - 0)
  /\ exists c',
      watch_turn late_session = (Ret false, c')
      /\ watch_loop 1 late_session = Some (Ret tt, c')
      /\ _connected (self c') = false
      /\ wire (world c') = [Ready [B "x"] RecvEmpty]
      /\ trace (world c') = [SocketClose; LogWarning LostConnection; OnLost].
Proof.
  assert (H1 : _lasthb (self late_session) = Some 0) by reflexivity.
  assert (H2 : _hbwait (self late_session)
               < timedelta_seconds
                   (clock (world late_session) (ticks (world late_session))
                    - 0))
    by (vm_compute; reflexivity).
  repeat (split; [assumption|]).
  destruct (heartbeat_timeout_ends_watch late_session 0 H1 H2)
    as (c' & Hturn & Hloop & Hconn & Hwire & _ & Htrace).
  exists c'.
  split; [exact Hturn|]. split; [exact (Hloop 0%nat)|].
  split; [exact Hconn|]. split; [exact Hwire|].
  rewrite Htrace. reflexivity.
Defined.

Lemma silence_before_first_heartbeat_witness :
  _subscribed (self started_session) = true
  /\ _running (self started_session) = true
  /\ _lasthb (self started_session) = None
  /\ 0 <= _hbwait (self started_session)
  /\ wire (world started_session) = []
  /\ watch 1000 started_session = None.
Proof.
  assert (H1 : _subscribed (self started_session) = true) by reflexivity.
  assert (H2 : _running (self started_session) = true) by reflexivity.
  assert (H3 : _lasthb (self started_session) = None) by reflexivity.
  assert (H4 : 0 <= _hbwait (self started_session)) by (simpl; lia).
  assert (H5 : wire (world started_session) = []) by reflexivity.
  repeat (split; [assumption|]).
  exact (proj2 (silence_before_first_heartbeat started_session 1000
                  H1 H2 H3 H4 H5)).
Defined.

Lemma unstarted_session_drops_message_witness :
  let c0 := set_wire [Ready [encode_frame frame_hello] RecvEmpty]
              subscribed_session in
  let c1 := snd (heartbeat_expired c0) in
  let c2 := snd (_read_one_response_or_timeout c1) in
  _running (self c0) = false
  /\ heartbeat_expired c0 = (Ret false, c1)
  /\ _read_one_response_or_timeout c1 = (Ret (Some "HELLO"%string), c2)
  /\ watch_turn c0 = (Ret false, c2)
  /\ watch_loop 1 c0 = Some (Ret tt, c2)
  /\ trace (world c2) = trace (world subscribed_session).
Proof.
  intros c0 c1 c2.
  assert (H1 : _running (self c0) = false) by reflexivity.
  assert (H2 : heartbeat_expired c0 = (Ret false, c1))
    by (vm_compute; reflexivity).
  assert (H3 : _read_one_response_or_timeout c1
               = (Ret (Some "HELLO"%string), c2))
    by (vm_compute; reflexivity).
  repeat (split; [assumption|]).
  destruct (unstarted_session_drops_message c0 c1 c2 (Some "HELLO"%string)
              H1 H2 H3) as [Hturn Hloop].
  split; [exact Hturn|]. split; [exact (Hloop 0%nat)|].
  vm_compute. reflexivity.
Defined.

Lemma unknown_codes_ignored_witness :
  parseString unknown_event = Some (Document unknown_event)
  /\ value_from_xml (Document unknown_event) ATTR_CONTROL = Some "_3"%string
  /\ _route_message unknown_event started_session = (Ret tt, started_session).
Proof.
  assert (H1 : parseString unknown_event = Some (Document unknown_event))
    by reflexivity.
  assert (H2 : match value_from_xml (Document unknown_event) ATTR_CONTROL with
               | None => True
               | Some cntrl =>
                   cntrl = EmptyString
                   \/ (first_is_not_underscore cntrl = false
                       /\ cntrl <> "_0"%string /\ cntrl <> "_1"%string
                       /\ cntrl <> PROP_STATUS)
               end).
  { vm_compute. right. split; [reflexivity|].
    repeat split; intros E; discriminate E. }
  split; [exact H1|]. split; [reflexivity|].
  exact (unknown_codes_ignored unknown_event (Document unknown_event)
           started_session H1 H2).
Defined.

Lemma node_events_routing_witness :
  (exists c',
      _route_message status_event started_session = (Ret tt, c')
      /\ self c' = self started_session
      /\ trace (world c')
         = trace (world started_session)
           ++ [NodesUpdateReceived (Document status_event)])
  /\ (exists c',
      _route_message command_event started_session = (Ret tt, c')
      /\ self c' = self started_session
      /\ trace (world c')
         = trace (world started_session)
           ++ [NodesControlMessageReceived (Document command_event)]).
Proof.
  split.
  - assert (H1 : parseString status_event = Some (Document status_event))
      by reflexivity.
    assert (H2 : value_from_xml (Document status_event) ATTR_CONTROL
                 = Some "ST"%string) by reflexivity.
    assert (H3 : "ST"%string <> EmptyString) by discriminate.
    assert (H4 : "ST"%string <> "_0"%string) by discriminate.
    assert (H5 : "ST"%string = PROP_STATUS
                 \/ first_is_not_underscore "ST" = true)
      by (left; reflexivity).
    exact (node_events_routing status_event (Document status_event) "ST"
             started_session H1 H2 H3 H4 H5).
  - assert (H1 : parseString command_event = Some (Document command_event))
      by reflexivity.
    assert (H2 : value_from_xml (Document command_event) ATTR_CONTROL
                 = Some "DON"%string) by reflexivity.
    assert (H3 : "DON"%string <> EmptyString) by discriminate.
    assert (H4 : "DON"%string <> "_0"%string) by discriminate.
    assert (H5 : "DON"%string = PROP_STATUS
                 \/ first_is_not_underscore "DON" = true)
      by (right; reflexivity).
    exact (node_events_routing command_event (Document command_event) "DON"
             started_session H1 H2 H3 H4 H5).
Defined.

Lemma heartbeat_without_interval_raises_witness :
  let f := request (B "POST reuse HTTP/1.1") (B heartbeat_without_action) in
  let c0 := set_wire [Ready [encode_frame f] RecvEmpty] started_session in
  let c1 := snd (heartbeat_expired c0) in
  let c := snd (_read_one_response_or_timeout c1) in
  parseString heartbeat_without_action
  = Some (Document heartbeat_without_action)
  /\ value_from_xml (Document heartbeat_without_action) ATTR_CONTROL
     = Some "_0"%string
  /\ value_from_xml (Document heartbeat_without_action) ATTR_ACTION = None
  /\ heartbeat_expired c0 = (Ret false, c1)
  /\ _read_one_response_or_timeout c1
     = (Ret (Some heartbeat_without_action), c)
  /\ exists c',
      _route_message heartbeat_without_action c = (Raise TypeError, c')
      /\ _lasthb (self c') = Some 0
      /\ _connected (self c') = true
      /\ trace (world c') = trace (world started_session)
      /\ watch_turn c0 = (Raise TypeError, c')
      /\ watch_loop 1 c0 = Some (Raise TypeError, c').
Proof.
  intros f c0 c1 c.
  assert (H1 : parseString heartbeat_without_action
               = Some (Document heartbeat_without_action)) by reflexivity.
  assert (H2 : value_from_xml (Document heartbeat_without_action) ATTR_CONTROL
               = Some "_0"%string) by reflexivity.
  assert (H3 : value_from_xml (Document heartbeat_without_action) ATTR_ACTION
               = None) by reflexivity.
  assert (H4 : heartbeat_expired c0 = (Ret false, c1))
    by (vm_compute; reflexivity).
  assert (H5 : _read_one_response_or_timeout c1
               = (Ret (Some heartbeat_without_action), c))
    by (vm_compute; reflexivity).
  assert (H6 : _running (self c) = true) by (vm_compute; reflexivity).
  assert (H7 : _subscribed (self c) = true) by (vm_compute; reflexivity).
  assert (H8 : match value_from_xml (Document heartbeat_without_action)
                       ATTR_ACTION with
               | None => True
               | Some a => int_str a = None
               end) by (rewrite H3; exact Logic.I).
  repeat (split; [assumption|]).
  destruct (heartbeat_without_interval_raises heartbeat_without_action
              (Document heartbeat_without_action) c H1 H2 H8)
    as (e & c' & Hroute & He & Hl & _ & Hconn & Htrace & Hloop).
  rewrite H3 in He. subst e.
  destruct (Hloop c0 c1 H4 H5 ltac:(discriminate) H6 H7) as [Hturn Hl1].
  exists c'.
  split; [exact Hroute|].
  split; [rewrite Hl; vm_compute; reflexivity|].
  split; [rewrite Hconn; vm_compute; reflexivity|].
  split; [rewrite Htrace; vm_compute; reflexivity|].
  split; [exact Hturn|]. exact (Hl1 0%nat).
Defined.

Lemma long_interval_never_expires_witness :
  86399 <= _hbwait (self (heartbeat_session 0 86399 864005000000))
  /\ (exists e,
        fst (heartbeat_time (heartbeat_session 0 86399 864005000000)) = Ret e
        /\ 0 <= e <= 86399)
  /\ fst (heartbeat_expired (heartbeat_session 0 86399 864005000000))
     = Ret false.
Proof.
  assert (H : 86399 <= _hbwait (self (heartbeat_session 0 86399 864005000000)))
    by (simpl; lia).
  split; [exact H|].
  exact (long_interval_never_expires
           (heartbeat_session 0 86399 864005000000) H).
Defined.

Lemma clock_set_back_expires_witness :
  _lasthb (self (heartbeat_session 1000000 30 0)) = Some 1000000
  /\ clock (world (heartbeat_session 1000000 30 0))
       (ticks (world (heartbeat_session 1000000 30 0)))
     = 1000000 - 1000000
  /\ 0 <= _hbwait (self (heartbeat_session 1000000 30 0))
  /\ 0 < 1000000
     <= 86400000000
        - 1000000 * (_hbwait (self (heartbeat_session 1000000 30 0)) + 1)
  /\ fst (heartbeat_expired (heartbeat_session 1000000 30 0)) = Ret true.
Proof.
  assert (H1 : _lasthb (self (heartbeat_session 1000000 30 0)) = Some 1000000)
    by reflexivity.
  assert (H2 : clock (world (heartbeat_session 1000000 30 0))
                 (ticks (world (heartbeat_session 1000000 30 0)))
               = 1000000 - 1000000) by reflexivity.
  assert (H3 : 0 <= _hbwait (self (heartbeat_session 1000000 30 0)))
    by (simpl; lia).
  assert (H4 : 0 < 1000000
               <= 86400000000
                  - 1000000
                    * (_hbwait (self (heartbeat_session 1000000 30 0)) + 1))
    by (simpl; lia).
  repeat (split; [assumption|]).
  exact (clock_set_back_expires (heartbeat_session 1000000 30 0)
           1000000 1000000 H1 H2 H3 H4).
Defined.

Lemma writer_outlives_connection_witness :
  let c' := snd (_lost_connect (snd (disconnect started_session))) in
  _writer (self started_session) <> None
  /\ run_all [Disconnect; LostConnect] started_session = Some c'
  /\ _connected (self c') = false
  /\ _writer (self c') <> None
  /\ fst (write true "<x/>" c') = Ret tt.
Proof.
  intros c'.
  assert (H1 : _writer (self started_session) <> None) by discriminate.
  assert (H2 : run_all [Disconnect; LostConnect] started_session = Some c')
    by reflexivity.
  split; [exact H1|]. split; [exact H2|]. split; [reflexivity|].
  exact (writer_outlives_connection [Disconnect; LostConnect]
           started_session c' true "<x/>" H1 H2).
Defined.

Lemma start_session_witness :
  (_thread (self new_session) = None \/ false = false)
  /\ _connected (self new_session) = false
  /\ _subscribed (self new_session) = false
  /\ is_Some (data (self new_session) !! "addr"%string)
  /\ is_Some (data (self new_session) !! "port"%string)
  /\ exists c',
      running_setter true false true true new_session = (Ret tt, c')
      /\ _running (self c') = true /\ _subscribed (self c') = true
      /\ _connected (self c') = true
      /\ _thread (self c') = Some WatchThread
      /\ _writer (self c') = Some SocketFile
      /\ trace (world c')
         = trace (world new_session)
           ++ [LogInfo StartingUpdates; SocketConnect;
               Sent "POST /services 192.168.1.10:80 Content-Length: 52 <Subscribe><duration>infinite</duration></Subscribe>";
               ThreadStart].
Proof.
  assert (H1 : _thread (self new_session) = None \/ false = false)
    by (left; reflexivity).
  assert (H2 : _connected (self new_session) = false) by reflexivity.
  assert (H3 : _subscribed (self new_session) = false) by reflexivity.
  assert (H4 : is_Some (data (self new_session) !! "addr"%string))
    by (apply (bool_decide_unpack _); vm_compute; exact Logic.I).
  assert (H5 : is_Some (data (self new_session) !! "port"%string))
    by (apply (bool_decide_unpack _); vm_compute; exact Logic.I).
  assert (H6 : fst (_create_message
                      (if sid_known new_session then RESUB_MSG else SUB_MSG)
                      new_session)
               = Ret "POST /services 192.168.1.10:80 Content-Length: 52 <Subscribe><duration>infinite</duration></Subscribe>"%string)
    by (vm_compute; reflexivity).
  repeat (split; [assumption|]).
  exact (start_session new_session false _ H1 H2 H3 H4 H5 H6).
Defined.

Lemma start_unreachable_witness :
  (_thread (self new_session) = None \/ false = false)
  /\ _connected (self new_session) = false
  /\ is_Some (data (self new_session) !! "addr"%string)
  /\ is_Some (data (self new_session) !! "port"%string)
  /\ exists c',
      running_setter true false false true new_session = (Ret tt, c')
      /\ self c' = self new_session
      /\ trace (world c')
         = trace (world new_session)
           ++ [LogInfo StartingUpdates; LogError CouldNotConnect]
           ++ [OnLost].
Proof.
  assert (H1 : _thread (self new_session) = None \/ false = false)
    by (left; reflexivity).
  assert (H2 : _connected (self new_session) = false) by reflexivity.
  assert (H4 : is_Some (data (self new_session) !! "addr"%string))
    by (apply (bool_decide_unpack _); vm_compute; exact Logic.I).
  assert (H5 : is_Some (data (self new_session) !! "port"%string))
    by (apply (bool_decide_unpack _); vm_compute; exact Logic.I).
  repeat (split; [assumption|]).
  exact (start_unreachable new_session false true H1 H2 H4 H5).
Defined.

Lemma missing_address_raises_witness :
  (_thread (self no_address_session) = None \/ false = false)
  /\ _connected (self no_address_session) = false
  /\ (data (self no_address_session) !! "addr"%string = None
      \/ data (self no_address_session) !! "port"%string = None)
  /\ connect true no_address_session = (Raise KeyError, no_address_session)
  /\ exists c',
      running_setter true false true true no_address_session
      = (Raise KeyError, c')
      /\ self c' = self no_address_session
      /\ trace (world c')
         = trace (world no_address_session) ++ [LogInfo StartingUpdates].
Proof.
  assert (H1 : _thread (self no_address_session) = None \/ false = false)
    by (left; reflexivity).
  assert (H2 : _connected (self no_address_session) = false) by reflexivity.
  assert (H3 : data (self no_address_session) !! "addr"%string = None
               \/ data (self no_address_session) !! "port"%string = None)
    by (left; reflexivity).
  repeat (split; [assumption|]).
  exact (missing_address_raises no_address_session false true true H1 H2 H3).
Defined.

Lemma stop_session_witness :
  (true = false
   \/ (_thread (self session_with_sid) <> None /\ true = true))
  /\ _subscribed (self session_with_sid) = true
  /\ _connected (self session_with_sid) = true
  /\ _writer (self session_with_sid) <> None
  /\ exists c',
      running_setter true true true true session_with_sid = (Ret tt, c')
      /\ _running (self c') = false /\ _subscribed (self c') = false
      /\ _connected (self c') = false
      /\ trace (world c')
         = trace (world session_with_sid)
           ++ [LogInfo StoppingUpdates;
               Sent "POST /services 192.168.1.10:80 Content-Length: 45 <Unsubscribe><SID>uuid:12</SID></Unsubscribe>";
               SocketClose].
Proof.
  assert (H1 : true = false
               \/ (_thread (self session_with_sid) <> None /\ true = true))
    by (right; split; [discriminate|reflexivity]).
  assert (H2 : _subscribed (self session_with_sid) = true) by reflexivity.
  assert (H3 : _connected (self session_with_sid) = true) by reflexivity.
  assert (H4 : _writer (self session_with_sid) <> None) by discriminate.
  assert (H5 : fst (_create_message UNSUB_MSG session_with_sid)
               = Ret "POST /services 192.168.1.10:80 Content-Length: 45 <Unsubscribe><SID>uuid:12</SID></Unsubscribe>"%string)
    by (vm_compute; reflexivity).
  repeat (split; [assumption|]).
  exact (stop_session session_with_sid true true true _ H1 H2 H3 H4 H5).
Defined.

Lemma stop_with_failing_write_witness :
  (false = false
   \/ (_thread (self session_with_sid) <> None /\ false = true))
  /\ _subscribed (self session_with_sid) = true
  /\ _connected (self session_with_sid) = true
  /\ _writer (self session_with_sid) <> None
  /\ exists c',
      running_setter false false true false session_with_sid
      = (Raise OSError, c')
      /\ _running (self c') = false /\ _subscribed (self c') = true
      /\ _connected (self c') = true
      /\ trace (world c')
         = trace (world session_with_sid) ++ [LogInfo StoppingUpdates].
Proof.
  assert (H1 : false = false
               \/ (_thread (self session_with_sid) <> None /\ false = true))
    by (left; reflexivity).
  assert (H2 : _subscribed (self session_with_sid) = true) by reflexivity.
  assert (H3 : _connected (self session_with_sid) = true) by reflexivity.
  assert (H4 : _writer (self session_with_sid) <> None) by discriminate.
  assert (H5 : fst (_create_message UNSUB_MSG session_with_sid)
               = Ret "POST /services 192.168.1.10:80 Content-Length: 45 <Unsubscribe><SID>uuid:12</SID></Unsubscribe>"%string)
    by (vm_compute; reflexivity).
  repeat (split; [assumption|]).
  exact (stop_with_failing_write session_with_sid false false true _
           H1 H2 H3 H4 H5).
Defined.

Lemma stop_twice_witness :
  let c1 := snd (running_setter false false true true session_with_sid) in
  running_setter false false true true session_with_sid = (Ret tt, c1)
  /\ _connected (self c1) = false /\ _running (self c1) = false
  /\ exists c2,
      running_setter false true false false c1 = (Ret tt, c2)
      /\ self c2 = self c1
      /\ trace (world c2) = trace (world c1) ++ [LogInfo StoppingUpdates].
Proof.
  intros c1.
  assert (H : running_setter false false true true session_with_sid
              = (Ret tt, c1))
    by (vm_compute; reflexivity).
  split; [exact H|].
  exact (stop_twice session_with_sid c1 false true true true false false H).
Defined.

Lemma start_with_failing_write_witness :
  (_thread (self new_session) = None \/ false = false)
  /\ _connected (self new_session) = false
  /\ _subscribed (self new_session) = false
  /\ is_Some (data (self new_session) !! "addr"%string)
  /\ is_Some (data (self new_session) !! "port"%string)
  /\ exists c',
      running_setter true false true false new_session = (Raise OSError, c')
      /\ _running (self c') = _running (self new_session)
      /\ _thread (self c') = _thread (self new_session)
      /\ _subscribed (self c') = false
      /\ _connected (self c') = true
      /\ trace (world c')
         = trace (world new_session) ++ [LogInfo StartingUpdates; SocketConnect].
Proof.
  assert (H1 : _thread (self new_session) = None \/ false = false)
    by (left; reflexivity).
  assert (H2 : _connected (self new_session) = false) by reflexivity.
  assert (H3 : _subscribed (self new_session) = false) by reflexivity.
  assert (H4 : is_Some (data (self new_session) !! "addr"%string))
    by (apply (bool_decide_unpack _); vm_compute; exact Logic.I).
  assert (H5 : is_Some (data (self new_session) !! "port"%string))
    by (apply (bool_decide_unpack _); vm_compute; exact Logic.I).
  assert (H6 : fst (_create_message
                      (if sid_known new_session then RESUB_MSG else SUB_MSG)
                      new_session)
               = Ret "POST /services 192.168.1.10:80 Content-Length: 52 <Subscribe><duration>infinite</duration></Subscribe>"%string)
    by (vm_compute; reflexivity).
  repeat (split; [assumption|]).
  exact (start_with_failing_write new_session false _ H1 H2 H3 H4 H5 H6).
Defined.

End ExtraExamples.
